(** * ClyCites-api, ml-predict: data generator and trainer scripts

    A shallow embedding of the three Python scripts

      - [ml-predict/data/data.py]                 (the data generator)
      - [ml-predict/models/model_training.py]     (the trainer)
      - [src/ml-predict/models/model_training.py] (a second copy of the trainer)

    The scripts are glue around numpy, pandas and scikit-learn.  The parts
    of these libraries that have a simple functional reading (array
    drawing loops, the Fisher-Yates shuffle, DataFrame construction and
    column selection, one-hot encoding, the shuffle split, the metrics)
    are written out below after the library sources.  The parts that have
    none here (the bit generator, IEEE-754 rounding, the allocation of
    arrays, the CSV parser, the random forest) are interfaces: type
    classes whose fields carry the contract the libraries document, the
    same way the scripts rely on them.  The files are part of the world
    a script runs in, and so are the paths whose write fails.  Every
    theorem holds for every implementation of the interfaces; a small
    executable implementation (part 8, shown to meet the contracts in
    part 11) lets the scripts run (part 12).

    Parts 1 to 9 hold the definitions: the libraries, the scripts, the
    implementation and the terms of the statements.  Parts 10 to 12 hold
    the lemmas and the theorems. *)

From Stdlib Require Import ZArith QArith Qabs Qround Qpower Lqa Lia.
From Stdlib Require Import List String Ascii Permutation.
From Stdlib Require Import Sorted SetoidList OrderedTypeEx.
From stdpp Require Import base option list gmap strings.

Import ListNotations.
Local Open Scope string_scope.
Local Open Scope Z_scope.

Set Default Proof Using "Type".

(* ===================================================================== *)
(** * 1. Python exceptions and the script monad *)
(* ===================================================================== *)

(** The exceptions the two scripts can end with.  None of the scripts
    contains a [try]: an exception raised by a call ends the run. *)
Inductive exn : Type :=
| FileNotFoundError (path : string)
| EmptyDataError
| ParserError
| KeyError (missing : list string)
| ValueError (msg : string)
| IndexError
| TypeError (msg : string)
| MemoryError
| OSError (msg : string).

(** A computation over a mutable state [S] that returns an [A] or raises.
    The state is returned in both cases: what a statement did before it
    raised stays done. *)
Definition M (S A : Type) : Type := S -> (exn + A) * S.

Definition ret {S A} (a : A) : M S A := fun s => (inr a, s).

Definition raise {S A} (e : exn) : M S A := fun s => (inl e, s).

Definition bind {S A B} (m : M S A) (k : A -> M S B) : M S B :=
  fun s =>
    match m s with
    | (inl e, s') => (inl e, s')
    | (inr a, s') => k a s'
    end.

Definition get {S} : M S S := fun s => (inr s, s).

Definition put {S} (s : S) : M S unit := fun _ => (inr tt, s).

(** A pure library call that may raise. *)
Definition lift_result {S A} (r : exn + A) : M S A := fun s => (r, s).

Declare Scope py_scope.
Delimit Scope py_scope with py.
Notation "'let!' x ':=' m 'in' k" := (bind m (fun x => k))
  (at level 10, x pattern, m at level 100, k at level 200, only parsing)
  : py_scope.

(** Binding on plain results, for the pure part of the libraries. *)
Definition rbind {A B} (r : exn + A) (k : A -> exn + B) : exn + B :=
  match r with
  | inl e => inl e
  | inr a => k a
  end.

Declare Scope res_scope.
Delimit Scope res_scope with res.
Notation "'let!' x ':=' m 'in' k" := (rbind m (fun x => k))
  (at level 10, x pattern, m at level 100, k at level 200, only parsing)
  : res_scope.

(* ===================================================================== *)
(** * 2. Library interfaces *)
(* ===================================================================== *)

(** ** 2.1 binary64 arithmetic

    A Python float is an IEEE-754 binary64.  Finite floats are modelled by
    the rational they denote; [fl] rounds the exact result of an operation
    to a float.  The contract is the part of IEEE-754 the proofs use:
    rounding is monotone, and a number that is a float already is left
    alone.  [repr] is Python's [repr] of a float, used when a float is
    written to a file or names a category. *)

Definition pow2 (e : Z) : Q := (2 ^ e)%Q.

(** [m * 2^e] with a 53-bit significand and an exponent in binary64's range. *)
Definition binary64 (m e : Z) : Q := (inject_Z m * pow2 e)%Q.

Definition in_format (m e : Z) : Prop :=
  Z.abs m < 2 ^ 53 /\ -1074 <= e <= 971.

(** The text of a finite float starts with a digit or a minus sign. *)
Definition numeric_start (s : string) : bool :=
  match s with
  | EmptyString => false
  | String c _ =>
      (Ascii.eqb c "-" || (Nat.leb 48 (nat_of_ascii c) && Nat.leb (nat_of_ascii c) 57))%bool
  end.

Class Float64 : Type := {
  fl : Q -> Q;
  repr : Q -> string;
  fl_mono : forall x y : Q, (x <= y)%Q -> (fl x <= fl y)%Q;
  fl_exact : forall m e : Z, in_format m e -> (fl (binary64 m e) == binary64 m e)%Q;
  repr_numeric : forall x : Q, numeric_start (repr x) = true
}.

(** ** 2.2 numpy's legacy bit generator

    [np.random.seed], and what [RandomState] draws from the generator:
    [next_double] is a float [k / 2^53] with [0 <= k < 2^53]
    ([random_sample]), [random_interval max] an integer of [[0, max]]
    (numpy draws it by masked rejection). *)
Class BitGenerator : Type := {
  rng_state : Type;
  seed : Z -> rng_state;
  next_double53 : rng_state -> Z * rng_state;
  random_interval : Z -> rng_state -> Z * rng_state;
  next_double53_range : forall s, 0 <= fst (next_double53 s) < 2 ^ 53;
  random_interval_range :
    forall max s, 0 <= max -> 0 <= fst (random_interval max s) <= max
}.

(** ** 2.3 Array allocation

    numpy allocates the array of a result before it fills it.  A size
    is refused when it does not fit the index type ([npy_intp], 63 bits
    and a sign), when the bytes of the array do not, or when the memory
    is not there: with a [ValueError] or a [MemoryError], by size and
    machine.  [max_size] is the largest size for which the machine has
    the memory for the arrays of a script, [refusal] the exception for a
    larger one. *)
Class Allocator : Type := {
  max_size : Z;
  refusal : Z -> exn;
  max_size_range : 0 <= max_size < 2 ^ 63
}.

(* ===================================================================== *)
(** * 3. numpy: the legacy [RandomState] *)
(* ===================================================================== *)

Section Numpy.
Context `{F : Float64} `{G : BitGenerator} `{L : Allocator}.

(** [np.random.seed(z)]: the global generator is re-initialised, whatever
    it held before. *)
Definition np_random_seed (z : Z) : M rng_state unit := put (seed z).

(** [mt19937_next_double]: [(a * 67108864.0 + b) / 9007199254740992.0],
    the 53-bit integer [a * 2^26 + b] over [2^53]; the quotient is exact. *)
Definition next_double : M rng_state Q :=
  fun s => let (k, s') := next_double53 s in (inr (Qmake k 9007199254740992), s').

(** [random_uniform(state, off, rng)]: [off + rng * next_double(state)],
    each operation rounded. *)
Definition random_uniform (off rng : Q) : M rng_state Q :=
  (let! u := next_double in
   ret (fl (off + fl (rng * u))))%py.

(** An array of [n] draws, filled front to back. *)
Fixpoint fill {A : Type} (n : nat) (draw : M rng_state A) : M rng_state (list A) :=
  match n with
  | O => ret []
  | S n' => (let! x := draw in
             let! xs := fill n' draw in
             ret (x :: xs))%py
  end.

(** [np.random.uniform(low, high, size)]: the range [high - low] is
    computed once; the array is allocated before anything is drawn, so
    a negative [size] and a [size] that cannot be allocated are refused
    with the generator as it was. *)
Definition uniform (low high : Q) (size : Z) : M rng_state (list Q) :=
  let range := fl (high - low) in
  if size <? 0 then raise (ValueError "negative dimensions are not allowed")
  else if max_size <? size then raise (refusal size)
  else fill (Z.to_nat size) (random_uniform low range).

(** [np.random.randint(low, high, size)]: [low + random_interval(high - 1 - low)]
    for each element. *)
Definition randint (low high : Z) (size : Z) : M rng_state (list Z) :=
  if high <=? low then raise (ValueError "low >= high")
  else if size <? 0 then raise (ValueError "negative dimensions are not allowed")
  else if max_size <? size then raise (refusal size)
  else fill (Z.to_nat size)
            (fun s => let (j, s') := random_interval (high - 1 - low) s in
                      (inr (low + j), s')).

(** Fancy indexing [a[idx]]: an index outside the array raises. *)
Fixpoint getitems {A : Type} (a : list A) (idx : list nat) : exn + list A :=
  match idx with
  | [] => inr []
  | i :: idx' =>
      match a !! i with
      | None => inl IndexError
      | Some x => (let! xs := getitems a idx' in inr (x :: xs))%res
      end
  end.

(** [np.random.choice(a, size)] with replacement and no weights:
    [a[randint(0, len(a), size)]]. *)
Definition choice (a : list string) (size : Z) : M rng_state (list string) :=
  if (Nat.eqb (length a) 0 && negb (size =? 0))%bool
  then raise (ValueError "'a' cannot be empty unless no samples are taken")
  else (let! idx := randint 0 (Z.of_nat (length a)) size in
        lift_result (getitems a (map Z.to_nat idx)))%py.

(** In-place swap [x[i], x[j] = x[j], x[i]]. *)
Definition swap {A : Type} (x : list A) (i j : nat) : list A :=
  match x !! i, x !! j with
  | Some xi, Some xj => <[i := xj]> (<[j := xi]> x)
  | _, _ => x
  end.

(** [RandomState.shuffle]: for [i] from [n - 1] down to [1], swap [x[i]]
    with [x[j]], [j = random_interval(i)].  [shuffle_from i x] runs the
    loop from index [i] down. *)
Fixpoint shuffle_from {A : Type} (i : nat) (x : list A) : M rng_state (list A) :=
  match i with
  | O => ret x
  | S i' =>
      fun s => let (j, s') := random_interval (Z.of_nat i) s in
               shuffle_from i' (swap x i (Z.to_nat j)) s'
  end.

Definition shuffle {A : Type} (x : list A) : M rng_state (list A) :=
  shuffle_from (length x - 1) x.

(** [RandomState.permutation(n)]: [shuffle(arange(n))]. *)
Definition permutation (n : nat) : M rng_state (list nat) :=
  shuffle (seq 0 n).

End Numpy.

(* ===================================================================== *)
(** * 4. pandas: DataFrame, Series, one-hot encoding, CSV output *)
(* ===================================================================== *)

(** A column is a typed array: [float64] with [NaN] ([None]), [object]
    holding strings or a missing value ([None]), or [bool]. *)
Inductive column : Type :=
| FloatCol (xs : list (option Q))
| ObjCol (xs : list (option string))
| BoolCol (xs : list bool).

(** One value of a column, as a row shows it. *)
Inductive cell : Type :=
| Float (x : Q)
| Text (s : string)
| Flag (b : bool)
| NaN.

Definition float_cell (x : option Q) : cell :=
  match x with Some q => Float q | None => NaN end.

Definition text_cell (x : option string) : cell :=
  match x with Some s => Text s | None => NaN end.

Definition cells (c : column) : list cell :=
  match c with
  | FloatCol xs => map float_cell xs
  | ObjCol xs => map text_cell xs
  | BoolCol xs => map Flag xs
  end.

Definition col_length (c : column) : nat :=
  match c with
  | FloatCol xs => length xs
  | ObjCol xs => length xs
  | BoolCol xs => length xs
  end.

(** The number a cell counts as in a sum ([True] is 1, [False] is 0). *)
Definition cell_value (c : cell) : Q :=
  match c with
  | Float x => x
  | Flag true => 1%Q
  | _ => 0%Q
  end.

(** Columns in order, each under its label, and the row labels. *)
Record DataFrame : Type := {
  df_index : list nat;
  df_columns : list (string * column)
}.

Record Series : Type := {
  s_index : list nat;
  s_values : column
}.

Definition nrows (df : DataFrame) : nat := length (df_index df).

Definition column_names (df : DataFrame) : list string :=
  map fst (df_columns df).

(** The rows of a table, each a list of (label, value) in column order
    (what [df.to_dict('records')] gives). *)
Definition row_at (df : DataFrame) (i : nat) : list (string * cell) :=
  map (fun nc => (fst nc, nth i (cells (snd nc)) NaN)) (df_columns df).

Definition rows (df : DataFrame) : list (list (string * cell)) :=
  map (row_at df) (seq 0 (nrows df)).

(** [pd.DataFrame(data)] for a dict of arrays: the arrays must have one
    length, the index is [RangeIndex(n)]. *)
Definition DataFrame_of_dict (data : list (string * column)) : exn + DataFrame :=
  match data with
  | [] => inr {| df_index := []; df_columns := [] |}
  | (_, c) :: _ =>
      let n := col_length c in
      if forallb (fun nc => Nat.eqb (col_length (snd nc)) n) data
      then inr {| df_index := seq 0 n; df_columns := data |}
      else inl (ValueError "All arrays must be of the same length")
  end.

(** [df.head()]: the first five rows. *)
Definition column_head (n : nat) (c : column) : column :=
  match c with
  | FloatCol xs => FloatCol (firstn n xs)
  | ObjCol xs => ObjCol (firstn n xs)
  | BoolCol xs => BoolCol (firstn n xs)
  end.

Definition df_head (df : DataFrame) : DataFrame :=
  {| df_index := firstn 5 (df_index df);
     df_columns := map (fun nc => (fst nc, column_head 5 (snd nc))) (df_columns df) |}.

(** [df[name]]: the column under a label, a [KeyError] when there is none. *)
Definition lookup_column (name : string) (cols : list (string * column)) : option column :=
  snd <$> List.find (fun nc => String.eqb (fst nc) name) cols.

Definition getitem (df : DataFrame) (name : string) : exn + Series :=
  match lookup_column name (df_columns df) with
  | Some c => inr {| s_index := df_index df; s_values := c |}
  | None => inl (KeyError [name])
  end.

(** [df[names]] for a list of labels: the labels that match no column are
    reported in a [KeyError]; otherwise the columns come in the order of
    [names] (every column of a repeated label). *)
Definition has_column (cols : list (string * column)) (name : string) : bool :=
  existsb (fun nc => String.eqb (fst nc) name) cols.

Definition getitem_list (df : DataFrame) (names : list string) : exn + DataFrame :=
  match List.filter (fun name => negb (has_column (df_columns df) name)) names with
  | [] =>
      inr {| df_index := df_index df;
             df_columns :=
               flat_map (fun name =>
                           List.filter (fun nc => String.eqb (fst nc) name) (df_columns df))
                        names |}
  | missing => inl (KeyError missing)
  end.

(** ** 4.1 Categories of a column

    pandas takes the categories of a column to be its distinct values that
    are not missing, sorted ([factorize] with [sort=True]). *)
Section SortUniq.
Context {A : Type} (cmp : A -> A -> comparison).

Fixpoint insert_uniq (x : A) (l : list A) : list A :=
  match l with
  | [] => [x]
  | y :: l' =>
      match cmp x y with
      | Lt => x :: l
      | Eq => l
      | Gt => y :: insert_uniq x l'
      end
  end.

Definition sort_uniq (l : list A) : list A := fold_right insert_uniq [] l.
End SortUniq.

(** The values of a column that are not missing. *)
Fixpoint present {A : Type} (xs : list (option A)) : list A :=
  match xs with
  | [] => []
  | Some x :: xs' => x :: present xs'
  | None :: xs' => present xs'
  end.

Definition is_text (lv : string) (x : option string) : bool :=
  match x with Some s => String.eqb s lv | None => false end.

Definition is_float (lv : Q) (x : option Q) : bool :=
  match x with Some q => Qeq_bool q lv | None => false end.

Definition str_bool (b : bool) : string := if b then "True" else "False".

Section Pandas.
Context `{F : Float64}.

(** [_get_dummies_1d]: one indicator column per category, named
    [prefix_category]; a missing value sets no indicator
    ([dummy_na=False]); a column with no category gives no column. *)
Definition get_dummies_1d (pfx : string) (c : column) : list (string * column) :=
  match c with
  | ObjCol xs =>
      map (fun lv => (pfx ++ "_" ++ lv, BoolCol (map (is_text lv) xs)))
          (sort_uniq String.compare (present xs))
  | FloatCol xs =>
      map (fun lv => (pfx ++ "_" ++ repr lv, BoolCol (map (is_float lv) xs)))
          (sort_uniq Qcompare (present xs))
  | BoolCol xs =>
      map (fun lv => (pfx ++ "_" ++ str_bool lv, BoolCol (map (Bool.eqb lv) xs)))
          (sort_uniq Bool.compare xs)
  end.

(** [pd.get_dummies(df, columns=cols)]: [df[cols]] is looked up first (a
    [KeyError] for a label that is not there); the result is [df] without
    the encoded columns, followed by the indicator columns of each
    encoded column. *)
Definition get_dummies (df : DataFrame) (cols : list string) : exn + DataFrame :=
  (let! enc := getitem_list df cols in
   inr {| df_index := df_index df;
          df_columns :=
            List.filter (fun nc => negb (existsb (String.eqb (fst nc)) cols))
                        (df_columns df)
            ++ flat_map (fun nc => get_dummies_1d (fst nc) (snd nc)) (df_columns enc) |})%res.

(** ** 4.2 [to_csv(path, index=False)]

    A header line with the column labels, then one line per row; fields
    are separated by commas and quoted only when they hold a comma, a
    quote or a line break; a missing value is written as the empty field. *)
Definition dquote : ascii := ascii_of_nat 34.

Definition needs_quote (s : string) : bool :=
  existsb (fun c => (Ascii.eqb c "," || Ascii.eqb c dquote
                     || Ascii.eqb c (ascii_of_nat 10) || Ascii.eqb c (ascii_of_nat 13))%bool)
          (list_ascii_of_string s).

Fixpoint double_quotes (s : string) : string :=
  match s with
  | EmptyString => EmptyString
  | String c s' =>
      if Ascii.eqb c dquote then String c (String c (double_quotes s'))
      else String c (double_quotes s')
  end.

Definition csv_field (s : string) : string :=
  if needs_quote s
  then String dquote (double_quotes s ++ String dquote EmptyString)
  else s.

Definition csv_cell (c : cell) : string :=
  match c with
  | Float x => csv_field (repr x)
  | Text s => csv_field s
  | Flag b => str_bool b
  | NaN => ""
  end.

Definition newline : string := String (ascii_of_nat 10) EmptyString.

Definition csv_line (fields : list string) : string :=
  String.concat "," fields ++ newline.

Definition csv_text (df : DataFrame) : string :=
  csv_line (map csv_field (column_names df))
  ++ String.concat "" (map (fun r => csv_line (map (fun nc => csv_cell (snd nc)) r)) (rows df)).

End Pandas.

(** ** 4.3 [pd.read_csv]

    The parser is an interface.  What pandas guarantees of a table it
    read: every column has as many values as the index has labels, and
    no two columns share a label (repeated header names are renamed).
    Nothing is guaranteed of the index: it is [RangeIndex(n)] for a file
    as the generator writes it, but when the data lines have one field
    more than the header, pandas takes the first field of each line as
    the label of the row, and such labels can repeat. *)
Definition well_formed (df : DataFrame) : Prop :=
  Forall (fun nc => col_length (snd nc) = nrows df) (df_columns df)
  /\ List.NoDup (column_names df).

Class CsvParser : Type := {
  parse_csv : string -> exn + DataFrame;
  parse_csv_well_formed : forall text df, parse_csv text = inr df -> well_formed df
}.

(** Positional row selection [df.iloc[idx]], [s.iloc[idx]]. *)
Definition column_take (c : column) (idx : list nat) : exn + column :=
  match c with
  | FloatCol xs => (let! ys := getitems xs idx in inr (FloatCol ys))%res
  | ObjCol xs => (let! ys := getitems xs idx in inr (ObjCol ys))%res
  | BoolCol xs => (let! ys := getitems xs idx in inr (BoolCol ys))%res
  end.

Fixpoint columns_take (cols : list (string * column)) (idx : list nat)
  : exn + list (string * column) :=
  match cols with
  | [] => inr []
  | (name, c) :: cols' =>
      (let! c' := column_take c idx in
       let! rest := columns_take cols' idx in
       inr ((name, c') :: rest))%res
  end.

Definition iloc (df : DataFrame) (idx : list nat) : exn + DataFrame :=
  (let! index := getitems (df_index df) idx in
   let! cols := columns_take (df_columns df) idx in
   inr {| df_index := index; df_columns := cols |})%res.

Definition series_iloc (s : Series) (idx : list nat) : exn + Series :=
  (let! index := getitems (s_index s) idx in
   let! vals := column_take (s_values s) idx in
   inr {| s_index := index; s_values := vals |})%res.

(* ===================================================================== *)
(** * 5. scikit-learn: shuffle split, metrics, the classifier interface *)
(* ===================================================================== *)

(** The float nearest to [0.2], the [test_size] both trainers pass:
    [(0.2).as_integer_ratio()]. *)
Definition float_0_2 : Q := Qmake 3602879701896397 18014398509481984.

(** Equality and order of labels.  Labels of one array have one type; the
    order across types only makes [cell_compare] total. *)
Definition cell_eqb (a b : cell) : bool :=
  match a, b with
  | Float x, Float y => Qeq_bool x y
  | Text s, Text t => String.eqb s t
  | Flag x, Flag y => Bool.eqb x y
  | _, _ => false
  end.

Definition cell_rank (a : cell) : Z :=
  match a with
  | Flag _ => 0
  | Float _ => 1
  | Text _ => 2
  | NaN => 3
  end.

Definition cell_compare (a b : cell) : comparison :=
  match a, b with
  | Float x, Float y => Qcompare x y
  | Text s, Text t => String.compare s t
  | Flag x, Flag y => Bool.compare x y
  | _, _ => Z.compare (cell_rank a) (cell_rank b)
  end.

(** One line of the classification report. *)
Record class_row : Type := {
  cr_label : cell;
  cr_precision : Q;
  cr_recall : Q;
  cr_f1 : Q;
  cr_support : nat
}.

Section Sklearn.
Context `{F : Float64} `{G : BitGenerator} `{L : Allocator}.

(** [_validate_shuffle_split] for a float [test_size] and no
    [train_size]: [n_test = ceil(test_size * n_samples)],
    [n_train = n_samples - n_test], and an empty train set is refused. *)
Definition validate_shuffle_split (n_samples : nat) (test_size : Q) : exn + (nat * nat) :=
  if (Qle_bool test_size 0 || Qle_bool 1 test_size)%bool
  then inl (ValueError "test_size should be in the (0, 1) range")
  else
    let n_test := Qceiling (fl (test_size * inject_Z (Z.of_nat n_samples))) in
    let n_train := Z.of_nat n_samples - n_test in
    if n_train =? 0
    then inl (ValueError "the resulting train set will be empty")
    else inr (Z.to_nat n_train, Z.to_nat n_test).

(** [ShuffleSplit._iter_indices]: one permutation drawn from a fresh
    [RandomState(random_state)]; the test rows are its first [n_test]
    entries, the train rows the [n_train] after them. *)
Definition shuffle_split_indices (n_samples n_train n_test : nat) (random_state : Z)
  : exn + (list nat * list nat) :=
  match permutation n_samples (seed random_state) with
  | (inl e, _) => inl e
  | (inr perm, _) =>
      inr (firstn n_train (skipn n_test perm), firstn n_test perm)
  end.

(** [train_test_split(X, y, test_size=.., random_state=..)]: both arrays
    are indexed with the same train and test positions; the result is
    [X_train, X_test, y_train, y_test]. *)
Definition train_test_split (X : DataFrame) (y : Series) (test_size : Q) (random_state : Z)
  : exn + (DataFrame * DataFrame * Series * Series) :=
  if negb (Nat.eqb (nrows X) (length (s_index y)))
  then inl (ValueError "Found input variables with inconsistent numbers of samples")
  else
    (let! (n_train, n_test) := validate_shuffle_split (nrows X) test_size in
     let! (train, test) := shuffle_split_indices (nrows X) n_train n_test random_state in
     let! X_train := iloc X train in
     let! X_test := iloc X test in
     let! y_train := series_iloc y train in
     let! y_test := series_iloc y test in
     inr (X_train, X_test, y_train, y_test))%res.

End Sklearn.

(** The classifier and the label validation of the metrics are
    interfaces.  A fitted forest predicts, for each row, one of the classes
    it was fitted on ([classes_], the distinct labels of [y_train]); that
    is the only property of [RandomForestClassifier] used.
    [check_targets] is [_check_targets]'s judgement of the label types
    (an exception for types the metrics refuse); [joblib_bytes] is what
    [joblib.dump] writes. *)
Class Estimator : Type := {
  forest : Type;
  rf_fit : nat -> Z -> DataFrame -> Series -> exn + forest;
  rf_predict : forest -> DataFrame -> exn + list cell;
  check_targets : list cell -> list cell -> exn + unit;
  joblib_bytes : forest -> string;
  rf_predict_spec :
    forall n_estimators random_state X y clf X' y_pred,
      rf_fit n_estimators random_state X y = inr clf ->
      rf_predict clf X' = inr y_pred ->
      length y_pred = nrows X' /\
      Forall (fun c => In c (cells (s_values y))) y_pred
}.

Section Metrics.
Context `{F : Float64} `{E : Estimator}.

Definition count_where {A B : Type} (p : A -> B -> bool) (xs : list A) (ys : list B) : nat :=
  length (List.filter (fun xy => p (fst xy) (snd xy)) (combine xs ys)).

Definition ratio (num den : nat) : Q :=
  fl (inject_Z (Z.of_nat num) / inject_Z (Z.of_nat den)).

(** [accuracy_score(y_true, y_pred)]: the share of positions where the
    two agree ([nan] for no position at all). *)
Definition accuracy_score (y_true y_pred : list cell) : exn + cell :=
  if negb (Nat.eqb (length y_true) (length y_pred))
  then inl (ValueError "Found input variables with inconsistent numbers of samples")
  else
    (let! _ := check_targets y_true y_pred in
     inr (match length y_true with
          | O => NaN
          | n => Float (ratio (count_where cell_eqb y_true y_pred) n)
          end))%res.

(** Precision, recall and F1 of one label, [0.0] where the denominator
    is zero ([zero_division="warn"]). *)
Definition safe_ratio (num den : nat) : Q :=
  match den with
  | O => 0%Q
  | _ => ratio num den
  end.

Definition report_row (y_true y_pred : list cell) (l : cell) : class_row :=
  let tp := count_where (fun t p => cell_eqb t l && cell_eqb p l)%bool y_true y_pred in
  let true_sum := length (List.filter (fun t => cell_eqb t l) y_true) in
  let pred_sum := length (List.filter (fun p => cell_eqb p l) y_pred) in
  {| cr_label := l;
     cr_precision := safe_ratio tp pred_sum;
     cr_recall := safe_ratio tp true_sum;
     cr_f1 := safe_ratio (2 * tp) (true_sum + pred_sum);
     cr_support := true_sum |}.

(** [classification_report(y_true, y_pred)]: one line per label of
    [unique_labels(y_true, y_pred)], the sorted distinct labels of both
    arrays.  (The averages printed under the lines are not modelled.) *)
Definition unique_labels (y_true y_pred : list cell) : list cell :=
  sort_uniq cell_compare (y_true ++ y_pred).

Definition classification_report (y_true y_pred : list cell) : exn + list class_row :=
  if negb (Nat.eqb (length y_true) (length y_pred))
  then inl (ValueError "Found input variables with inconsistent numbers of samples")
  else
    (let! _ := check_targets y_true y_pred in
     inr (map (report_row y_true y_pred) (unique_labels y_true y_pred)))%res.

End Metrics.

(* ===================================================================== *)
(** * 6. The world the scripts run in *)
(* ===================================================================== *)

(** What [print] received. *)
Inductive pyval : Type :=
| VStr (s : string)
| VCell (c : cell)
| VFrame (df : DataFrame)
| VReport (r : list class_row).

Section World.
Context `{F : Float64} `{G : BitGenerator} `{L : Allocator} `{P : CsvParser} `{E : Estimator}.

(** The global [np.random] generator, the files of the working
    directory, the paths that cannot be written, and the console (one
    entry per [print] call).

    A path of [write_faults] cannot be written: opening it or writing
    to it raises an [OSError] (a [PermissionError], a missing directory,
    a full disk) with the message held there.  What the failed write
    leaves is held too: [None] when the file could not be opened, so it
    is as it was, and [Some k] when the file was opened, and so
    truncated, and the write broke off after [k] characters. *)
Record world : Type := {
  np_random : rng_state;
  files : gmap string string;
  write_faults : gmap string (string * option nat);
  stdout : list (list pyval)
}.

Definition with_np_random {A : Type} (m : M rng_state A) : M world A :=
  fun w =>
    let (r, s) := m (np_random w) in
    (r, {| np_random := s; files := files w; write_faults := write_faults w;
           stdout := stdout w |}).

Definition print (args : list pyval) : M world unit :=
  fun w => (inr tt, {| np_random := np_random w; files := files w;
                       write_faults := write_faults w;
                       stdout := stdout w ++ [args] |}).

Definition with_files (fs : gmap string string) (w : world) : world :=
  {| np_random := np_random w; files := fs; write_faults := write_faults w;
     stdout := stdout w |}.

(** What a write that failed leaves of the files. *)
Definition files_left (path text : string) (kept : option nat)
           (fs : gmap string string) : gmap string string :=
  match kept with
  | None => fs
  | Some k => <[path := String.substring 0 k text]> fs
  end.

(** [open(path, "w")] and the writes to it, as [to_csv] and [joblib.dump]
    do them. *)
Definition write_file (path text : string) : M world unit :=
  fun w =>
    match write_faults w !! path with
    | None => (inr tt, with_files (<[path := text]> (files w)) w)
    | Some (msg, kept) =>
        (inl (OSError msg), with_files (files_left path text kept (files w)) w)
    end.

(** [pd.read_csv(path)]. *)
Definition read_csv (path : string) : M world DataFrame :=
  fun w =>
    match files w !! path with
    | None => (inl (FileNotFoundError path), w)
    | Some text => (parse_csv text, w)
    end.

(** [df.to_csv(path, index=False)]: an [OSError] of the write is not
    caught. *)
Definition to_csv (df : DataFrame) (path : string) : M world unit :=
  write_file path (csv_text df).

(** [joblib.dump(clf, path)]: returns the list of files written; an
    [OSError] of the write is not caught. *)
Definition joblib_dump (clf : forest) (path : string) : M world (list string) :=
  (let! _ := write_file path (joblib_bytes clf) in ret [path])%py.

End World.

(* ===================================================================== *)
(** * 7. The scripts *)
(* ===================================================================== *)

(** The module-level names a trainer script has bound when it ends. *)
Record trainer_globals `{E : Estimator} : Type := {
  dummy_data : DataFrame;
  features : list string;
  target : string;
  X_train : DataFrame;
  X_test : DataFrame;
  y_train : Series;
  y_test : Series;
  clf : forest;
  y_pred : list cell;
  accuracy : cell
}.

(** ** 7.1 [ml-predict/data/data.py] *)
Module Generator.
Section Script.
Context `{F : Float64} `{G : BitGenerator} `{L : Allocator}.

(** [def generate_dummy_data(num_samples=1000)]. *)
Definition generate_dummy_data (num_samples : option Z) : M rng_state DataFrame :=
  let num_samples := default 1000 num_samples in
  (let! _ := np_random_seed 42 in
   let! temperature := uniform 15 35 num_samples in
   let! precipitation := uniform 0 100 num_samples in
   let! soil_ph := uniform 4 8.5 num_samples in
   let! climate_zones := choice ["Tropical"; "Temperate"; "Arctic"] num_samples in
   let! input_expenses := uniform 1000 5000 num_samples in
   let! output_prices := uniform 5000 10000 num_samples in
   let! products :=
     choice ["Wheat"; "Corn"; "Rice"; "Soybeans"; "Potatoes"] num_samples in
   let data :=
     [ ("Temperature (Celsius)", FloatCol (map Some temperature));
       ("Precipitation (mm)", FloatCol (map Some precipitation));
       ("Soil pH", FloatCol (map Some soil_ph));
       ("Climate Zone", ObjCol (map Some climate_zones));
       ("Input Expenses (Currency)", FloatCol (map Some input_expenses));
       ("Output Prices (Currency)", FloatCol (map Some output_prices));
       ("Recommended Product", ObjCol (map Some products)) ] in
   lift_result (DataFrame_of_dict data))%py.

(** The module body: generate with the default count, print the first
    rows, write the file.  The result is the module's [dummy_data]. *)
Definition script : M world DataFrame :=
  (let! dummy_data := with_np_random (generate_dummy_data None) in
   let! _ := print [VFrame (df_head dummy_data)] in
   let! _ := to_csv dummy_data "dummy_agricultural_data.csv" in
   ret dummy_data)%py.

End Script.
End Generator.

(** ** 7.2 [ml-predict/models/model_training.py] *)
Module Trainer.
Section Script.
Context `{F : Float64} `{G : BitGenerator} `{L : Allocator} `{P : CsvParser} `{E : Estimator}.

Definition script : M world trainer_globals :=
  (let! dummy_data := read_csv "dummy_agricultural_data.csv" in
   let! dummy_data := lift_result (get_dummies dummy_data ["Climate Zone"]) in
   let features :=
     [ "Temperature (Celsius)"; "Precipitation (mm)"; "Soil pH";
       "Input Expenses (Currency)"; "Output Prices (Currency)";
       "Climate Zone_Arctic"; "Climate Zone_Temperate"; "Climate Zone_Tropical" ] in
   let target := "Recommended Product" in
   let! X := lift_result (getitem_list dummy_data features) in
   let! y := lift_result (getitem dummy_data target) in
   let! (X_train, X_test, y_train, y_test) :=
     lift_result (train_test_split X y float_0_2 42) in
   let! clf := lift_result (rf_fit 100 42 X_train y_train) in
   let! y_pred := lift_result (rf_predict clf X_test) in
   let! accuracy := lift_result (accuracy_score (cells (s_values y_test)) y_pred) in
   let! _ := print [VStr "Accuracy:"; VCell accuracy] in
   let! _ := print [VStr (newline ++ "Classification Report:")] in
   let! report := lift_result (classification_report (cells (s_values y_test)) y_pred) in
   let! _ := print [VReport report] in
   let! _ := joblib_dump clf "agricultural_product_recommendation_model.joblib" in
   ret {| dummy_data := dummy_data; features := features; target := target;
          X_train := X_train; X_test := X_test; y_train := y_train; y_test := y_test;
          clf := clf; y_pred := y_pred; accuracy := accuracy |})%py.

End Script.
End Trainer.

(** ** 7.3 [src/ml-predict/models/model_training.py] *)
Module TrainerCopy.
Section Script.
Context `{F : Float64} `{G : BitGenerator} `{L : Allocator} `{P : CsvParser} `{E : Estimator}.

Definition script : M world trainer_globals :=
  (let! dummy_data := read_csv "dummy_agricultural_data.csv" in
   let! dummy_data := lift_result (get_dummies dummy_data ["Climate Zone"]) in
   let features :=
     [ "Temperature (Celsius)"; "Precipitation (mm)"; "Soil pH";
       "Input Expenses (Currency)"; "Output Prices (Currency)";
       "Climate Zone_Arctic"; "Climate Zone_Temperate"; "Climate Zone_Tropical" ] in
   let target := "Recommended Product" in
   let! X := lift_result (getitem_list dummy_data features) in
   let! y := lift_result (getitem dummy_data target) in
   let! (X_train, X_test, y_train, y_test) :=
     lift_result (train_test_split X y float_0_2 42) in
   let! clf := lift_result (rf_fit 100 42 X_train y_train) in
   let! y_pred := lift_result (rf_predict clf X_test) in
   let! accuracy := lift_result (accuracy_score (cells (s_values y_test)) y_pred) in
   let! _ := print [VStr "Accuracy:"; VCell accuracy] in
   let! _ := print [VStr (newline ++ "Classification Report:")] in
   let! report := lift_result (classification_report (cells (s_values y_test)) y_pred) in
   let! _ := print [VReport report] in
   let! _ := joblib_dump clf "agricultural_product_recommendation_model.joblib" in
   ret {| dummy_data := dummy_data; features := features; target := target;
          X_train := X_train; X_test := X_test; y_train := y_train; y_test := y_test;
          clf := clf; y_pred := y_pred; accuracy := accuracy |})%py.

End Script.
End TrainerCopy.

(* ===================================================================== *)
(** * 8. An implementation of the interfaces *)
(* ===================================================================== *)

(** ** 8.1 binary64 with round-to-nearest, ties to even

    [round_binary64 x] is the float nearest to [x]: the multiple of
    [2^e] nearest to [x], ties to the even multiple, where [2^e] is the
    spacing of the floats around [x] ([e] is 52 below the binary exponent
    of [x], and never below -1074, the exponent of the subnormal floats).
    The exponent is not bounded above: the numbers of the two scripts are
    far from the overflow threshold. *)

Definition round_half_even (x : Q) : Z :=
  let f := Qfloor x in
  match Qcompare (x - inject_Z f) (1 # 2) with
  | Lt => f
  | Gt => f + 1
  | Eq => if Z.even f then f else f + 1
  end.

Definition ilog2 (x : Q) : Z :=
  let l := Z.log2 (Qnum x) - Z.log2 (Zpos (Qden x)) in
  if Qle_bool (pow2 l) x then l else l - 1.

Definition ulp_exponent (x : Q) : Z := Z.max (ilog2 x - 52) (-1074).

Definition round_to_grid (e : Z) (x : Q) : Q :=
  (inject_Z (round_half_even (x / pow2 e)) * pow2 e)%Q.

Definition round_pos (x : Q) : Q := round_to_grid (ulp_exponent x) x.

Definition round_binary64 (x : Q) : Q :=
  match Qcompare x 0 with
  | Eq => 0%Q
  | Gt => round_pos x
  | Lt => (- round_pos (- x))%Q
  end.

(** The text of a float, in fixed notation with six decimals.  (Python
    writes the shortest text that reads back as the same float; of the
    text only that it starts as a number does is used.) *)
Definition digit_char (d : Z) : ascii := ascii_of_nat (48 + Z.to_nat (d mod 10)).

Fixpoint show_digits (fuel : nat) (n : Z) (acc : string) : string :=
  match fuel with
  | O => acc
  | S fuel' =>
      let acc' := String (digit_char n) acc in
      if n / 10 =? 0 then acc' else show_digits fuel' (n / 10) acc'
  end.

Definition show_Z (n : Z) : string :=
  show_digits (S (Z.to_nat (Z.log2 n))) n "".

Definition show_fraction (x : Q) : string :=
  match show_Z (1000000 + Qfloor (x * 1000000)) with
  | String _ digits => digits
  | EmptyString => EmptyString
  end.

Definition show_float (x : Q) : string :=
  let a := Qabs x in
  let i := Qfloor a in
  let text := show_Z i ++ "." ++ show_fraction (a - inject_Z i) in
  if Qle_bool 0 x then text else String "-" text.

(** ** 8.2 The Mersenne Twister of numpy's legacy [RandomState]

    [mt19937_seed], [mt19937_gen] and [mt19937_next] of numpy's
    [mt19937.c], on 32-bit words held in [Z] with the wrap-around written
    out.  The state is the 624 key words and the position of the next
    word. *)

Definition u32 (x : Z) : Z := Z.land x (Z.ones 32).

Record mt_state : Type := { mt_key : list Z; mt_pos : nat }.

(** [key[pos] = seed; seed = 1812433253 * (seed ^ (seed >> 30)) + pos + 1]. *)
Fixpoint mt_init (n : nat) (pos : Z) (s : Z) : list Z :=
  match n with
  | O => []
  | S n' =>
      s :: mt_init n' (pos + 1) (u32 (1812433253 * Z.lxor s (Z.shiftr s 30) + pos + 1))
  end.

Definition mt_seed (s : Z) : mt_state :=
  {| mt_key := mt_init 624 0 (u32 s); mt_pos := 624 |}.

(** One step of the regeneration loop, in place:
    [y = (key[i] & UPPER) | (key[i+1] & LOWER)],
    [key[i] = key[i+M] ^ (y >> 1) ^ (-(y & 1) & MATRIX_A)], indices modulo 624. *)
Definition mt_twist_at (k : list Z) (i : nat) : list Z :=
  let y := Z.lor (Z.land (nth i k 0) 2147483648)
                 (Z.land (nth (Nat.modulo (i + 1) 624) k 0) 2147483647) in
  let v := Z.lxor (Z.lxor (nth (Nat.modulo (i + 397) 624) k 0) (Z.shiftr y 1))
                  (if Z.odd y then 2567483615 else 0) in
  <[i := v]> k.

Definition mt_gen (k : list Z) : list Z := fold_left mt_twist_at (seq 0 624) k.

Definition mt_temper (y : Z) : Z :=
  let y := Z.lxor y (Z.shiftr y 11) in
  let y := Z.lxor y (Z.land (u32 (Z.shiftl y 7)) 2636928640) in
  let y := Z.lxor y (Z.land (u32 (Z.shiftl y 15)) 4022730752) in
  Z.lxor y (Z.shiftr y 18).

Definition mt_next (s : mt_state) : Z * mt_state :=
  let k := if Nat.leb 624 (mt_pos s) then mt_gen (mt_key s) else mt_key s in
  let p := if Nat.leb 624 (mt_pos s) then 0%nat else mt_pos s in
  (u32 (mt_temper (nth p k 0)), {| mt_key := k; mt_pos := S p |}).

(** [mt19937_next_double]: [a = next >> 5], [b = next >> 6], the integer
    [a * 2^26 + b]. *)
Definition mt_double53 (s : mt_state) : Z * mt_state :=
  let (r1, s1) := mt_next s in
  let (r2, s2) := mt_next s1 in
  (Z.shiftr r1 5 * 67108864 + Z.shiftr r2 6, s2).

Definition mt_next64 (s : mt_state) : Z * mt_state :=
  let (hi, s1) := mt_next s in
  let (lo, s2) := mt_next s1 in
  (Z.lor (Z.shiftl hi 32) lo, s2).

(** [random_interval]: draws masked to the bits of [max] until one is at
    most [max].  numpy loops until a draw is accepted; here the loop gives
    up after [fuel] draws (each is accepted with probability above one
    half) and returns 0. *)
Fixpoint mt_reject (fuel : nat) (draw : mt_state -> Z * mt_state) (mask max : Z)
         (s : mt_state) : Z * mt_state :=
  match fuel with
  | O => (0, s)
  | S fuel' =>
      let (r, s') := draw s in
      let v := Z.land r mask in
      if v <=? max then (v, s') else mt_reject fuel' draw mask max s'
  end.

Definition mt_interval (max : Z) (s : mt_state) : Z * mt_state :=
  if max <=? 0 then (0, s)
  else
    let mask := Z.ones (Z.log2 max + 1) in
    if max <=? 4294967295 then mt_reject 1024 mt_next mask max s
    else mt_reject 1024 mt_next64 mask max s.

(** ** 8.3 A reader for files as the generator writes them

    Lines end with a line feed, fields are separated by commas and are
    not quoted, numbers are written in fixed notation.  The first line
    names the columns.  A column whose fields are all numbers (or empty)
    is a float column, a column of [True] and [False] a bool column, any
    other column an object column; an empty field is a missing value.  A
    file without a line is refused with [EmptyDataError]; a row that has
    not as many fields as the header, or a header that names a column
    twice, with [ParserError].  pandas does more on such files (it takes
    an index from rows with one field more, and renames a repeated
    column); the interface leaves that open, this reader stays with the
    files of the generator and gives them a [RangeIndex]. *)

Fixpoint split_on (sep : ascii) (s : string) : list string :=
  match s with
  | EmptyString => [EmptyString]
  | String c s' =>
      if Ascii.eqb c sep then EmptyString :: split_on sep s'
      else match split_on sep s' with
           | [] => [String c EmptyString]
           | w :: ws => String c w :: ws
           end
  end.

Definition digit_value (c : ascii) : option Z :=
  let n := nat_of_ascii c in
  if (Nat.leb 48 n && Nat.leb n 57)%bool then Some (Z.of_nat n - 48) else None.

(** The digits of [s] as a number, with the count of digits read. *)
Fixpoint read_digits (s : string) (acc : Z) (count : nat) : option (Z * nat) :=
  match s with
  | EmptyString => Some (acc, count)
  | String c s' =>
      match digit_value c with
      | Some d => read_digits s' (10 * acc + d) (S count)
      | None => None
      end
  end.

Definition read_unsigned (s : string) : option Q :=
  match split_on "." s with
  | [i] =>
      match read_digits i 0 0 with
      | Some (n, S _) => Some (inject_Z n)
      | _ => None
      end
  | [i; f] =>
      match read_digits i 0 0, read_digits f 0 0 with
      | Some (n, S _), Some (m, k) =>
          Some (inject_Z n + inject_Z m / inject_Z (10 ^ Z.of_nat k))%Q
      | _, _ => None
      end
  | _ => None
  end.

(** A number text, rounded to the nearest float. *)
Definition read_float (s : string) : option Q :=
  match s with
  | String "-" s' => (fun q => round_binary64 (- q)) <$> read_unsigned s'
  | _ => round_binary64 <$> read_unsigned s
  end.

Definition read_bool (s : string) : option bool :=
  if String.eqb s "True" then Some true
  else if String.eqb s "False" then Some false
  else None.

Fixpoint all_some {A : Type} (xs : list (option A)) : option (list A) :=
  match xs with
  | [] => Some []
  | Some x :: xs' => cons x <$> all_some xs'
  | None :: _ => None
  end.

Definition read_column (fields : list string) : column :=
  match all_some (map (fun f => if String.eqb f "" then Some None
                                else Some <$> read_float f) fields) with
  | Some xs => FloatCol xs
  | None =>
      match all_some (map read_bool fields) with
      | Some bs => BoolCol bs
      | None => ObjCol (map (fun f => if String.eqb f "" then None else Some f) fields)
      end
  end.

Fixpoint distinct (l : list string) : bool :=
  match l with
  | [] => true
  | x :: l' => (negb (existsb (String.eqb x) l') && distinct l')%bool
  end.

Definition read_table (text : string) : exn + DataFrame :=
  match List.filter (fun l => negb (String.eqb l "")) (split_on (ascii_of_nat 10) text) with
  | [] => inl EmptyDataError
  | header :: lines =>
      let names := split_on "," header in
      let records := map (split_on ",") lines in
      if negb (distinct names) then inl ParserError
      else if negb (forallb (fun r => Nat.eqb (length r) (length names)) records)
      then inl ParserError
      else
        inr {| df_index := seq 0 (length records);
               df_columns :=
                 map (fun j => (nth j names "",
                                read_column (map (fun r => nth j r "") records)))
                     (seq 0 (length names)) |}
  end.

(** ** 8.4 A forest of single leaves

    Every tree is a leaf that votes for the most frequent class of the
    labels it was fitted on (the first in label order among the most
    frequent): what a forest predicts when no split is made.  Labels
    must be all strings, all numbers or all booleans. *)

Definition count_label (ys : list cell) (l : cell) : nat :=
  length (List.filter (cell_eqb l) ys).

Definition most_frequent (ys : list cell) : option cell :=
  fold_left (fun best l =>
               match best with
               | None => Some l
               | Some b => if Nat.ltb (count_label ys b) (count_label ys l)
                           then Some l else Some b
               end)
            (sort_uniq cell_compare ys) None.

Definition same_kind (a b : cell) : bool :=
  match a, b with
  | Float _, Float _ | Text _, Text _ | Flag _, Flag _ => true
  | _, _ => false
  end.

Definition labels_of_one_type (ys : list cell) : bool :=
  match ys with
  | [] => true
  | y :: _ => forallb (same_kind y) ys
  end.

Definition show_cell (c : cell) : string :=
  match c with
  | Float x => show_float x
  | Text s => s
  | Flag b => str_bool b
  | NaN => "nan"
  end.

Definition leaf_fit (n_estimators : nat) (random_state : Z) (X : DataFrame) (y : Series)
  : exn + cell :=
  if negb (labels_of_one_type (cells (s_values y)))
  then inl (ValueError "Unknown label type")
  else match most_frequent (cells (s_values y)) with
       | Some c => inr c
       | None => inl (ValueError "Found array with 0 sample(s)")
       end.

Definition leaf_predict (c : cell) (X : DataFrame) : exn + list cell :=
  inr (List.repeat c (nrows X)).

Definition leaf_check_targets (y_true y_pred : list cell) : exn + unit :=
  if labels_of_one_type (y_true ++ y_pred) then inr tt
  else inl (ValueError "Classification metrics can't handle a mix of targets").

(** ** 8.5 A machine that allocates up to [2^32] values

    A size that does not fit the index type is refused with a
    [ValueError], and so is a size whose eight bytes a value do not fit
    it; a smaller one that the memory does not hold is refused with a
    [MemoryError]. *)
Definition machine_refusal (size : Z) : exn :=
  if 2 ^ 63 <=? size then ValueError "Maximum allowed dimension exceeded"
  else if 2 ^ 60 <=? size then ValueError "array is too big"
  else MemoryError.

(* ===================================================================== *)
(** * 9. The terms of the statements *)
(* ===================================================================== *)

(** ** 9.1 Runs *)

(** [returns m s a s']: run from [s], [m] returns [a] and leaves [s'].
    [total m post]: from every state [m] returns, with a result in [post]. *)
Definition returns {S A : Type} (m : M S A) (s : S) (a : A) (s' : S) : Prop :=
  m s = (inr a, s').

Definition total {S A : Type} (m : M S A) (post : A -> Prop) : Prop :=
  forall s, exists a s', returns m s a s' /\ post a.

(** ** 9.2 The generated table *)

(** The schema and the bounds of one generated row (section 3 of the
    specification). *)
Definition row_within_bounds (r : list (string * cell)) : Prop :=
  exists (t p ph : Q) (z : string) (ie op : Q) (rp : string),
    r = [ ("Temperature (Celsius)", Float t);
          ("Precipitation (mm)", Float p);
          ("Soil pH", Float ph);
          ("Climate Zone", Text z);
          ("Input Expenses (Currency)", Float ie);
          ("Output Prices (Currency)", Float op);
          ("Recommended Product", Text rp) ]
    /\ (15 <= t <= 35)%Q
    /\ (0 <= p <= 100)%Q
    /\ (4 <= ph <= 8.5)%Q
    /\ In z ["Tropical"; "Temperate"; "Arctic"]
    /\ (1000 <= ie <= 5000)%Q
    /\ (5000 <= op <= 10000)%Q
    /\ In rp ["Wheat"; "Corn"; "Rice"; "Soybeans"; "Potatoes"].

(** What [generate_dummy_data] builds for [n] samples: seven columns of [n]
    draws each. *)
Definition generated (n : nat) (df : DataFrame) : Prop :=
  exists (temperature precipitation soil_ph : list Q) (climate_zones : list string)
         (input_expenses output_prices : list Q) (products : list string),
    df = {| df_index := seq 0 n;
            df_columns :=
              [ ("Temperature (Celsius)", FloatCol (map Some temperature));
                ("Precipitation (mm)", FloatCol (map Some precipitation));
                ("Soil pH", FloatCol (map Some soil_ph));
                ("Climate Zone", ObjCol (map Some climate_zones));
                ("Input Expenses (Currency)", FloatCol (map Some input_expenses));
                ("Output Prices (Currency)", FloatCol (map Some output_prices));
                ("Recommended Product", ObjCol (map Some products)) ] |}
    /\ (length temperature = n /\ Forall (fun x => (15 <= x <= 35)%Q) temperature)
    /\ (length precipitation = n /\ Forall (fun x => (0 <= x <= 100)%Q) precipitation)
    /\ (length soil_ph = n /\ Forall (fun x => (4 <= x <= 8.5)%Q) soil_ph)
    /\ (length climate_zones = n
        /\ Forall (fun z => In z ["Tropical"; "Temperate"; "Arctic"]) climate_zones)
    /\ (length input_expenses = n /\ Forall (fun x => (1000 <= x <= 5000)%Q) input_expenses)
    /\ (length output_prices = n /\ Forall (fun x => (5000 <= x <= 10000)%Q) output_prices)
    /\ (length products = n
        /\ Forall (fun z => In z ["Wheat"; "Corn"; "Rice"; "Soybeans"; "Potatoes"]) products).


(** The column labels of the generator's file, in its order. *)
Definition generator_schema : list string :=
  [ "Temperature (Celsius)"; "Precipitation (mm)"; "Soil pH"; "Climate Zone";
    "Input Expenses (Currency)"; "Output Prices (Currency)"; "Recommended Product" ].

(** ** 9.3 Indicator columns *)

(** Strings under [String.compare]. *)
Definition string_lt (s t : string) : Prop := String.compare s t = Lt.

Definition climate_values : list string := ["Tropical"; "Temperate"; "Arctic"].

(** The indicator values of row [i], in column order. *)
Definition indicator_row (inds : list (string * column)) (i : nat) : list cell :=
  map (fun nc => nth i (cells (snd nc)) NaN) inds.

Definition Qsum (l : list Q) : Q := fold_right Qplus 0%Q l.

(** All values are indicators, they sum to 1, and exactly one is set. *)
Definition exactly_one_set (r : list cell) : Prop :=
  Forall (fun c => exists b, c = Flag b) r
  /\ (Qsum (map cell_value r) == 1)%Q
  /\ length (List.filter (cell_eqb (Flag true)) r) = 1%nat.

(** ** 9.4 The trainer *)

(** The feature labels and the target label both trainers use. *)
Definition trainer_features : list string :=
  [ "Temperature (Celsius)"; "Precipitation (mm)"; "Soil pH";
    "Input Expenses (Currency)"; "Output Prices (Currency)";
    "Climate Zone_Arctic"; "Climate Zone_Temperate"; "Climate Zone_Tropical" ].

Definition trainer_target : string := "Recommended Product".

Definition data_file : string := "dummy_agricultural_data.csv".

Definition model_file : string := "agricultural_product_recommendation_model.joblib".

(** Row [i] of a feature table with its index label and its target. *)
Definition labelled_row (X : DataFrame) (y : Series) (i : nat)
  : nat * list (string * cell) * cell :=
  (nth i (df_index X) 0%nat, row_at X i, nth i (cells (s_values y)) NaN).

Definition labelled_rows (X : DataFrame) (y : Series)
  : list (nat * list (string * cell) * cell) :=
  map (labelled_row X y) (seq 0 (nrows X)).

(** Feature rows and a target of one length, as the trainer passes them. *)
Definition aligned (X : DataFrame) (y : Series) : Prop :=
  Forall (fun nc => col_length (snd nc) = nrows X) (df_columns X)
  /\ s_index y = df_index X
  /\ col_length (s_values y) = nrows X.

Definition cell_lt (a b : cell) : Prop := cell_compare a b = Lt.

Section SplitTerms.
Context `{F : Float64}.

(** [ceil(0.2 * n)] as the trainer computes it. *)
Definition test_count (n : nat) : Z :=
  Qceiling (fl (float_0_2 * inject_Z (Z.of_nat n))).

End SplitTerms.

Section InputTerms.
Context `{F : Float64} `{G : BitGenerator} `{L : Allocator}.

(** The statements of the trainer up to the split, on a table that was
    read. *)
Definition trainer_inputs (table : DataFrame)
  : exn + (DataFrame * (DataFrame * DataFrame * Series * Series)) :=
  (let! dd := get_dummies table ["Climate Zone"] in
   let! X := getitem_list dd trainer_features in
   let! y := getitem dd trainer_target in
   let! parts := train_test_split X y float_0_2 42 in
   inr (dd, parts))%res.

End InputTerms.

Section RunTerms.
Context `{F : Float64} `{G : BitGenerator} `{L : Allocator} `{P : CsvParser} `{E : Estimator}.

(** The facts a run of the trainer that ended normally went through,
    statement by statement. *)
Record trainer_run (w : world) (g : trainer_globals) (w' : world)
       (run_text : string) (run_table run_X : DataFrame) (run_y : Series)
       (run_report : list class_row) : Prop := {
  run_file : files w !! data_file = Some run_text;
  run_parse : parse_csv run_text = inr run_table;
  run_dummies : get_dummies run_table ["Climate Zone"] = inr (dummy_data g);
  run_features : getitem_list (dummy_data g) trainer_features = inr run_X;
  run_target : getitem (dummy_data g) trainer_target = inr run_y;
  run_split :
    train_test_split run_X run_y float_0_2 42
    = inr (X_train g, X_test g, y_train g, y_test g);
  run_fit : rf_fit 100 42 (X_train g) (y_train g) = inr (clf g);
  run_predict : rf_predict (clf g) (X_test g) = inr (y_pred g);
  run_accuracy :
    accuracy_score (cells (s_values (y_test g))) (y_pred g) = inr (accuracy g);
  run_classification :
    classification_report (cells (s_values (y_test g))) (y_pred g) = inr run_report;
  run_names : features g = trainer_features /\ target g = trainer_target;
  run_dump : write_faults w !! model_file = None;
  run_world :
    w' = {| np_random := np_random w;
            files := <[model_file := joblib_bytes (clf g)]> (files w);
            write_faults := write_faults w;
            stdout := stdout w
                      ++ [ [VStr "Accuracy:"; VCell (accuracy g)];
                           [VStr (newline ++ "Classification Report:")];
                           [VReport run_report] ] |}
}.

End RunTerms.

(** ** 9.5 Runs that raise *)

Section FailureTerms.
Context `{F : Float64} `{G : BitGenerator} `{L : Allocator} `{P : CsvParser} `{E : Estimator}.

(** The world once the trainer has printed the accuracy, the title of
    the report and the report. *)
Definition trainer_printed (w : world) (acc : cell) (report : list class_row) : world :=
  {| np_random := np_random w;
     files := files w;
     write_faults := write_faults w;
     stdout := stdout w
               ++ [ [VStr "Accuracy:"; VCell acc];
                    [VStr (newline ++ "Classification Report:")];
                    [VReport report] ] |}.

(** [trainer_failure w e w']: started in [w], one statement of the
    trainer raises [e] after the statements before it have returned, and
    [w'] is the world at that moment.  There is one constructor for each
    statement that can raise.  Up to the accuracy nothing has been
    printed or written, so the world is [w]; the last constructor is the
    write of the model file, after the three prints.
    [classification_report] has no constructor: it checks the targets as
    [accuracy_score] has checked them just before, so once the accuracy
    is there it returns. *)
Inductive trainer_failure (w : world) : exn -> world -> Prop :=
| read_csv_no_file :
    files w !! data_file = None ->
    trainer_failure w (FileNotFoundError data_file) w
| read_csv_raises (text : string) (e : exn) :
    files w !! data_file = Some text ->
    parse_csv text = inl e ->
    trainer_failure w e w
| get_dummies_raises (text : string) (table : DataFrame) (e : exn) :
    files w !! data_file = Some text ->
    parse_csv text = inr table ->
    get_dummies table ["Climate Zone"] = inl e ->
    trainer_failure w e w
| features_raise (text : string) (table dd : DataFrame) (e : exn) :
    files w !! data_file = Some text ->
    parse_csv text = inr table ->
    get_dummies table ["Climate Zone"] = inr dd ->
    getitem_list dd trainer_features = inl e ->
    trainer_failure w e w
| target_raises (text : string) (table dd X : DataFrame) (e : exn) :
    files w !! data_file = Some text ->
    parse_csv text = inr table ->
    get_dummies table ["Climate Zone"] = inr dd ->
    getitem_list dd trainer_features = inr X ->
    getitem dd trainer_target = inl e ->
    trainer_failure w e w
| train_test_split_raises (text : string) (table dd X : DataFrame) (y : Series)
                          (e : exn) :
    files w !! data_file = Some text ->
    parse_csv text = inr table ->
    get_dummies table ["Climate Zone"] = inr dd ->
    getitem_list dd trainer_features = inr X ->
    getitem dd trainer_target = inr y ->
    train_test_split X y float_0_2 42 = inl e ->
    trainer_failure w e w
| fit_raises (text : string) (table dd X Xtr Xte : DataFrame) (y ytr yte : Series)
             (e : exn) :
    files w !! data_file = Some text ->
    parse_csv text = inr table ->
    get_dummies table ["Climate Zone"] = inr dd ->
    getitem_list dd trainer_features = inr X ->
    getitem dd trainer_target = inr y ->
    train_test_split X y float_0_2 42 = inr (Xtr, Xte, ytr, yte) ->
    rf_fit 100 42 Xtr ytr = inl e ->
    trainer_failure w e w
| predict_raises (text : string) (table dd X Xtr Xte : DataFrame) (y ytr yte : Series)
                 (c : forest) (e : exn) :
    files w !! data_file = Some text ->
    parse_csv text = inr table ->
    get_dummies table ["Climate Zone"] = inr dd ->
    getitem_list dd trainer_features = inr X ->
    getitem dd trainer_target = inr y ->
    train_test_split X y float_0_2 42 = inr (Xtr, Xte, ytr, yte) ->
    rf_fit 100 42 Xtr ytr = inr c ->
    rf_predict c Xte = inl e ->
    trainer_failure w e w
| accuracy_score_raises (text : string) (table dd X Xtr Xte : DataFrame)
                        (y ytr yte : Series) (c : forest) (yp : list cell) (e : exn) :
    files w !! data_file = Some text ->
    parse_csv text = inr table ->
    get_dummies table ["Climate Zone"] = inr dd ->
    getitem_list dd trainer_features = inr X ->
    getitem dd trainer_target = inr y ->
    train_test_split X y float_0_2 42 = inr (Xtr, Xte, ytr, yte) ->
    rf_fit 100 42 Xtr ytr = inr c ->
    rf_predict c Xte = inr yp ->
    accuracy_score (cells (s_values yte)) yp = inl e ->
    trainer_failure w e w
| joblib_dump_raises (text : string) (table dd X Xtr Xte : DataFrame)
                     (y ytr yte : Series) (c : forest) (yp : list cell) (acc : cell)
                     (report : list class_row) (msg : string) (kept : option nat) :
    files w !! data_file = Some text ->
    parse_csv text = inr table ->
    get_dummies table ["Climate Zone"] = inr dd ->
    getitem_list dd trainer_features = inr X ->
    getitem dd trainer_target = inr y ->
    train_test_split X y float_0_2 42 = inr (Xtr, Xte, ytr, yte) ->
    rf_fit 100 42 Xtr ytr = inr c ->
    rf_predict c Xte = inr yp ->
    accuracy_score (cells (s_values yte)) yp = inr acc ->
    classification_report (cells (s_values yte)) yp = inr report ->
    write_faults w !! model_file = Some (msg, kept) ->
    trainer_failure w (OSError msg)
      (with_files (files_left model_file (joblib_bytes c) kept (files w))
                  (trainer_printed w acc report)).

(** [generator_failure w e w']: the same for the generator script.
    [generate_dummy_data] raises, and only the global generator of numpy
    has changed; or the write of the data file raises, after the first
    rows were printed. *)
Inductive generator_failure (w : world) : exn -> world -> Prop :=
| generate_dummy_data_raises (e : exn) (s' : rng_state) :
    Generator.generate_dummy_data None (np_random w) = (inl e, s') ->
    generator_failure w e
      {| np_random := s'; files := files w; write_faults := write_faults w;
         stdout := stdout w |}
| to_csv_raises (df : DataFrame) (s' : rng_state) (msg : string) (kept : option nat) :
    Generator.generate_dummy_data None (np_random w) = (inr df, s') ->
    write_faults w !! data_file = Some (msg, kept) ->
    generator_failure w (OSError msg)
      {| np_random := s';
         files := files_left data_file (csv_text df) kept (files w);
         write_faults := write_faults w;
         stdout := stdout w ++ [[VFrame (df_head df)]] |}.

End FailureTerms.

(** ** 9.6 Tables and files of the examples *)

(** A table of one row in the generator's schema whose climate zone is
    Tropical. *)
Definition one_tropical_row : DataFrame :=
  {| df_index := [0%nat];
     df_columns :=
       [ ("Temperature (Celsius)", FloatCol [Some 20%Q]);
         ("Precipitation (mm)", FloatCol [Some 50%Q]);
         ("Soil pH", FloatCol [Some 6%Q]);
         ("Climate Zone", ObjCol [Some "Tropical"]);
         ("Input Expenses (Currency)", FloatCol [Some 2000%Q]);
         ("Output Prices (Currency)", FloatCol [Some 7000%Q]);
         ("Recommended Product", ObjCol [Some "Rice"]) ] |}.

(** A table of one row with the eight feature columns, and its target. *)
Definition one_row_features : DataFrame :=
  {| df_index := [0%nat];
     df_columns :=
       [ ("Temperature (Celsius)", FloatCol [Some 20%Q]);
         ("Precipitation (mm)", FloatCol [Some 50%Q]);
         ("Soil pH", FloatCol [Some 6%Q]);
         ("Input Expenses (Currency)", FloatCol [Some 2000%Q]);
         ("Output Prices (Currency)", FloatCol [Some 7000%Q]);
         ("Climate Zone_Arctic", BoolCol [false]);
         ("Climate Zone_Temperate", BoolCol [false]);
         ("Climate Zone_Tropical", BoolCol [true]) ] |}.

Definition one_row_target : Series :=
  {| s_index := [0%nat]; s_values := ObjCol [Some "Rice"] |}.

(** A table as a file could hold it: the seven columns of the schema and,
    besides, two columns that are already named after indicator columns.
    Its only climate zone is Tropical. *)
Definition table_with_indicator_names : DataFrame :=
  {| df_index := [0%nat; 1%nat];
     df_columns :=
       [ ("Temperature (Celsius)", FloatCol [Some 20%Q; Some 30%Q]);
         ("Precipitation (mm)", FloatCol [Some 50%Q; Some 10%Q]);
         ("Soil pH", FloatCol [Some 6%Q; Some 7%Q]);
         ("Climate Zone", ObjCol [Some "Tropical"; Some "Tropical"]);
         ("Input Expenses (Currency)", FloatCol [Some 2000%Q; Some 3000%Q]);
         ("Output Prices (Currency)", FloatCol [Some 7000%Q; Some 8000%Q]);
         ("Recommended Product", ObjCol [Some "Rice"; Some "Corn"]);
         ("Climate Zone_Arctic", FloatCol [Some 0%Q; Some 0%Q]);
         ("Climate Zone_Temperate", FloatCol [Some 0%Q; Some 0%Q]) ] |}.

Definition empty_table : DataFrame := {| df_index := []; df_columns := [] |}.

Definition empty_series : Series := {| s_index := []; s_values := ObjCol [] |}.

(** Five rows in the generator's format.  The second row is the only one
    labelled Wheat. *)
Definition five_rows_text : string :=
"Temperature (Celsius),Precipitation (mm),Soil pH,Climate Zone,Input Expenses (Currency),Output Prices (Currency),Recommended Product
22.490802,2.058449,6.753338,Arctic,2218.455076,6558.555380,Soybeans
34.014286,96.990985,4.627722,Arctic,1390.688456,7600.340105,Wheat
29.639878,83.244264,5.314650,Tropical,3736.932106,7733.551396,Potatoes
26.973169,21.233911,5.648628,Tropical,2760.609974,5924.272277,Potatoes
18.120372,18.182496,6.052314,Temperate,1488.152939,9847.923138,Corn
".

(** Two rows in the generator's format, none of them Tropical. *)
Definition two_rows_text : string :=
"Temperature (Celsius),Precipitation (mm),Soil pH,Climate Zone,Input Expenses (Currency),Output Prices (Currency),Recommended Product
22.490802,2.058449,6.753338,Arctic,2218.455076,6558.555380,Soybeans
18.120372,18.182496,6.052314,Temperate,1488.152939,9847.923138,Corn
".

(** Two rows that have a soil pH and a product but no climate zone. *)
Definition no_zone_text : string :=
"Soil pH,Recommended Product
6.753338,Soybeans
5.314650,Corn
".

(** Targets and predictions of three test rows, two of them predicted
    right. *)
Definition three_targets : list cell := [Text "Corn"; Text "Rice"; Text "Corn"].

Definition three_predictions : list cell := [Text "Corn"; Text "Rice"; Text "Rice"].

(* ===================================================================== *)
(** * 10. Reasoning about runs *)
(* ===================================================================== *)

Lemma returns_bind {S A B : Type} (m : M S A) (k : A -> M S B) s b s' :
  returns (bind m k) s b s' <->
  exists a s1, returns m s a s1 /\ returns (k a) s1 b s'.
Proof.
  unfold returns, bind. split.
  - destruct (m s) as [[e | a] s1]; [discriminate |].
    intros Hk. exists a, s1. auto.
  - intros (a & s1 & Hm & Hk). rewrite Hm. exact Hk.
Qed.

Lemma raises_bind {S A B : Type} (m : M S A) (k : A -> M S B) s e s' :
  bind m k s = (inl e, s') <->
  m s = (inl e, s') \/ exists a s1, m s = (inr a, s1) /\ k a s1 = (inl e, s').
Proof.
  unfold bind. split.
  - destruct (m s) as [[e0 | a] s1]; [intros Hk; left; congruence | ].
    intros Hk. right. exists a, s1. auto.
  - intros [Hm | (a & s1 & Hm & Hk)]; rewrite Hm; auto.
Qed.

Lemma total_ret {S A : Type} (a : A) (post : A -> Prop) :
  post a -> total (@ret S A a) post.
Proof. intros Ha s. exists a, s. split; [reflexivity | exact Ha]. Qed.

Lemma total_bind {S A B : Type} (m : M S A) (k : A -> M S B)
      (mid : A -> Prop) (post : B -> Prop) :
  total m mid -> (forall a, mid a -> total (k a) post) -> total (bind m k) post.
Proof.
  intros Hm Hk s.
  destruct (Hm s) as (a & s1 & Ha & Hmid).
  destruct (Hk a Hmid s1) as (b & s2 & Hb & Hpost).
  exists b, s2. split; [| exact Hpost].
  apply returns_bind. exists a, s1. auto.
Qed.

Lemma total_weaken {S A : Type} (m : M S A) (p q : A -> Prop) :
  total m p -> (forall a, p a -> q a) -> total m q.
Proof.
  intros Hm Hpq s. destruct (Hm s) as (a & s' & Hr & Hp).
  exists a, s'. auto.
Qed.

(** ** 10.1 Rounding *)
Section FloatFacts.
Context `{F : Float64}.

#[export] Instance fl_proper : Proper (Qeq ==> Qeq) fl.
Proof.
  intros x y Hxy. apply Qle_antisym; apply fl_mono; rewrite Hxy; apply Qle_refl.
Qed.

(** Integers below [2^53] are floats. *)
Lemma fl_int (z : Z) : Z.abs z < 2 ^ 53 -> (fl (inject_Z z) == inject_Z z)%Q.
Proof.
  intros Hz.
  assert (Hb : (binary64 z 0 == inject_Z z)%Q).
  { unfold binary64, pow2. simpl. ring. }
  rewrite <- Hb. apply fl_exact. split; [exact Hz | lia].
Qed.

(** So are the halves of integers below [2^53]. *)
Lemma fl_half (z : Z) :
  Z.abs z < 2 ^ 53 -> (fl (inject_Z z / 2) == inject_Z z / 2)%Q.
Proof.
  intros Hz.
  assert (Hb : (binary64 z (-1) == inject_Z z / 2)%Q).
  { unfold binary64, pow2. simpl. field. }
  rewrite <- Hb. apply fl_exact. split; [exact Hz | lia].
Qed.

Lemma fl_fixed_eq (x y : Q) : (x == y)%Q -> (fl y == y)%Q -> (fl x == x)%Q.
Proof. intros Hxy Hy. rewrite Hxy. exact Hy. Qed.

(** A value between two floats rounds to a value between them. *)
Lemma fl_between (lo hi x : Q) :
  (fl lo == lo)%Q -> (fl hi == hi)%Q -> (lo <= x <= hi)%Q -> (lo <= fl x <= hi)%Q.
Proof.
  intros Hlo Hhi [H1 H2]. split.
  - rewrite <- Hlo. apply fl_mono, H1.
  - rewrite <- Hhi. apply fl_mono, H2.
Qed.

(** [off + rng * u] with [u] in [[0, 1)] stays between [low] and [high]
    when the two bounds and their difference are floats. *)
Lemma uniform_value_range (low high u : Q) :
  (fl low == low)%Q -> (fl high == high)%Q ->
  (fl (high - low) == high - low)%Q ->
  (low <= high)%Q -> (0 <= u < 1)%Q ->
  (low <= fl (low + fl (fl (high - low) * u)) <= high)%Q.
Proof.
  intros Hlo Hhi Hr Hle [Hu0 Hu1].
  assert (H0 : (fl 0 == 0)%Q) by (apply (fl_int 0); reflexivity).
  assert (Hprod : (0 <= fl (fl (high - low) * u) <= high - low)%Q).
  { apply fl_between; [exact H0 | exact Hr |].
    rewrite Hr. split; nra. }
  apply fl_between; [exact Hlo | exact Hhi |].
  destruct Hprod as [Hp0 Hp1]. split; lra.
Qed.

End FloatFacts.

(** ** 10.2 Drawing arrays *)
Section NumpyFacts.
Context `{F : Float64} `{G : BitGenerator} `{L : Allocator}.

Lemma fill_total {A : Type} (draw : M rng_state A) (post : A -> Prop) (n : nat) :
  total draw post ->
  total (fill n draw) (fun l => length l = n /\ Forall post l).
Proof.
  intros Hdraw. induction n as [| n IH]; simpl.
  - apply total_ret. split; [reflexivity | constructor].
  - eapply total_bind; [exact Hdraw |]. intros x Hx.
    eapply total_bind; [exact IH |]. intros xs [Hlen Hxs].
    apply total_ret. split; [simpl; congruence | constructor; assumption].
Qed.

Lemma next_double_total :
  total next_double (fun u => (0 <= u < 1)%Q).
Proof.
  intros s. unfold returns, next_double.
  pose proof (next_double53_range s) as Hk.
  destruct (next_double53 s) as [k s']. simpl in Hk.
  exists (Qmake k 9007199254740992), s'. split; [reflexivity |].
  unfold Qle, Qlt. simpl. split; lia.
Qed.

Lemma random_uniform_total (low high : Q) :
  (fl low == low)%Q -> (fl high == high)%Q ->
  (fl (high - low) == high - low)%Q -> (low <= high)%Q ->
  total (random_uniform low (fl (high - low))) (fun x => (low <= x <= high)%Q).
Proof.
  intros Hlo Hhi Hr Hle. unfold random_uniform.
  eapply total_bind; [apply next_double_total |]. intros u Hu.
  apply total_ret. apply uniform_value_range; assumption.
Qed.

Lemma uniform_total (low high : Q) (size : Z) :
  (fl low == low)%Q -> (fl high == high)%Q ->
  (fl (high - low) == high - low)%Q -> (low <= high)%Q ->
  0 <= size <= max_size ->
  total (uniform low high size)
        (fun l => length l = Z.to_nat size /\ Forall (fun x => (low <= x <= high)%Q) l).
Proof.
  intros Hlo Hhi Hr Hle Hsize. unfold uniform.
  destruct (Z.ltb_spec size 0) as [Hneg | _]; [lia |].
  destruct (Z.ltb_spec max_size size) as [Hbig | _]; [lia |].
  apply fill_total, random_uniform_total; assumption.
Qed.

Lemma uniform_negative (low high : Q) (size : Z) s :
  size < 0 ->
  uniform low high size s = (inl (ValueError "negative dimensions are not allowed"), s).
Proof.
  intros Hneg. unfold uniform.
  destruct (Z.ltb_spec size 0) as [_ | Hpos]; [reflexivity | lia].
Qed.

Lemma uniform_too_large (low high : Q) (size : Z) s :
  max_size < size ->
  uniform low high size s = (inl (refusal size), s).
Proof.
  intros Hbig. pose proof max_size_range as Hmax. unfold uniform.
  destruct (Z.ltb_spec size 0) as [Hneg | _]; [lia |].
  destruct (Z.ltb_spec max_size size) as [_ | Hsmall]; [reflexivity | lia].
Qed.

(** An array that was drawn has the length asked for. *)
Lemma fill_length {A : Type} (draw : M rng_state A) (n : nat)
      (s s' : rng_state) (l : list A) :
  fill n draw s = (inr l, s') -> length l = n.
Proof.
  revert s s' l. induction n as [| n IH]; intros s s' l H.
  - simpl in H. unfold ret in H. injection H as <- _. reflexivity.
  - change (returns (fill (S n) draw) s l s') in H. cbn [fill] in H.
    apply returns_bind in H. destruct H as (x & sa & _ & H).
    apply returns_bind in H. destruct H as (xs & sb & Hxs & H).
    unfold returns, ret in H. injection H as <- _.
    simpl. f_equal. apply (IH sa sb xs Hxs).
Qed.

Lemma uniform_length (low high : Q) (size : Z) (s s' : rng_state) (l : list Q) :
  uniform low high size s = (inr l, s') -> length l = Z.to_nat size.
Proof.
  unfold uniform.
  destruct (size <? 0); [discriminate |].
  destruct (max_size <? size); [discriminate |].
  apply fill_length.
Qed.

Lemma randint_total (low high size : Z) :
  low < high -> 0 <= size <= max_size ->
  total (randint low high size)
        (fun l => length l = Z.to_nat size /\ Forall (fun j => low <= j < high) l).
Proof.
  intros Hlh Hsize. unfold randint.
  destruct (Z.leb_spec high low) as [Hbad | _]; [lia |].
  destruct (Z.ltb_spec size 0) as [Hneg | _]; [lia |].
  destruct (Z.ltb_spec max_size size) as [Hbig | _]; [lia |].
  apply fill_total. intros s.
  pose proof (random_interval_range (high - 1 - low) s ltac:(lia)) as Hj.
  destruct (random_interval (high - 1 - low) s) as [j s'] eqn:Hdraw. simpl in Hj.
  exists (low + j), s'. unfold returns. rewrite Hdraw. split; [reflexivity | lia].
Qed.

Lemma getitems_in_range {A : Type} (a : list A) (idx : list nat) :
  Forall (fun i => (i < length a)%nat) idx ->
  exists l, getitems a idx = inr l /\ length l = length idx /\ Forall (fun x => In x a) l.
Proof.
  induction 1 as [| i idx Hi _ IH]; simpl.
  - exists []. repeat split. constructor.
  - destruct IH as (l & Hl & Hlen & Hin).
    destruct (lookup_lt_is_Some_2 a i Hi) as [x Hx].
    rewrite Hx, Hl. simpl. exists (x :: l). repeat split.
    + simpl. congruence.
    + constructor; [| exact Hin].
      apply list_elem_of_In. eapply list_elem_of_lookup_2. exact Hx.
Qed.

Lemma choice_total (a : list string) (size : Z) :
  a <> [] -> 0 <= size <= max_size ->
  total (choice a size)
        (fun l => length l = Z.to_nat size /\ Forall (fun x => In x a) l).
Proof.
  intros Ha Hsize. unfold choice.
  destruct a as [| a0 a']; [congruence |]. simpl Nat.eqb. simpl andb.
  eapply total_bind.
  - apply randint_total; [simpl length; lia | exact Hsize].
  - intros idx [Hlen Hidx] s.
    destruct (getitems_in_range (a0 :: a') (map Z.to_nat idx)) as (l & Hl & Hll & Hin).
    { apply Forall_map. eapply Forall_impl; [exact Hidx |].
      simpl. intros j Hj. lia. }
    exists l, s. unfold returns, lift_result. rewrite Hl. split; [reflexivity |].
    split; [| exact Hin]. rewrite Hll, length_map. exact Hlen.
Qed.

End NumpyFacts.

(** ** 10.3 The generated table *)

Lemma nth_float_cell (xs : list Q) (post : Q -> Prop) (i : nat) :
  Forall post xs -> (i < length xs)%nat ->
  exists x, nth i (map float_cell (map Some xs)) NaN = Float x /\ post x.
Proof.
  intros Hall Hi. exists (nth i xs 0%Q). split.
  - rewrite (nth_indep _ NaN (float_cell (Some 0%Q))) by (rewrite !length_map; exact Hi).
    rewrite map_map. rewrite (map_nth (fun x => float_cell (Some x))). reflexivity.
  - apply Forall_nth; assumption.
Qed.

Lemma nth_text_cell (xs : list string) (post : string -> Prop) (i : nat) :
  Forall post xs -> (i < length xs)%nat ->
  exists x, nth i (map text_cell (map Some xs)) NaN = Text x /\ post x.
Proof.
  intros Hall Hi. exists (nth i xs ""). split.
  - rewrite (nth_indep _ NaN (text_cell (Some ""))) by (rewrite !length_map; exact Hi).
    rewrite map_map. rewrite (map_nth (fun x => text_cell (Some x))). reflexivity.
  - apply Forall_nth; assumption.
Qed.

Lemma generated_rows (n : nat) (df : DataFrame) :
  generated n df ->
  nrows df = n /\ length (rows df) = n /\ Forall row_within_bounds (rows df).
Proof.
  intros (t & p & ph & z & ie & op & rp & -> &
          [Lt Ht] & [Lp Hp] & [Lph Hph] & [Lz Hz] & [Lie Hie] & [Lop Hop] & [Lrp Hrp]).
  assert (Hn : nrows {| df_index := seq 0 n; df_columns :=
              [ ("Temperature (Celsius)", FloatCol (map Some t));
                ("Precipitation (mm)", FloatCol (map Some p));
                ("Soil pH", FloatCol (map Some ph));
                ("Climate Zone", ObjCol (map Some z));
                ("Input Expenses (Currency)", FloatCol (map Some ie));
                ("Output Prices (Currency)", FloatCol (map Some op));
                ("Recommended Product", ObjCol (map Some rp)) ] |} = n).
  { unfold nrows. simpl. apply length_seq. }
  split; [exact Hn |]. unfold rows. rewrite Hn. split.
  - rewrite length_map. apply length_seq.
  - apply Forall_map. apply List.Forall_forall. intros i Hi.
    apply in_seq in Hi. destruct Hi as [_ Hi]. simpl in Hi.
    unfold row_at. simpl.
    destruct (nth_float_cell t _ i Ht ltac:(lia)) as (vt & -> & Bt).
    destruct (nth_float_cell p _ i Hp ltac:(lia)) as (vp & -> & Bp).
    destruct (nth_float_cell ph _ i Hph ltac:(lia)) as (vph & -> & Bph).
    destruct (nth_text_cell z _ i Hz ltac:(lia)) as (vz & -> & Bz).
    destruct (nth_float_cell ie _ i Hie ltac:(lia)) as (vie & -> & Bie).
    destruct (nth_float_cell op _ i Hop ltac:(lia)) as (vop & -> & Bop).
    destruct (nth_text_cell rp _ i Hrp ltac:(lia)) as (vrp & -> & Brp).
    exists vt, vp, vph, vz, vie, vop, vrp. repeat split; tauto.
Qed.

Section GeneratorFacts.
Context `{F : Float64} `{G : BitGenerator} `{L : Allocator}.

(** For a count that is not negative and that can be allocated the
    generator returns, from every state of the global generator, a table
    of the generated shape. *)
Lemma generate_dummy_data_total (num_samples : Z) :
  0 <= num_samples <= max_size ->
  total (Generator.generate_dummy_data (Some num_samples))
        (generated (Z.to_nat num_samples)).
Proof.
  intros Hn. unfold Generator.generate_dummy_data. simpl default.
  eapply total_bind with (mid := fun _ => True).
  { intros s. exists tt, (seed 42). split; [reflexivity | exact I]. }
  intros _ _.
  eapply total_bind.
  { apply (uniform_total 15 35); [apply (fl_int 15) | apply (fl_int 35)
      | apply (fl_int 20) | | exact Hn]; try reflexivity. discriminate. }
  intros t Ht.
  eapply total_bind.
  { apply (uniform_total 0 100); [apply (fl_int 0) | apply (fl_int 100)
      | apply (fl_int 100) | | exact Hn]; try reflexivity. discriminate. }
  intros p Hp.
  eapply total_bind.
  { apply (uniform_total 4 8.5);
      [ apply (fl_int 4); reflexivity
      | apply (fl_fixed_eq _ (inject_Z 17 / 2)); [reflexivity | apply fl_half; reflexivity]
      | apply (fl_fixed_eq _ (inject_Z 9 / 2)); [reflexivity | apply fl_half; reflexivity]
      | discriminate
      | exact Hn ]. }
  intros ph Hph.
  eapply total_bind.
  { apply (choice_total ["Tropical"; "Temperate"; "Arctic"]); [discriminate | exact Hn]. }
  intros z Hz.
  eapply total_bind.
  { apply (uniform_total 1000 5000); [apply (fl_int 1000) | apply (fl_int 5000)
      | apply (fl_int 4000) | | exact Hn]; try reflexivity. discriminate. }
  intros ie Hie.
  eapply total_bind.
  { apply (uniform_total 5000 10000); [apply (fl_int 5000) | apply (fl_int 10000)
      | apply (fl_int 5000) | | exact Hn]; try reflexivity. discriminate. }
  intros op Hop.
  eapply total_bind.
  { apply (choice_total ["Wheat"; "Corn"; "Rice"; "Soybeans"; "Potatoes"]);
      [discriminate | exact Hn]. }
  intros rp Hrp.
  intros s. unfold returns, lift_result, DataFrame_of_dict.
  cbn [forallb snd col_length].
  destruct Ht as [Lt Ht], Hp as [Lp Hp], Hph as [Lph Hph], Hz as [Lz Hz],
           Hie as [Lie Hie], Hop as [Lop Hop], Hrp as [Lrp Hrp].
  rewrite !length_map, Lt, Lp, Lph, Lz, Lie, Lop, Lrp, Nat.eqb_refl. simpl.
  eexists _, s. split; [reflexivity |].
  exists t, p, ph, z, ie, op, rp. repeat split; assumption.
Qed.

End GeneratorFacts.

Section GeneratorClaims.
Context `{F : Float64} `{G : BitGenerator} `{L : Allocator}.

(** The first statement of the generator re-seeds the global generator,
    so nothing of the state the run started from is left. *)
Lemma generate_dummy_data_seeded (num_samples : option Z) (s1 s2 : rng_state) :
  Generator.generate_dummy_data num_samples s1
  = Generator.generate_dummy_data num_samples s2.
Proof.
  unfold Generator.generate_dummy_data, np_random_seed.
  set (k := fun _ : unit => _).
  change (k tt (seed 42) = k tt (seed 42)). reflexivity.
Qed.

Lemma generate_dummy_data_negative (num_samples : Z) (s : rng_state) :
  num_samples < 0 ->
  Generator.generate_dummy_data (Some num_samples) s
  = (inl (ValueError "negative dimensions are not allowed"), seed 42).
Proof.
  intros Hneg. unfold Generator.generate_dummy_data, np_random_seed. simpl default.
  unfold bind at 1. unfold put at 1. unfold bind at 1.
  rewrite (uniform_negative 15 35 num_samples (seed 42) Hneg). reflexivity.
Qed.

Lemma generate_dummy_data_too_large (num_samples : Z) (s : rng_state) :
  max_size < num_samples ->
  Generator.generate_dummy_data (Some num_samples) s
  = (inl (refusal num_samples), seed 42).
Proof.
  intros Hbig. unfold Generator.generate_dummy_data, np_random_seed. simpl default.
  unfold bind at 1. unfold put at 1. unfold bind at 1.
  rewrite (uniform_too_large 15 35 num_samples (seed 42) Hbig). reflexivity.
Qed.

(** A call that returned was given a count that is not negative and can
    be allocated, and returned a table of the generated shape. *)
Lemma generate_dummy_data_inv (num_samples : Z) (s s' : rng_state) (df : DataFrame) :
  Generator.generate_dummy_data (Some num_samples) s = (inr df, s') ->
  0 <= num_samples <= max_size /\ generated (Z.to_nat num_samples) df.
Proof.
  intros Hrun.
  destruct (Z.lt_ge_cases num_samples 0) as [Hneg | Hpos].
  { rewrite (generate_dummy_data_negative _ s Hneg) in Hrun. discriminate. }
  destruct (Z.lt_ge_cases max_size num_samples) as [Hbig | Hsmall].
  { rewrite (generate_dummy_data_too_large _ s Hbig) in Hrun. discriminate. }
  assert (Hn : 0 <= num_samples <= max_size) by lia.
  split; [exact Hn |].
  destruct (generate_dummy_data_total _ Hn s) as (df0 & s0 & Hrun0 & Hgen).
  unfold returns in Hrun0. rewrite Hrun in Hrun0.
  injection Hrun0 as <- _. exact Hgen.
Qed.

(** A run of the whole script on a machine that can allocate the 1000
    samples: the table is generated and its first rows are printed; then
    its text is written to the data file, or the write fails and its
    [OSError] ends the run. *)
Lemma generator_script_run (w : world) :
  1000 <= max_size ->
  exists df s',
    Generator.generate_dummy_data None (np_random w) = (inr df, s')
    /\ generated 1000 df
    /\ Generator.script w
       = match write_faults w !! data_file with
         | None =>
             (inr df,
              {| np_random := s';
                 files := <[data_file := csv_text df]> (files w);
                 write_faults := write_faults w;
                 stdout := stdout w ++ [[VFrame (df_head df)]] |})
         | Some (msg, kept) =>
             (inl (OSError msg),
              {| np_random := s';
                 files := files_left data_file (csv_text df) kept (files w);
                 write_faults := write_faults w;
                 stdout := stdout w ++ [[VFrame (df_head df)]] |})
         end.
Proof.
  intros Hmax.
  assert (Hn : 0 <= 1000 <= max_size) by lia.
  destruct (generate_dummy_data_total 1000 Hn (np_random w))
    as (df & s' & Hrun & Hgen).
  exists df, s'. split; [exact Hrun |]. split; [exact Hgen |].
  unfold Generator.script, with_np_random, bind.
  change (Generator.generate_dummy_data None (np_random w))
    with (Generator.generate_dummy_data (Some 1000) (np_random w)).
  unfold returns in Hrun. rewrite Hrun.
  unfold print, to_csv, write_file. cbn [write_faults]. fold data_file.
  destruct (write_faults w !! data_file) as [[msg kept] |]; reflexivity.
Qed.

(** A run of the script that ended normally generated its table and
    wrote its text. *)
Lemma generator_script_inv (w w' : world) (df : DataFrame) :
  Generator.script w = (inr df, w') ->
  exists s',
    Generator.generate_dummy_data None (np_random w) = (inr df, s')
    /\ write_faults w !! data_file = None
    /\ w' = {| np_random := s';
               files := <[data_file := csv_text df]> (files w);
               write_faults := write_faults w;
               stdout := stdout w ++ [[VFrame (df_head df)]] |}.
Proof.
  unfold Generator.script, with_np_random, bind.
  destruct (Generator.generate_dummy_data None (np_random w)) as [[e | df0] s0];
    [discriminate |].
  unfold print, to_csv, write_file. cbn [write_faults]. fold data_file.
  destruct (write_faults w !! data_file) as [[msg kept] |]; [discriminate |].
  intros [= <- <-]. exists s0. repeat split; reflexivity.
Qed.

(** C5 (as amended): for every requested sample count [num_samples]
    that is not negative and that numpy can allocate (at most
    [max_size], the largest array of the machine), [generate_dummy_data]
    returns a table with exactly [num_samples] rows; when no count is
    given the count is 1000. *)
Theorem generate_dummy_data_row_count (num_samples : Z) (s : rng_state) :
  0 <= num_samples <= max_size ->
  (exists df s',
      Generator.generate_dummy_data (Some num_samples) s = (inr df, s')
      /\ Z.of_nat (nrows df) = num_samples
      /\ Z.of_nat (length (rows df)) = num_samples)
  /\ Generator.generate_dummy_data None s
     = Generator.generate_dummy_data (Some 1000) s.
Proof.
  intros Hn. split; [| reflexivity].
  destruct (generate_dummy_data_total num_samples Hn s) as (df & s' & Hrun & Hgen).
  apply generated_rows in Hgen. destruct Hgen as (Hrows & Hlen & _).
  exists df, s'. split; [exact Hrun |]. split; lia.
Qed.

(** C1: every row of a table that [generate_dummy_data] returned has the
    seven columns of the schema, with temperature in [15,35],
    precipitation in [0,100], soil pH in [4,8.5], input expense in
    [1000,5000], output price in [5000,10000], climate zone one of
    Tropical, Temperate, Arctic and recommended product one of Wheat,
    Corn, Rice, Soybeans, Potatoes. *)
Theorem generated_rows_within_bounds
        (num_samples : option Z) (s s' : rng_state) (df : DataFrame) :
  Generator.generate_dummy_data num_samples s = (inr df, s') ->
  Forall row_within_bounds (rows df).
Proof.
  intros Hrun.
  assert (Hsome : Generator.generate_dummy_data (Some (default 1000 num_samples)) s
                  = (inr df, s')).
  { destruct num_samples; exact Hrun. }
  destruct (generate_dummy_data_inv _ _ _ _ Hsome) as [_ Hgen].
  apply generated_rows in Hgen. tauto.
Qed.

(** C4: the generator is deterministic.  It seeds the global generator
    with 42 before it draws, so for every sample count two runs return
    the same table (or raise the same exception) whatever state they
    start from.  Two runs of the script, from any two worlds in which
    the data file can be written, end alike, and on a machine that can
    allocate the 1000 samples they bind the same table and leave the
    same bytes in [dummy_agricultural_data.csv]; and any two runs of the
    script that ended normally, whatever the worlds and the machine,
    bound the same table and left its text, the same bytes, in the
    file. *)
Theorem generator_deterministic :
  (forall (num_samples : option Z) (s1 s2 : rng_state),
      Generator.generate_dummy_data num_samples s1
      = Generator.generate_dummy_data num_samples s2)
  /\ (forall w1 w2 : world,
         write_faults w1 !! "dummy_agricultural_data.csv" = None ->
         write_faults w2 !! "dummy_agricultural_data.csv" = None ->
         fst (Generator.script w1) = fst (Generator.script w2)
         /\ (1000 <= max_size ->
             files (snd (Generator.script w1)) !! "dummy_agricultural_data.csv"
             = files (snd (Generator.script w2)) !! "dummy_agricultural_data.csv"
             /\ exists df,
                 fst (Generator.script w1) = inr df
                 /\ files (snd (Generator.script w1)) !! "dummy_agricultural_data.csv"
                    = Some (csv_text df)))
  /\ (forall (w1 w2 w1' w2' : world) (df1 df2 : DataFrame),
         Generator.script w1 = (inr df1, w1') ->
         Generator.script w2 = (inr df2, w2') ->
         df1 = df2
         /\ files w1' !! "dummy_agricultural_data.csv" = Some (csv_text df1)
         /\ files w2' !! "dummy_agricultural_data.csv" = Some (csv_text df1)).
Proof.
  split; [apply generate_dummy_data_seeded |]. split.
  - intros w1 w2 Hw1 Hw2. fold data_file in Hw1, Hw2 |- *.
    assert (Hfst : fst (Generator.script w1) = fst (Generator.script w2)).
    { unfold Generator.script, with_np_random, bind.
      rewrite (generate_dummy_data_seeded None (np_random w1) (np_random w2)).
      destruct (Generator.generate_dummy_data None (np_random w2)) as [[e | df] s'];
        [reflexivity |].
      unfold print, to_csv, write_file. cbn [write_faults]. fold data_file.
      rewrite Hw1, Hw2. reflexivity. }
    split; [exact Hfst |]. intros Hmax.
    destruct (generator_script_run w1 Hmax) as (df1 & s1 & Hg1 & _ & Hrun1).
    destruct (generator_script_run w2 Hmax) as (df2 & s2 & Hg2 & _ & Hrun2).
    rewrite (generate_dummy_data_seeded None (np_random w1) (np_random w2)) in Hg1.
    assert (Hdf : df1 = df2) by congruence. subst df2.
    rewrite Hw1 in Hrun1. rewrite Hw2 in Hrun2.
    rewrite Hrun1, Hrun2. simpl. rewrite !lookup_insert_eq.
    split; [reflexivity |].
    exists df1. split; reflexivity.
  - intros w1 w2 w1' w2' df1 df2 Hrun1 Hrun2.
    destruct (generator_script_inv _ _ _ Hrun1) as (s1 & Hg1 & _ & ->).
    destruct (generator_script_inv _ _ _ Hrun2) as (s2 & Hg2 & _ & ->).
    rewrite (generate_dummy_data_seeded None (np_random w1) (np_random w2)) in Hg1.
    assert (Hdf : df1 = df2) by congruence. subst df2.
    simpl. fold data_file. rewrite !lookup_insert_eq. repeat split; reflexivity.
Qed.

End GeneratorClaims.

(** ** 10.4 Sorted distinct values *)
Section SortUniqFacts.
Context {A : Type} (cmp : A -> A -> comparison).
Hypothesis cmp_refl : forall x, cmp x x = Eq.
Hypothesis cmp_antisym : forall x y, cmp y x = CompOpp (cmp x y).

Let ltA (x y : A) : Prop := cmp x y = Lt.

Lemma insert_uniq_keeps (x z : A) (l : list A) :
  In z l -> In z (insert_uniq cmp x l).
Proof.
  induction l as [| y l IH]; simpl; [tauto |].
  intros Hz. destruct (cmp x y); simpl; tauto.
Qed.

Lemma insert_uniq_subset (x z : A) (l : list A) :
  In z (insert_uniq cmp x l) -> z = x \/ In z l.
Proof.
  induction l as [| y l IH]; simpl.
  - intros [-> | []]. auto.
  - destruct (cmp x y); simpl; intuition auto.
Qed.

Lemma insert_uniq_represents (x : A) (l : list A) :
  exists y, In y (insert_uniq cmp x l) /\ cmp x y = Eq.
Proof using cmp_refl.
  induction l as [| y l IH]; simpl.
  - exists x. auto.
  - destruct (cmp x y) eqn:Hxy.
    + exists y. simpl. auto.
    + exists x. simpl. auto.
    + destruct IH as (y' & Hin & Heq). exists y'. simpl. auto.
Qed.

Lemma insert_uniq_HdRel (x y : A) (l : list A) :
  cmp y x = Lt -> HdRel ltA y l -> HdRel ltA y (insert_uniq cmp x l).
Proof.
  intros Hyx Hhd. destruct l as [| z l]; simpl.
  - constructor. exact Hyx.
  - inversion Hhd; subst. destruct (cmp x z); constructor; assumption.
Qed.

Lemma insert_uniq_sorted (x : A) (l : list A) :
  Sorted ltA l -> Sorted ltA (insert_uniq cmp x l).
Proof using cmp_antisym.
  induction 1 as [| y l Hs IH Hhd]; simpl.
  - repeat constructor.
  - destruct (cmp x y) eqn:Hxy.
    + constructor; assumption.
    + constructor; [constructor; assumption | constructor; exact Hxy].
    + constructor; [exact IH |].
      apply insert_uniq_HdRel; [| exact Hhd].
      rewrite cmp_antisym, Hxy. reflexivity.
Qed.

Lemma sort_uniq_subset (z : A) (l : list A) :
  In z (sort_uniq cmp l) -> In z l.
Proof.
  induction l as [| x l IH]; simpl; [tauto |].
  intros Hz. apply insert_uniq_subset in Hz. intuition auto.
Qed.

Lemma sort_uniq_represents (z : A) (l : list A) :
  In z l -> exists y, In y (sort_uniq cmp l) /\ cmp z y = Eq.
Proof using cmp_refl.
  induction l as [| x l IH]; simpl; [tauto |].
  intros [-> | Hz].
  - apply insert_uniq_represents.
  - destruct (IH Hz) as (y & Hy & Heq). exists y. split; [| exact Heq].
    apply insert_uniq_keeps, Hy.
Qed.

Lemma sort_uniq_sorted (l : list A) : Sorted ltA (sort_uniq cmp l).
Proof using cmp_antisym.
  induction l as [| x l IH]; simpl; [constructor |].
  apply insert_uniq_sorted, IH.
Qed.

End SortUniqFacts.

Lemma string_compare_refl (s : string) : String.compare s s = Eq.
Proof.
  destruct (String.compare s s) eqn:Hc; [reflexivity | |];
    pose proof (String.compare_antisym s s) as Ha; rewrite Hc in Ha; discriminate.
Qed.

#[export] Instance string_lt_strorder : StrictOrder string_lt.
Proof.
  split.
  - intros s Hs. unfold string_lt in Hs. rewrite string_compare_refl in Hs. discriminate.
  - intros a b c Hab Hbc. unfold string_lt in *.
    apply String_as_OT.cmp_lt. apply String_as_OT.cmp_lt in Hab, Hbc.
    eapply String_as_OT.lt_trans; eassumption.
Qed.

Lemma sort_uniq_strings_in (s : string) (l : list string) :
  In s (sort_uniq String.compare l) <-> In s l.
Proof.
  split.
  - apply sort_uniq_subset.
  - intros Hs.
    destruct (sort_uniq_represents String.compare string_compare_refl s l Hs)
      as (y & Hy & Heq).
    apply String.compare_eq_iff in Heq. subst y. exact Hy.
Qed.

(** The categories of a column are determined by the set of its values:
    a column with the values of a strictly sorted list [cats], and no
    other, has the categories [cats]. *)
Lemma sort_uniq_strings_eq (l cats : list string) :
  Sorted string_lt cats ->
  (forall s, In s l <-> In s cats) ->
  sort_uniq String.compare l = cats.
Proof.
  intros Hsorted Hsame.
  assert (Heq : eqlistA eq (sort_uniq String.compare l) cats).
  { apply (SortA_equivlistA_eqlistA eq_equivalence string_lt_strorder).
    - intros a b -> c d ->. reflexivity.
    - apply sort_uniq_sorted. intros x y. apply String.compare_antisym.
    - exact Hsorted.
    - intros s. rewrite !InA_alt. split.
      + intros (y & -> & Hy). exists y. split; [reflexivity |].
        apply Hsame, sort_uniq_strings_in, Hy.
      + intros (y & -> & Hy). exists y. split; [reflexivity |].
        apply sort_uniq_strings_in, Hsame, Hy. }
  clear Hsorted Hsame. induction Heq; [reflexivity | congruence].
Qed.

(** ** 10.5 One-hot encoding of the climate column *)

Lemma present_in {A : Type} (x : A) (xs : list (option A)) :
  In x (present xs) <-> In (Some x) xs.
Proof.
  induction xs as [| [y |] xs IH]; simpl.
  - tauto.
  - rewrite IH. split; intros [H | H]; auto; left; congruence.
  - rewrite IH. split; [auto | intros [H | H]; [discriminate | exact H]].
Qed.

Lemma filter_label_unique (name : string) (c : column) (cols : list (string * column)) :
  List.NoDup (map fst cols) ->
  lookup_column name cols = Some c ->
  List.filter (fun nc => String.eqb (fst nc) name) cols = [(name, c)].
Proof.
  unfold lookup_column. induction cols as [| [n0 c0] cols IH]; simpl; [discriminate |].
  intros Hnd Hfind. apply NoDup_cons_iff in Hnd. destruct Hnd as [Hnotin Hnd].
  destruct (String.eqb_spec n0 name) as [-> | Hne].
  - simpl in Hfind. injection Hfind as ->. f_equal.
    clear IH Hnd. induction cols as [| [n1 c1] cols IH]; simpl; [reflexivity |].
    simpl in Hnotin.
    destruct (String.eqb_spec n1 name) as [-> | _]; [tauto |].
    apply IH. tauto.
  - apply IH; assumption.
Qed.

Lemma has_column_lookup (name : string) (c : column) (cols : list (string * column)) :
  lookup_column name cols = Some c -> has_column cols name = true.
Proof.
  unfold lookup_column, has_column.
  induction cols as [| [n0 c0] cols IH]; simpl; [discriminate |].
  destruct (String.eqb n0 name); simpl; auto.
Qed.

Section EncodingFacts.
Context `{F : Float64}.

(** Encoding one column that is there, in a table with distinct labels:
    the column is dropped and its indicator columns are appended. *)
Lemma get_dummies_one (df : DataFrame) (name : string) (c : column) :
  List.NoDup (column_names df) ->
  lookup_column name (df_columns df) = Some c ->
  get_dummies df [name]
  = inr {| df_index := df_index df;
           df_columns :=
             List.filter (fun nc => negb (String.eqb (fst nc) name)) (df_columns df)
             ++ get_dummies_1d name c |}.
Proof.
  intros Hnd Hcol. unfold get_dummies, getitem_list. simpl List.filter.
  rewrite (has_column_lookup _ _ _ Hcol). simpl.
  rewrite app_nil_r, (filter_label_unique _ _ _ Hnd Hcol). simpl.
  rewrite app_nil_r. do 3 f_equal.
  apply filter_ext. intros [n0 c0]. simpl. rewrite orb_false_r. reflexivity.
Qed.

Lemma get_dummies_missing_column (df : DataFrame) (name : string) :
  lookup_column name (df_columns df) = None ->
  get_dummies df [name] = inl (KeyError [name]).
Proof.
  intros Hcol. unfold get_dummies, getitem_list. simpl List.filter.
  assert (Hhas : has_column (df_columns df) name = false).
  { unfold lookup_column in Hcol. unfold has_column.
    induction (df_columns df) as [| [n0 c0] cols IH]; simpl in *; [reflexivity |].
    destruct (String.eqb n0 name); simpl in *; [discriminate | auto]. }
  rewrite Hhas. reflexivity.
Qed.

(** The categories of a column that holds the three climate values and
    nothing else. *)
Lemma climate_categories (zones : list (option string)) :
  (forall z, In z zones -> exists s, z = Some s /\ In s climate_values) ->
  (forall s, In s climate_values -> In (Some s) zones) ->
  sort_uniq String.compare (present zones) = ["Arctic"; "Temperate"; "Tropical"].
Proof.
  intros Honly Hall. apply sort_uniq_strings_eq.
  - repeat constructor.
  - intros s. rewrite present_in. split.
    + intros Hs. destruct (Honly _ Hs) as (s' & [= <-] & Hin).
      unfold climate_values in Hin. simpl in *. tauto.
    + intros Hs. apply Hall. unfold climate_values. simpl in *. tauto.
Qed.

Lemma nth_indicator (lv : string) (zones : list (option string)) (i : nat) :
  (i < length zones)%nat ->
  nth i (cells (BoolCol (map (is_text lv) zones))) NaN
  = Flag (is_text lv (nth i zones None)).
Proof.
  intros Hi. simpl.
  rewrite (nth_indep _ NaN (Flag (is_text lv None))) by (rewrite !length_map; exact Hi).
  rewrite map_map. rewrite (map_nth (fun z => Flag (is_text lv z))). reflexivity.
Qed.

End EncodingFacts.

Section EncodingClaims.
Context `{F : Float64}.

(** C2 (as amended): for every table (as [read_csv] returns them) whose
    'Climate Zone' column holds only values of Tropical, Temperate,
    Arctic and holds each of the three at least once, the one-hot
    expansion of the trainer drops the column and appends exactly three
    indicator columns, Climate Zone_Arctic, Climate Zone_Temperate,
    Climate Zone_Tropical in this order; in every row the three
    indicators sum to 1 and exactly one is set. *)
Theorem get_dummies_climate_zone (df : DataFrame) (zones : list (option string)) :
  well_formed df ->
  lookup_column "Climate Zone" (df_columns df) = Some (ObjCol zones) ->
  (forall z, In z zones -> exists s, z = Some s /\ In s climate_values) ->
  (forall s, In s climate_values -> In (Some s) zones) ->
  exists df' inds,
    get_dummies df ["Climate Zone"] = inr df'
    /\ df_index df' = df_index df
    /\ df_columns df'
       = (List.filter (fun nc => negb (String.eqb (fst nc) "Climate Zone")) (df_columns df)
          ++ inds)%list
    /\ inds = [ ("Climate Zone_Arctic", BoolCol (map (is_text "Arctic") zones));
                ("Climate Zone_Temperate", BoolCol (map (is_text "Temperate") zones));
                ("Climate Zone_Tropical", BoolCol (map (is_text "Tropical") zones)) ]
    /\ forall i, (i < length zones)%nat -> exactly_one_set (indicator_row inds i).
Proof.
  intros (_ & Hnd) Hcol Honly Hall.
  eexists _, _. split; [apply (get_dummies_one df _ _ Hnd Hcol) |].
  split; [reflexivity |]. split; [reflexivity |].
  simpl get_dummies_1d. rewrite (climate_categories zones Honly Hall).
  split; [reflexivity |].
  intros i Hi. unfold indicator_row. cbn [map snd].
  rewrite !nth_indicator by exact Hi.
  assert (Hz : In (nth i zones None) zones) by (apply nth_In; exact Hi).
  destruct (Honly _ Hz) as (s & -> & Hs).
  unfold climate_values in Hs. simpl in Hs.
  destruct Hs as [<- | [<- | [<- | []]]]; cbn;
    (split; [repeat constructor; eexists; reflexivity | split; reflexivity]).
Qed.

(** For a column that holds only the three climate values but not all of
    them, the categories are the values that occur: fewer than three
    indicator columns. *)
Lemma get_dummies_one_tropical_row :
  get_dummies one_tropical_row ["Climate Zone"]
  = inr {| df_index := [0%nat];
           df_columns :=
             [ ("Temperature (Celsius)", FloatCol [Some 20%Q]);
               ("Precipitation (mm)", FloatCol [Some 50%Q]);
               ("Soil pH", FloatCol [Some 6%Q]);
               ("Input Expenses (Currency)", FloatCol [Some 2000%Q]);
               ("Output Prices (Currency)", FloatCol [Some 7000%Q]);
               ("Recommended Product", ObjCol [Some "Rice"]);
               ("Climate Zone_Tropical", BoolCol [true]) ] |}.
Proof. reflexivity. Qed.

End EncodingClaims.

(** C2, counterexample to the claim as stated: the one-row table holds
    only a value of the three in its 'Climate Zone' column, and its
    one-hot expansion has a single indicator column, Climate
    Zone_Tropical; there is no Climate Zone_Arctic and no Climate
    Zone_Temperate. *)
Lemma one_tropical_row_single_indicator :
  well_formed one_tropical_row
  /\ lookup_column "Climate Zone" (df_columns one_tropical_row)
     = Some (ObjCol [Some "Tropical"])
  /\ (forall z, In z [Some "Tropical"] -> exists s, z = Some s /\ In s climate_values)
  /\ forall F : Float64,
      exists df',
        get_dummies one_tropical_row ["Climate Zone"] = inr df'
        /\ column_names df'
           = [ "Temperature (Celsius)"; "Precipitation (mm)"; "Soil pH";
               "Input Expenses (Currency)"; "Output Prices (Currency)";
               "Recommended Product"; "Climate Zone_Tropical" ]
        /\ ~ In "Climate Zone_Arctic" (column_names df')
        /\ ~ In "Climate Zone_Temperate" (column_names df').
Proof.
  split.
  { split.
    - repeat constructor.
    - unfold column_names. simpl.
      repeat (constructor; [simpl; intuition discriminate |]). constructor. }
  split; [reflexivity |]. split.
  { intros z [<- | []]. exists "Tropical". split; [reflexivity |].
    unfold climate_values. simpl. auto. }
  intros F. eexists. split; [apply get_dummies_one_tropical_row |].
  split; [reflexivity |].
  unfold column_names. simpl. split; intuition discriminate.
Qed.

(** ** 10.6 Selecting the feature columns *)

Lemma has_column_false (cols : list (string * column)) (name : string) :
  ~ In name (map fst cols) -> has_column cols name = false.
Proof.
  unfold has_column. induction cols as [| [n0 c0] cols IH]; simpl; [reflexivity |].
  intros Hnot. destruct (String.eqb_spec n0 name) as [-> | _]; [tauto |].
  apply IH. tauto.
Qed.

Lemma getitem_list_missing (df : DataFrame) (names : list string) (name : string) :
  In name names ->
  ~ In name (column_names df) ->
  exists missing,
    getitem_list df names = inl (KeyError missing) /\ In name missing.
Proof.
  intros Hin Hnot. unfold getitem_list.
  set (missing := List.filter _ names).
  assert (Hm : In name missing).
  { apply filter_In. split; [exact Hin |].
    rewrite (has_column_false _ _ Hnot). reflexivity. }
  exists missing. destruct missing as [| m0 ms]; [contradiction |]. auto.
Qed.

Section SelectionFacts.
Context `{F : Float64}.

(** The labels of the indicator columns of a column are built from the
    values the column holds: a climate value that does not occur names
    no indicator column. *)
Lemma get_dummies_1d_label (c : column) (v : string) :
  In v climate_values ->
  ~ In (Text v) (cells c) ->
  ~ In ("Climate Zone_" ++ v) (map fst (get_dummies_1d "Climate Zone" c)).
Proof.
  intros Hv Hmissing Hin.
  destruct c as [xs | xs | xs]; simpl in Hin; rewrite map_map in Hin;
    apply in_map_iff in Hin; destruct Hin as (lv & Hname & Hlv);
    cbv [String.append fst] in Hname.
  - injection Hname as Hname.
    pose proof (repr_numeric lv) as Hnum. rewrite Hname in Hnum.
    unfold climate_values in Hv. simpl in Hv.
    destruct Hv as [<- | [<- | [<- | []]]]; discriminate.
  - injection Hname as ->.
    apply sort_uniq_subset, present_in in Hlv.
    apply Hmissing. simpl. apply in_map_iff. exists (Some v). auto.
  - injection Hname as Hname.
    unfold climate_values in Hv. simpl in Hv.
    destruct lv; destruct Hv as [<- | [<- | [<- | []]]]; discriminate.
Qed.

(** After encoding, a climate value that the column does not hold and
    that no column of the table is already named after has no indicator
    column, and the selection of the features raises. *)
Lemma features_key_error (df : DataFrame) (c : column) (v : string) :
  well_formed df ->
  lookup_column "Climate Zone" (df_columns df) = Some c ->
  In v climate_values ->
  ~ In (Text v) (cells c) ->
  ~ In ("Climate Zone_" ++ v) (column_names df) ->
  exists df' missing,
    get_dummies df ["Climate Zone"] = inr df'
    /\ getitem_list df' trainer_features = inl (KeyError missing)
    /\ In ("Climate Zone_" ++ v) missing.
Proof.
  intros (_ & Hnd) Hcol Hv Hmissing Hfresh.
  eexists. 
  assert (Hsel : exists missing,
             getitem_list
               {| df_index := df_index df;
                  df_columns :=
                    List.filter (fun nc => negb (String.eqb (fst nc) "Climate Zone"))
                                (df_columns df)
                    ++ get_dummies_1d "Climate Zone" c |} trainer_features
             = inl (KeyError missing) /\ In ("Climate Zone_" ++ v) missing).
  { apply getitem_list_missing.
    - unfold climate_values in Hv. unfold trainer_features. simpl in *.
      destruct Hv as [<- | [<- | [<- | []]]]; simpl; tauto.
    - unfold column_names. simpl. rewrite map_app, in_app_iff.
      intros [Hold | Hnew].
      + apply Hfresh. unfold column_names.
        apply in_map_iff in Hold. destruct Hold as (nc & Hname & Hnc).
        apply filter_In in Hnc. apply in_map_iff. exists nc. tauto.
      + exact (get_dummies_1d_label c v Hv Hmissing Hnew). }
  destruct Hsel as (missing & Hsel & Hin).
  exists missing. split; [apply (get_dummies_one df _ _ Hnd Hcol) |].
  split; assumption.
Qed.

End SelectionFacts.

(** ** 10.7 The shuffle is a permutation *)

Lemma insert_head_perm {A : Type} (a b : A) (l : list A) (j : nat) :
  l !! j = Some b -> Permutation (b :: <[j := a]> l) (a :: l).
Proof.
  revert j. induction l as [| c l IH]; intros [| j] Hj; simpl in *; try discriminate.
  - injection Hj as ->. apply perm_swap.
  - etransitivity; [apply perm_swap |].
    etransitivity; [apply perm_skip, (IH j Hj) |]. apply perm_swap.
Qed.

Lemma swap_perm {A : Type} (x : list A) (i j : nat) : Permutation (swap x i j) x.
Proof.
  unfold swap.
  destruct (x !! i) as [xi |] eqn:Hi; [| reflexivity].
  destruct (x !! j) as [xj |] eqn:Hj; [| reflexivity].
  revert i j Hi Hj. induction x as [| a l IH]; intros [| i] [| j] Hi Hj;
    simpl in *; try discriminate.
  - injection Hi as ->. injection Hj as ->. reflexivity.
  - injection Hi as ->. apply insert_head_perm, Hj.
  - injection Hj as ->. etransitivity; [| apply (insert_head_perm xj xi l i Hi)].
    reflexivity.
  - apply perm_skip, IH; assumption.
Qed.

Lemma swap_length {A : Type} (x : list A) (i j : nat) : length (swap x i j) = length x.
Proof. apply Permutation_length, swap_perm. Qed.

Section ShuffleFacts.
Context `{G : BitGenerator} `{L : Allocator}.

(** The shuffle loop never raises and rearranges its argument. *)
Lemma shuffle_from_total {A : Type} (i : nat) (x : list A) :
  total (shuffle_from i x) (fun x' => Permutation x' x).
Proof.
  revert x. induction i as [| i IH]; intros x s.
  - exists x, s. split; reflexivity.
  - unfold returns. cbn [shuffle_from].
    destruct (random_interval (Z.of_nat (S i)) s) as [j s1] eqn:Hj.
    destruct (IH (swap x (S i) (Z.to_nat j)) s1) as (x' & s' & Hrun & Hperm).
    exists x', s'. split.
    + exact Hrun.
    + etransitivity; [exact Hperm | apply swap_perm].
Qed.

Lemma permutation_total (n : nat) :
  total (permutation n) (fun p => Permutation p (seq 0 n)).
Proof. apply shuffle_from_total. Qed.

(** The positions the shuffle split hands out: every position once,
    either in the train part or in the test part. *)
Lemma shuffle_split_indices_spec (n n_train n_test : nat) (random_state : Z) :
  exists train test,
    shuffle_split_indices n n_train n_test random_state = inr (train, test)
    /\ length test = Nat.min n_test n
    /\ length train = Nat.min n_train (n - n_test)
    /\ ((n <= n_train + n_test)%nat -> Permutation (train ++ test) (seq 0 n)).
Proof.
  unfold shuffle_split_indices.
  destruct (permutation_total n (seed random_state)) as (p & s' & Hrun & Hperm).
  unfold returns in Hrun. rewrite Hrun.
  assert (Hlen : length p = n).
  { rewrite (Permutation_length Hperm). apply length_seq. }
  exists (firstn n_train (skipn n_test p)), (firstn n_test p).
  split; [reflexivity |].
  split; [rewrite length_firstn, Hlen; reflexivity |].
  split; [rewrite length_firstn, length_skipn, Hlen; reflexivity |].
  intros Hcover.
  rewrite firstn_all2 by (rewrite length_skipn; lia).
  etransitivity; [apply Permutation_app_comm |].
  rewrite firstn_skipn. exact Hperm.
Qed.

End ShuffleFacts.

(** ** 10.8 The size of the test partition *)

Lemma inject_Z_le (a b : Z) : a <= b -> (inject_Z a <= inject_Z b)%Q.
Proof. intros H. rewrite <- Zle_Qle. exact H. Qed.

Lemma inject_Z_lt_inv (a b : Z) : (inject_Z a < inject_Z b)%Q -> a < b.
Proof. intros H. rewrite <- Zlt_Qlt in H. exact H. Qed.

Section SplitSizeFacts.
Context `{F : Float64}.

Lemma float_0_2_exact : (fl float_0_2 == float_0_2)%Q.
Proof.
  apply (fl_fixed_eq _ (binary64 3602879701896397 (-54))); [reflexivity |].
  apply fl_exact. split; [reflexivity | lia].
Qed.

Lemma test_count_nonneg (n : nat) : 0 <= test_count n.
Proof.
  unfold test_count.
  assert (H0 : (0 <= fl (float_0_2 * inject_Z (Z.of_nat n)))%Q).
  { rewrite <- (fl_int 0) by reflexivity. apply fl_mono.
    assert (0 <= inject_Z (Z.of_nat n))%Q by (apply (inject_Z_le 0); lia).
    unfold float_0_2. change (inject_Z 0) with 0%Q. lra. }
  apply Qceiling_resp_le in H0. exact H0.
Qed.

Lemma test_count_pos (n : nat) : (1 <= n)%nat -> 1 <= test_count n.
Proof.
  intros Hn. unfold test_count.
  assert (Hc : (float_0_2 <= fl (float_0_2 * inject_Z (Z.of_nat n)))%Q).
  { rewrite <- float_0_2_exact at 1. apply fl_mono.
    assert (1 <= inject_Z (Z.of_nat n))%Q by (apply (inject_Z_le 1); lia).
    unfold float_0_2. lra. }
  pose proof (Qle_ceiling (fl (float_0_2 * inject_Z (Z.of_nat n)))) as Hceil.
  assert (Hpos : (0 < inject_Z (Qceiling (fl (float_0_2 * inject_Z (Z.of_nat n)))))%Q).
  { eapply Qlt_le_trans; [| exact Hceil].
    eapply Qlt_le_trans; [| exact Hc]. reflexivity. }
  apply (inject_Z_lt_inv 0) in Hpos. lia.
Qed.

(** Within rounding of [0.2 * n]: at least [n / 5], at most one more. *)
Lemma test_count_bounds (n : nat) :
  Z.of_nat n < 2 ^ 50 ->
  Z.of_nat n <= 5 * test_count n <= Z.of_nat n + 5.
Proof.
  intros Hn. pose proof (test_count_nonneg n) as Hnonneg. revert Hnonneg.
  unfold test_count. remember (Z.of_nat n) as z eqn:Ez.
  assert (Hz : 0 <= z) by lia. clear Ez. intros Hnonneg.
  set (x := (float_0_2 * inject_Z z)%Q) in *.
  split.
  - (* lower bound *)
    destruct (Z.eq_dec z 0) as [Hz0 | Hz0]; [lia |].
    set (k := (z - 1) / 5).
    assert (Hk : 5 * k <= z - 1 < 5 * k + 5).
    { unfold k. pose proof (Z.div_mod (z - 1) 5 ltac:(lia)).
      pose proof (Z.mod_pos_bound (z - 1) 5 ltac:(lia)). lia. }
    clearbody k.
    assert (Hf : (fl (binary64 (8 * k + 1) (-3)) == binary64 (8 * k + 1) (-3))%Q).
    { apply fl_exact. split; [| lia].
      lia. }
    assert (Hval : (binary64 (8 * k + 1) (-3) == inject_Z k + (1 # 8))%Q).
    { unfold binary64, pow2. rewrite inject_Z_plus, inject_Z_mult. simpl. field. }
    assert (Hle : (binary64 (8 * k + 1) (-3) <= x)%Q).
    { rewrite Hval. subst x.
      assert (inject_Z (5 * k + 1) <= inject_Z z)%Q by (apply inject_Z_le; lia).
      rewrite inject_Z_plus, inject_Z_mult in H. unfold float_0_2.
      change (inject_Z 5) with 5%Q in H. change (inject_Z 1) with 1%Q in H.
      assert (H3 : (0 <= inject_Z k)%Q) by (apply (inject_Z_le 0); lia). lra. }
    apply fl_mono in Hle. rewrite Hf, Hval in Hle.
    pose proof (Qle_ceiling (fl x)) as Hceil.
    assert (Hlt : (inject_Z k < inject_Z (Qceiling (fl x)))%Q) by lra.
    apply inject_Z_lt_inv in Hlt. lia.
  - (* upper bound *)
    set (K := z / 5 + 1).
    assert (HK : z + 1 <= 5 * K <= z + 5).
    { unfold K. pose proof (Z.div_mod z 5 ltac:(lia)).
      pose proof (Z.mod_pos_bound z 5 ltac:(lia)). lia. }
    clearbody K.
    assert (Hf : (fl (inject_Z K) == inject_Z K)%Q).
    { apply fl_int. lia. }
    assert (Hle : (x <= inject_Z K)%Q).
    { subst x.
      assert (H1 : (inject_Z (z + 1) <= inject_Z (5 * K))%Q) by (apply inject_Z_le; lia).
      assert (H2 : (inject_Z z <= inject_Z (2 ^ 50))%Q) by (apply inject_Z_le; lia).
      assert (H3 : (0 <= inject_Z z)%Q) by (apply (inject_Z_le 0); lia).
      rewrite inject_Z_plus in H1. rewrite inject_Z_mult in H1.
      change (inject_Z 5) with 5%Q in H1. change (inject_Z 1) with 1%Q in H1.
      change (inject_Z (2 ^ 50)) with 1125899906842624%Q in H2.
      unfold float_0_2. lra. }
    apply fl_mono in Hle. rewrite Hf in Hle.
    apply Qceiling_resp_le in Hle. rewrite Qceiling_Z in Hle. lia.
Qed.

End SplitSizeFacts.

Section ValidateFacts.
Context `{F : Float64}.

Lemma validate_shuffle_split_unfold (n : nat) :
  validate_shuffle_split n float_0_2
  = if Z.of_nat n - test_count n =? 0
    then inl (ValueError "the resulting train set will be empty")
    else inr (Z.to_nat (Z.of_nat n - test_count n), Z.to_nat (test_count n)).
Proof. reflexivity. Qed.

Lemma test_count_0 : test_count 0 = 0.
Proof.
  unfold test_count.
  assert (H0 : (fl (float_0_2 * inject_Z (Z.of_nat 0)) == inject_Z 0)%Q).
  { rewrite <- (fl_int 0) by reflexivity. apply fl_proper. reflexivity. }
  rewrite (Qceiling_comp _ _ H0). apply Qceiling_Z.
Qed.

Lemma test_count_1 : test_count 1 = 1.
Proof.
  pose proof (test_count_pos 1 ltac:(lia)).
  pose proof (test_count_bounds 1 ltac:(reflexivity)). lia.
Qed.

(** With fewer than two rows no split is made. *)
Lemma validate_shuffle_split_small (n : nat) :
  (n <= 1)%nat ->
  validate_shuffle_split n float_0_2
  = inl (ValueError "the resulting train set will be empty").
Proof.
  intros Hn. rewrite validate_shuffle_split_unfold.
  assert (Hcases : n = 0%nat \/ n = 1%nat) by lia.
  destruct Hcases as [-> | ->].
  - rewrite test_count_0. reflexivity.
  - rewrite test_count_1. reflexivity.
Qed.

(** With two rows or more the split is made, the test part within
    rounding of a fifth of the rows, the train part the rest. *)
Lemma validate_shuffle_split_ok (n : nat) :
  (2 <= n)%nat -> Z.of_nat n < 2 ^ 50 ->
  exists n_train n_test,
    validate_shuffle_split n float_0_2 = inr (n_train, n_test)
    /\ Z.of_nat n_test = test_count n
    /\ (n_train + n_test = n)%nat
    /\ (1 <= n_train)%nat
    /\ (n <= 5 * n_test <= n + 5)%nat.
Proof.
  intros Hn Hbig. rewrite validate_shuffle_split_unfold.
  pose proof (test_count_bounds n Hbig) as Hb.
  destruct (Z.eqb_spec (Z.of_nat n - test_count n) 0) as [Heq | Hne]; [lia |].
  eexists _, _. split; [reflexivity |]. repeat split; lia.
Qed.

(** What a split that was made tells, for any number of rows. *)
Lemma validate_shuffle_split_inv (n n_train n_test : nat) :
  validate_shuffle_split n float_0_2 = inr (n_train, n_test) ->
  (1 <= n)%nat /\ (1 <= n_test)%nat /\ (n <= n_train + n_test)%nat
  /\ Z.of_nat n_test = test_count n.
Proof.
  rewrite validate_shuffle_split_unfold.
  destruct (Z.eqb_spec (Z.of_nat n - test_count n) 0) as [Heq | Hne]; [discriminate |].
  intros [= <- <-].
  pose proof (test_count_nonneg n) as H0.
  assert (Hn : (1 <= n)%nat).
  { destruct n as [| n]; [| lia]. rewrite test_count_0 in Hne. simpl in Hne. lia. }
  pose proof (test_count_pos n Hn). repeat split; lia.
Qed.

End ValidateFacts.

(** ** 10.9 Positional selection *)

Lemma getitems_spec {A : Type} (a : list A) (idx : list nat) (l : list A) (d : A) :
  getitems a idx = inr l ->
  Forall (fun i => (i < length a)%nat) idx /\ l = map (fun i => nth i a d) idx.
Proof.
  revert l. induction idx as [| i idx IH]; simpl; intros l Hl.
  - injection Hl as <-. split; [constructor | reflexivity].
  - destruct (a !! i) as [x |] eqn:Hx; [| discriminate].
    destruct (getitems a idx) as [e | xs]; simpl in Hl; [discriminate |].
    injection Hl as <-. destruct (IH xs eq_refl) as [Hall ->].
    split.
    + constructor; [eapply lookup_lt_Some; exact Hx | exact Hall].
    + simpl. f_equal. symmetry. apply nth_lookup_Some with (d := d) in Hx. exact Hx.
Qed.

Lemma getitems_ok {A : Type} (a : list A) (idx : list nat) (d : A) :
  Forall (fun i => (i < length a)%nat) idx ->
  getitems a idx = inr (map (fun i => nth i a d) idx).
Proof.
  induction 1 as [| i idx Hi _ IH]; simpl; [reflexivity |].
  destruct (lookup_lt_is_Some_2 a i Hi) as [x Hx]. rewrite Hx, IH. simpl.
  apply nth_lookup_Some with (d := d) in Hx. rewrite Hx. reflexivity.
Qed.

Lemma nth_map_in_range {A B : Type} (f : A -> B) (l : list A) (k : nat) (d : A) (e : B) :
  (k < length l)%nat -> nth k (map f l) e = f (nth k l d).
Proof.
  intros Hk. rewrite (nth_indep _ e (f d)) by (rewrite length_map; exact Hk).
  apply map_nth.
Qed.

Lemma map_nth_seq {A : Type} (l : list A) (d : A) :
  map (fun i => nth i l d) (seq 0 (length l)) = l.
Proof.
  apply nth_ext with (d := d) (d' := d).
  - rewrite length_map, length_seq. reflexivity.
  - intros k Hk. rewrite length_map, length_seq in Hk.
    rewrite (nth_map_in_range _ _ _ 0%nat) by (rewrite length_seq; exact Hk).
    rewrite seq_nth by exact Hk. reflexivity.
Qed.

Lemma cells_length (c : column) : length (cells c) = col_length c.
Proof. destruct c; simpl; apply length_map. Qed.

Lemma column_take_spec (c c' : column) (idx : list nat) :
  column_take c idx = inr c' ->
  Forall (fun i => (i < col_length c)%nat) idx
  /\ cells c' = map (fun i => nth i (cells c) NaN) idx.
Proof.
  destruct c as [xs | xs | xs]; simpl;
    destruct (getitems xs idx) as [e | ys] eqn:Hys; simpl; try discriminate;
    intros [= <-].
  - destruct (getitems_spec xs idx ys None Hys) as [Hall ->]. split; [exact Hall |].
    simpl. rewrite map_map. apply map_ext_in. intros i Hi.
    rewrite List.Forall_forall in Hall.
    symmetry. apply nth_map_in_range. apply Hall, Hi.
  - destruct (getitems_spec xs idx ys None Hys) as [Hall ->]. split; [exact Hall |].
    simpl. rewrite map_map. apply map_ext_in. intros i Hi.
    rewrite List.Forall_forall in Hall.
    symmetry. apply nth_map_in_range. apply Hall, Hi.
  - destruct (getitems_spec xs idx ys false Hys) as [Hall ->]. split; [exact Hall |].
    simpl. rewrite map_map. apply map_ext_in. intros i Hi.
    rewrite List.Forall_forall in Hall.
    symmetry. apply nth_map_in_range. apply Hall, Hi.
Qed.

Lemma column_take_ok (c : column) (idx : list nat) :
  Forall (fun i => (i < col_length c)%nat) idx ->
  exists c', column_take c idx = inr c' /\ col_length c' = length idx.
Proof.
  intros Hall. destruct c as [xs | xs | xs]; simpl in *.
  - rewrite (getitems_ok xs idx None Hall). simpl. eexists. split; [reflexivity |].
    simpl. apply length_map.
  - rewrite (getitems_ok xs idx None Hall). simpl. eexists. split; [reflexivity |].
    simpl. apply length_map.
  - rewrite (getitems_ok xs idx false Hall). simpl. eexists. split; [reflexivity |].
    simpl. apply length_map.
Qed.

Lemma columns_take_spec (cols cols' : list (string * column)) (idx : list nat) :
  columns_take cols idx = inr cols' ->
  Forall2 (fun nc nc' =>
             fst nc' = fst nc
             /\ cells (snd nc') = map (fun i => nth i (cells (snd nc)) NaN) idx)
          cols cols'.
Proof.
  revert cols'. induction cols as [| [name c] cols IH]; simpl; intros cols' H.
  - injection H as <-. constructor.
  - destruct (column_take c idx) as [e | c'] eqn:Hc; simpl in H; [discriminate |].
    destruct (columns_take cols idx) as [e | rest]; simpl in H; [discriminate |].
    injection H as <-. constructor; [| apply IH; reflexivity].
    simpl. split; [reflexivity |]. apply (column_take_spec _ _ _ Hc).
Qed.

Lemma columns_take_ok (cols : list (string * column)) (idx : list nat) (n : nat) :
  Forall (fun nc => col_length (snd nc) = n) cols ->
  Forall (fun i => (i < n)%nat) idx ->
  exists cols', columns_take cols idx = inr cols'
                /\ Forall (fun nc => col_length (snd nc) = length idx) cols'
                /\ map fst cols' = map fst cols.
Proof.
  intros Hcols Hidx. induction Hcols as [| [name c] cols Hc _ IH]; simpl.
  - exists []. repeat split; constructor.
  - simpl in Hc. subst n.
    destruct (column_take_ok c idx Hidx) as (c' & -> & Hlen).
    destruct IH as (rest & -> & Hrest & Hnames). simpl.
    exists ((name, c') :: rest). split; [reflexivity |].
    split; [constructor; assumption | simpl; congruence].
Qed.

(** The rows of a positional selection are the selected rows. *)
Lemma iloc_spec (X X' : DataFrame) (idx : list nat) :
  iloc X idx = inr X' ->
  nrows X' = length idx
  /\ df_index X' = map (fun i => nth i (df_index X) 0%nat) idx
  /\ column_names X' = column_names X
  /\ forall k, (k < length idx)%nat -> row_at X' k = row_at X (nth k idx 0%nat).
Proof.
  unfold iloc. intros H.
  destruct (getitems (df_index X) idx) as [e | index] eqn:Hindex; simpl in H;
    [discriminate |].
  destruct (columns_take (df_columns X) idx) as [e | cols] eqn:Hcols; simpl in H;
    [discriminate |].
  injection H as <-.
  destruct (getitems_spec _ _ _ 0%nat Hindex) as [_ ->].
  apply columns_take_spec in Hcols.
  split; [unfold nrows; simpl; apply length_map |].
  split; [reflexivity |].
  split.
  - unfold column_names. simpl. clear Hindex.
    induction Hcols as [| nc nc' cols cols' [Hname _] _ IH]; simpl; congruence.
  - intros k Hk. unfold row_at. simpl. clear Hindex.
    induction Hcols as [| nc nc' cols cols' [Hname Hcells] _ IH]; simpl; [reflexivity |].
    rewrite IH, Hname, Hcells. do 2 f_equal.
    exact (nth_map_in_range (fun i => nth i (cells (snd nc)) NaN) idx k 0%nat NaN Hk).
Qed.

Lemma series_iloc_spec (y y' : Series) (idx : list nat) :
  series_iloc y idx = inr y' ->
  s_index y' = map (fun i => nth i (s_index y) 0%nat) idx
  /\ cells (s_values y') = map (fun i => nth i (cells (s_values y)) NaN) idx.
Proof.
  unfold series_iloc. intros H.
  destruct (getitems (s_index y) idx) as [e | index] eqn:Hindex; simpl in H;
    [discriminate |].
  destruct (column_take (s_values y) idx) as [e | vals] eqn:Hvals; simpl in H;
    [discriminate |].
  injection H as <-. simpl.
  destruct (getitems_spec _ _ _ 0%nat Hindex) as [_ ->].
  split; [reflexivity | apply (column_take_spec _ _ _ Hvals)].
Qed.

Lemma iloc_ok (X : DataFrame) (idx : list nat) :
  Forall (fun nc => col_length (snd nc) = nrows X) (df_columns X) ->
  Forall (fun i => (i < nrows X)%nat) idx ->
  exists X', iloc X idx = inr X'.
Proof.
  intros Hcols Hidx. unfold iloc.
  rewrite (getitems_ok (df_index X) idx 0%nat Hidx). simpl.
  destruct (columns_take_ok _ _ _ Hcols Hidx) as (cols' & -> & _). simpl.
  eexists. reflexivity.
Qed.

Lemma series_iloc_ok (y : Series) (idx : list nat) (n : nat) :
  length (s_index y) = n -> col_length (s_values y) = n ->
  Forall (fun i => (i < n)%nat) idx ->
  exists y', series_iloc y idx = inr y'.
Proof.
  intros Hindex Hvals Hidx. unfold series_iloc. subst n.
  rewrite (getitems_ok (s_index y) idx 0%nat Hidx). simpl.
  rewrite <- Hvals in Hidx.
  destruct (column_take_ok _ _ Hidx) as (c' & -> & _). simpl.
  eexists. reflexivity.
Qed.

(** ** 10.10 Rows with their labels *)

Lemma labelled_rows_iloc (X X' : DataFrame) (y y' : Series) (idx : list nat) :
  iloc X idx = inr X' ->
  series_iloc y idx = inr y' ->
  labelled_rows X' y' = map (labelled_row X y) idx.
Proof.
  intros HX Hy.
  destruct (iloc_spec _ _ _ HX) as (Hn & Hindex & _ & Hrows).
  destruct (series_iloc_spec _ _ _ Hy) as (_ & Hcells).
  unfold labelled_rows. rewrite Hn.
  rewrite <- (map_nth_seq idx 0%nat) at 2. rewrite map_map.
  apply map_ext_in. intros k Hk. apply in_seq in Hk. simpl in Hk.
  unfold labelled_row. rewrite Hindex, Hcells, (Hrows k) by lia.
  rewrite !(nth_map_in_range _ idx k 0%nat) by lia. reflexivity.
Qed.

Lemma labelled_rows_index (X : DataFrame) (y : Series) :
  map (fun r => fst (fst r)) (labelled_rows X y) = df_index X.
Proof.
  unfold labelled_rows, labelled_row. rewrite map_map. simpl.
  apply map_nth_seq.
Qed.

(** ** 10.11 The train/test split *)

Section SplitFacts.
Context `{F : Float64} `{G : BitGenerator} `{L : Allocator}.

Lemma train_test_split_inv (X Xtr Xte : DataFrame) (y ytr yte : Series) (rs : Z) :
  train_test_split X y float_0_2 rs = inr (Xtr, Xte, ytr, yte) ->
  exists train test,
    Permutation (train ++ test) (seq 0 (nrows X))
    /\ (1 <= length test)%nat
    /\ iloc X train = inr Xtr /\ iloc X test = inr Xte
    /\ series_iloc y train = inr ytr /\ series_iloc y test = inr yte.
Proof.
  unfold train_test_split.
  destruct (Nat.eqb (nrows X) (length (s_index y))); simpl; [| discriminate].
  destruct (validate_shuffle_split (nrows X) float_0_2) as [e | [n_train n_test]] eqn:Hv;
    simpl; [discriminate |].
  destruct (validate_shuffle_split_inv _ _ _ Hv) as (Hn & Htest & Hcover & _).
  destruct (shuffle_split_indices_spec (nrows X) n_train n_test rs)
    as (train & test & -> & Hlt & _ & Hperm). simpl.
  destruct (iloc X train) as [e | Xtr'] eqn:H1; simpl; [discriminate |].
  destruct (iloc X test) as [e | Xte'] eqn:H2; simpl; [discriminate |].
  destruct (series_iloc y train) as [e | ytr'] eqn:H3; simpl; [discriminate |].
  destruct (series_iloc y test) as [e | yte'] eqn:H4; simpl; [discriminate |].
  intros [= <- <- <- <-]. exists train, test.
  split; [apply Hperm, Hcover |]. split; [lia |]. auto.
Qed.

Lemma train_test_split_ok (X : DataFrame) (y : Series) (rs : Z) :
  aligned X y ->
  (2 <= nrows X)%nat -> Z.of_nat (nrows X) < 2 ^ 50 ->
  exists Xtr Xte ytr yte,
    train_test_split X y float_0_2 rs = inr (Xtr, Xte, ytr, yte)
    /\ Z.of_nat (nrows Xte) = test_count (nrows X)
    /\ (nrows Xtr + nrows Xte = nrows X)%nat.
Proof.
  intros (Hcols & Hindex & Hvals) Hn Hbig. unfold train_test_split.
  assert (Hlen : length (s_index y) = nrows X) by (rewrite Hindex; reflexivity).
  rewrite Hlen, Nat.eqb_refl. simpl.
  destruct (validate_shuffle_split_ok _ Hn Hbig)
    as (n_train & n_test & -> & Htest & Hsum & _). simpl.
  destruct (shuffle_split_indices_spec (nrows X) n_train n_test rs)
    as (train & test & -> & Hlt & Hltr & Hperm). simpl.
  specialize (Hperm ltac:(lia)).
  assert (Hrange : Forall (fun i => (i < nrows X)%nat) (train ++ test)).
  { apply List.Forall_forall. intros i Hi.
    apply (Permutation_in _ Hperm) in Hi. apply in_seq in Hi. lia. }
  apply Forall_app in Hrange. destruct Hrange as [Htr Hte].
  destruct (iloc_ok X train Hcols Htr) as (Xtr & H1).
  destruct (iloc_ok X test Hcols Hte) as (Xte & H2).
  destruct (series_iloc_ok y train _ Hlen Hvals Htr) as (ytr & H3).
  destruct (series_iloc_ok y test _ Hlen Hvals Hte) as (yte & H4).
  rewrite H1, H2, H3, H4. simpl. exists Xtr, Xte, ytr, yte.
  split; [reflexivity |].
  destruct (iloc_spec _ _ _ H1) as (-> & _). destruct (iloc_spec _ _ _ H2) as (-> & _).
  split; lia.
Qed.

Lemma train_test_split_one_row :
  train_test_split one_row_features one_row_target float_0_2 42
  = inl (ValueError "the resulting train set will be empty").
Proof.
  unfold train_test_split. simpl negb. cbv iota.
  change (nrows one_row_features) with 1%nat.
  rewrite validate_shuffle_split_small by lia. reflexivity.
Qed.

(** A table of one row or of none is not split: the train set would be
    empty. *)
Lemma train_test_split_small (X : DataFrame) (y : Series) (rs : Z) :
  length (s_index y) = nrows X -> (nrows X <= 1)%nat ->
  train_test_split X y float_0_2 rs
  = inl (ValueError "the resulting train set will be empty").
Proof.
  intros Hlen Hn. unfold train_test_split. rewrite Hlen, Nat.eqb_refl. simpl.
  rewrite validate_shuffle_split_small by exact Hn. reflexivity.
Qed.

(** C3 (as amended): for every dataset of [n] rows below [2^50] (so
    that row counts are floats).  With [n >= 2] the trainer's split with
    [test_size=0.2] returns a test partition of exactly
    [ceil(0.2 * n)] rows, the product rounded as the floats round it
    ([test_count n]), which is at least [n / 5] and at most [n / 5 + 1]
    whatever the rounding, and a train partition of the remaining
    [n - n_test >= 1] rows, the targets split like the features.  With
    [n <= 1] the split raises [ValueError]: the train set would be
    empty. *)
Theorem train_test_split_sizes (X : DataFrame) (y : Series) :
  aligned X y ->
  Z.of_nat (nrows X) < 2 ^ 50 ->
  ((2 <= nrows X)%nat ->
   exists Xtr Xte ytr yte,
     train_test_split X y float_0_2 42 = inr (Xtr, Xte, ytr, yte)
     /\ Z.of_nat (nrows Xte) = test_count (nrows X)
     /\ (nrows X <= 5 * nrows Xte <= nrows X + 5)%nat
     /\ (nrows Xtr + nrows Xte = nrows X)%nat
     /\ (1 <= nrows Xtr)%nat
     /\ length (cells (s_values ytr)) = nrows Xtr
     /\ length (cells (s_values yte)) = nrows Xte)
  /\ ((nrows X <= 1)%nat ->
      train_test_split X y float_0_2 42
      = inl (ValueError "the resulting train set will be empty")).
Proof.
  intros Hal Hbig. split.
  - intros Hn.
    destruct (train_test_split_ok X y 42 Hal Hn Hbig)
      as (Xtr & Xte & ytr & yte & Hsplit & Htest & Hsum).
    exists Xtr, Xte, ytr, yte. split; [exact Hsplit |]. split; [exact Htest |].
    pose proof (test_count_bounds (nrows X) Hbig) as Hb.
    destruct (train_test_split_inv _ _ _ _ _ _ _ Hsplit)
      as (train & test & _ & _ & H1 & H2 & H3 & H4).
    destruct (iloc_spec _ _ _ H1) as (Ltr & _).
    destruct (iloc_spec _ _ _ H2) as (Lte & _).
    destruct (series_iloc_spec _ _ _ H3) as (_ & Ctr).
    destruct (series_iloc_spec _ _ _ H4) as (_ & Cte).
    rewrite Ctr, Cte, !length_map.
    repeat split; lia.
  - intros Hn. destruct Hal as (_ & Hindex & _).
    apply train_test_split_small; [rewrite Hindex; reflexivity | exact Hn].
Qed.

End SplitFacts.

(** C3, counterexample to the claim as stated: on a dataset of one row,
    [n = 1], the split returns no partition at all; it raises
    [ValueError], whatever the float rounding and the generator. *)
Lemma train_test_split_one_row_raises :
  nrows one_row_features = 1%nat
  /\ aligned one_row_features one_row_target
  /\ forall (F : Float64) (G : BitGenerator),
      train_test_split one_row_features one_row_target float_0_2 42
      = inl (ValueError "the resulting train set will be empty").
Proof.
  split; [reflexivity |]. split.
  - split; [repeat constructor |]. split; reflexivity.
  - intros F G. apply train_test_split_one_row.
Qed.

(** ** 10.12 Runs of the trainer *)

Lemma returns_lift_result {S A : Type} (r : exn + A) (s s' : S) (a : A) :
  returns (lift_result r) s a s' <-> r = inr a /\ s' = s.
Proof.
  unfold returns, lift_result. split.
  - intros [= -> ->]. auto.
  - intros [-> ->]. reflexivity.
Qed.

Section TrainerRuns.
Context `{F : Float64} `{G : BitGenerator} `{L : Allocator} `{P : CsvParser} `{E : Estimator}.

Lemma trainer_script_inv (w w' : world) (g : trainer_globals) :
  Trainer.script w = (inr g, w') ->
  exists text table X y report, trainer_run w g w' text table X y report.
Proof.
  intros H. change (returns Trainer.script w g w') in H.
  unfold Trainer.script in H.
  apply returns_bind in H. destruct H as (df0 & w1 & Hread & H).
  unfold returns, read_csv in Hread. fold data_file in Hread.
  destruct (files w !! data_file) as [text |] eqn:Hfile; [| discriminate].
  assert (Hparse : parse_csv text = inr df0) by congruence.
  assert (w1 = w) by congruence. subst w1. clear Hread.
  apply returns_bind in H. destruct H as (dd & w1 & Hd & H).
  apply returns_lift_result in Hd. destruct Hd as [Hd ->].
  cbv zeta in H.
  apply returns_bind in H. destruct H as (X & w1 & HX & H).
  apply returns_lift_result in HX. destruct HX as [HX ->].
  apply returns_bind in H. destruct H as (y & w1 & Hy & H).
  apply returns_lift_result in Hy. destruct Hy as [Hy ->].
  apply returns_bind in H. destruct H as ([[[Xtr Xte] ytr] yte] & w1 & Hs & H).
  apply returns_lift_result in Hs. destruct Hs as [Hs ->].
  apply returns_bind in H. destruct H as (c & w1 & Hfit & H).
  apply returns_lift_result in Hfit. destruct Hfit as [Hfit ->].
  apply returns_bind in H. destruct H as (yp & w1 & Hpred & H).
  apply returns_lift_result in Hpred. destruct Hpred as [Hpred ->].
  apply returns_bind in H. destruct H as (acc & w1 & Hacc & H).
  apply returns_lift_result in Hacc. destruct Hacc as [Hacc ->].
  apply returns_bind in H. destruct H as ([] & w1 & Hp1 & H).
  unfold returns, print in Hp1. injection Hp1 as <-.
  apply returns_bind in H. destruct H as ([] & w2 & Hp2 & H).
  unfold returns, print in Hp2. injection Hp2 as <-.
  apply returns_bind in H. destruct H as (rep & w3 & Hrep & H).
  apply returns_lift_result in Hrep. destruct Hrep as [Hrep ->].
  apply returns_bind in H. destruct H as ([] & w4 & Hp3 & H).
  unfold returns, print in Hp3. injection Hp3 as <-.
  apply returns_bind in H. destruct H as (paths & w5 & Hdump & H).
  unfold returns, joblib_dump, bind, write_file in Hdump.
  cbn [write_faults] in Hdump. fold model_file in Hdump.
  destruct (write_faults w !! model_file) as [[msg kept] |] eqn:Hfault;
    [discriminate |].
  unfold ret in Hdump. injection Hdump as <- <-.
  unfold returns, ret in H. injection H as <- <-.
  exists text, df0, X, y, rep. split; simpl; try assumption.
  - split; reflexivity.
  - unfold with_files. simpl. rewrite <- !app_assoc. reflexivity.
Qed.

End TrainerRuns.

(** ** 10.13 The partitions of the split *)

Lemma getitem_list_index (df X : DataFrame) (names : list string) :
  getitem_list df names = inr X -> df_index X = df_index df.
Proof.
  unfold getitem_list. destruct (List.filter _ names); [| discriminate].
  intros [= <-]. reflexivity.
Qed.

Lemma getitem_index (df : DataFrame) (y : Series) (name : string) :
  getitem df name = inr y -> s_index y = df_index df.
Proof.
  unfold getitem. destruct (lookup_column name (df_columns df)); [| discriminate].
  intros [= <-]. reflexivity.
Qed.

Section PartitionFacts.
Context `{F : Float64} `{G : BitGenerator} `{L : Allocator}.

Lemma get_dummies_index (df df' : DataFrame) (cols : list string) :
  get_dummies df cols = inr df' -> df_index df' = df_index df.
Proof.
  unfold get_dummies. destruct (getitem_list df cols); simpl; [discriminate |].
  intros [= <-]. reflexivity.
Qed.

(** The two partitions hold every row of the input once, each feature
    row with its own index label and its own target. *)
Lemma train_test_split_partition
      (X Xtr Xte : DataFrame) (y ytr yte : Series) (rs : Z) :
  train_test_split X y float_0_2 rs = inr (Xtr, Xte, ytr, yte) ->
  Permutation (labelled_rows Xtr ytr ++ labelled_rows Xte yte) (labelled_rows X y)
  /\ Permutation (df_index Xtr ++ df_index Xte) (df_index X)
  /\ (s_index y = df_index X ->
      s_index ytr = df_index Xtr /\ s_index yte = df_index Xte).
Proof.
  intros Hsplit.
  destruct (train_test_split_inv _ _ _ _ _ _ _ Hsplit)
    as (train & test & Hperm & _ & H1 & H2 & H3 & H4).
  assert (Hrows : Permutation (labelled_rows Xtr ytr ++ labelled_rows Xte yte)
                              (labelled_rows X y)).
  { rewrite (labelled_rows_iloc _ _ _ _ _ H1 H3), (labelled_rows_iloc _ _ _ _ _ H2 H4).
    rewrite <- map_app. unfold labelled_rows. apply Permutation_map, Hperm. }
  split; [exact Hrows |]. split.
  - apply (Permutation_map (fun r => fst (fst r))) in Hrows.
    rewrite map_app, !labelled_rows_index in Hrows. exact Hrows.
  - intros Hindex.
    destruct (iloc_spec _ _ _ H1) as (_ & -> & _).
    destruct (iloc_spec _ _ _ H2) as (_ & -> & _).
    destruct (series_iloc_spec _ _ _ H3) as (-> & _).
    destruct (series_iloc_spec _ _ _ H4) as (-> & _).
    rewrite Hindex. split; reflexivity.
Qed.

End PartitionFacts.

Lemma NoDup_app_disjoint {A : Type} (l1 l2 : list A) :
  List.NoDup (l1 ++ l2) -> forall x, In x l1 -> ~ In x l2.
Proof.
  intros Hnd x Hx1 Hx2.
  apply in_split in Hx1. destruct Hx1 as (a & b & ->).
  rewrite <- app_assoc in Hnd. simpl in Hnd.
  apply NoDup_remove_2 in Hnd. apply Hnd.
  rewrite !in_app_iff. auto.
Qed.

Section PartitionClaim.
Context `{F : Float64} `{G : BitGenerator} `{L : Allocator} `{P : CsvParser} `{E : Estimator}.

(** C8: the partitions of the trainer's split, for every encoded table,
    whether the run goes on to end normally or raises later.  The split
    picks the rows by position: the positions [train] and [test] hold
    together every position of the table exactly once, so no row is
    dropped, none is taken twice and none is in both partitions; each
    partition holds the rows at its positions, every feature row with
    its own index label and still next to its own target; and the rows
    of both partitions are together a rearrangement of the rows the
    split was given.  When the index labels of the table are distinct
    (they are for a [RangeIndex]; a file can give rows the same label),
    no index label is in both partitions.  A run that ends normally has
    bound such partitions. *)
Theorem split_partitions_rows :
  (forall (dd X Xtr Xte : DataFrame) (y ytr yte : Series),
      getitem_list dd trainer_features = inr X ->
      getitem dd trainer_target = inr y ->
      train_test_split X y float_0_2 42 = inr (Xtr, Xte, ytr, yte) ->
      exists train test : list nat,
        Permutation (train ++ test) (seq 0 (nrows X))
        /\ List.NoDup (train ++ test)
        /\ (forall i, In i train -> ~ In i test)
        /\ labelled_rows Xtr ytr = map (labelled_row X y) train
        /\ labelled_rows Xte yte = map (labelled_row X y) test
        /\ Permutation (labelled_rows Xtr ytr ++ labelled_rows Xte yte)
                       (labelled_rows X y)
        /\ s_index ytr = df_index Xtr
        /\ s_index yte = df_index Xte
        /\ (List.NoDup (df_index X) ->
            forall l, In l (df_index Xtr) -> ~ In l (df_index Xte)))
  /\ (forall (w w' : world) (g : trainer_globals),
         Trainer.script w = (inr g, w') ->
         exists X y,
           getitem_list (dummy_data g) trainer_features = inr X
           /\ getitem (dummy_data g) trainer_target = inr y
           /\ train_test_split X y float_0_2 42
              = inr (X_train g, X_test g, y_train g, y_test g)).
Proof.
  split.
  - intros dd X Xtr Xte y ytr yte HX Hy Hsplit.
    destruct (train_test_split_inv _ _ _ _ _ _ _ Hsplit)
      as (train & test & Hperm & _ & H1 & H2 & H3 & H4).
    exists train, test.
    assert (Hnd : List.NoDup (train ++ test)).
    { apply (Permutation_NoDup (Permutation_sym Hperm)), seq_NoDup. }
    split; [exact Hperm |]. split; [exact Hnd |].
    split; [apply NoDup_app_disjoint, Hnd |].
    split; [apply (labelled_rows_iloc _ _ _ _ _ H1 H3) |].
    split; [apply (labelled_rows_iloc _ _ _ _ _ H2 H4) |].
    destruct (train_test_split_partition _ _ _ _ _ _ _ Hsplit) as (Hrows & Hidx & Hal).
    assert (Hiy : s_index y = df_index X).
    { rewrite (getitem_index _ _ _ Hy). symmetry. apply (getitem_list_index _ _ _ HX). }
    destruct (Hal Hiy) as [Htr Hte].
    split; [exact Hrows |]. split; [exact Htr |]. split; [exact Hte |].
    intros Hlabels. apply NoDup_app_disjoint.
    apply (Permutation_NoDup (Permutation_sym Hidx)), Hlabels.
  - intros w w' g Hrun.
    destruct (trainer_script_inv _ _ _ Hrun) as (text & table & X & y & report & R).
    destruct R as [_ _ _ HX Hy Hsplit _ _ _ _ _ _ _].
    exists X, y. auto.
Qed.

End PartitionClaim.

(** ** 10.14 Labels and metrics *)

Lemma cell_compare_refl (a : cell) : cell_compare a a = Eq.
Proof.
  destruct a as [x | s | [|] |]; simpl; try reflexivity.
  - apply Qeq_alt. reflexivity.
  - apply string_compare_refl.
Qed.

Lemma cell_compare_antisym (a b : cell) :
  cell_compare b a = CompOpp (cell_compare a b).
Proof.
  destruct a as [x | s | [|] |], b as [y | t | [|] |]; simpl; try reflexivity.
  - symmetry. apply Qcompare_antisym.
  - apply String.compare_antisym.
Qed.

Lemma cell_compare_eq (a b : cell) :
  cell_compare a b = Eq -> cell_eqb a b = true \/ (a = NaN /\ b = NaN).
Proof.
  destruct a as [x | s | [|] |], b as [y | t | [|] |]; simpl; try discriminate; auto.
  - intros H. left. apply Qeq_alt in H. apply Qeq_bool_iff. exact H.
  - intros H. left. apply String.compare_eq_iff in H. subst. apply String.eqb_refl.
Qed.

#[export] Instance cell_lt_trans : Transitive cell_lt.
Proof.
  intros a b c. unfold cell_lt.
  destruct a as [x | s | [|] |], b as [y | t | [|] |], c as [z | u | [|] |];
    simpl; try discriminate; try reflexivity; auto.
  - rewrite <- !Qlt_alt. apply Qlt_trans.
  - apply (@StrictOrder_Transitive _ _ string_lt_strorder).
Qed.

Section MetricsFacts.
Context `{F : Float64} `{E : Estimator}.

Lemma count_where_le {A B : Type} (p : A -> B -> bool) (xs : list A) (ys : list B) :
  (count_where p xs ys <= length xs)%nat.
Proof.
  unfold count_where.
  etransitivity; [apply filter_length_le |].
  rewrite length_combine. lia.
Qed.

(** A share of a count that is not zero is a float between 0 and 1. *)
Lemma ratio_range (num den : nat) :
  (num <= den)%nat -> (1 <= den)%nat -> (0 <= ratio num den <= 1)%Q.
Proof.
  intros Hle Hden. unfold ratio.
  apply fl_between.
  - apply (fl_int 0). reflexivity.
  - apply (fl_int 1). reflexivity.
  - assert (Hd : (0 < inject_Z (Z.of_nat den))%Q).
    { apply (Qlt_le_trans _ (inject_Z 1)); [reflexivity | apply inject_Z_le; lia]. }
    split.
    + apply Qle_shift_div_l; [exact Hd |]. rewrite Qmult_0_l.
      apply (inject_Z_le 0). lia.
    + apply Qle_shift_div_r; [exact Hd |]. rewrite Qmult_1_l.
      apply inject_Z_le. lia.
Qed.

Lemma accuracy_score_range (y_true y_pred : list cell) (acc : cell) :
  (1 <= length y_true)%nat ->
  accuracy_score y_true y_pred = inr acc ->
  exists a, acc = Float a /\ (0 <= a <= 1)%Q.
Proof.
  intros Hlen. unfold accuracy_score.
  destruct (Nat.eqb (length y_true) (length y_pred)); simpl; [| discriminate].
  destruct (check_targets y_true y_pred); simpl; [discriminate |].
  destruct (length y_true) as [| n] eqn:Hn; [lia |].
  intros [= <-]. eexists. split; [reflexivity |].
  apply ratio_range; [| lia].
  rewrite <- Hn. apply count_where_le.
Qed.

(** The lines of the report are the labels of [y_true] and of [y_pred]:
    each line is a label of one of the two arrays, each label of the two
    arrays has its line, and the lines are in strictly increasing order,
    so that no label has two lines. *)
Lemma classification_report_labels (y_true y_pred : list cell) (report : list class_row) :
  classification_report y_true y_pred = inr report ->
  map cr_label report = unique_labels y_true y_pred
  /\ (forall l, In l (map cr_label report) -> In l (y_true ++ y_pred))
  /\ (forall c, In c (y_true ++ y_pred) ->
                exists l, In l (map cr_label report) /\ cell_compare c l = Eq)
  /\ StronglySorted cell_lt (map cr_label report).
Proof.
  unfold classification_report.
  destruct (Nat.eqb (length y_true) (length y_pred)); simpl; [| discriminate].
  destruct (check_targets y_true y_pred); simpl; [discriminate |].
  intros [= <-].
  assert (Hmap : map cr_label (map (report_row y_true y_pred) (unique_labels y_true y_pred))
                 = unique_labels y_true y_pred).
  { rewrite map_map. simpl. apply map_id. }
  rewrite Hmap. split; [reflexivity |]. unfold unique_labels. split; [| split].
  - intros l. apply sort_uniq_subset.
  - intros c. apply sort_uniq_represents. apply cell_compare_refl.
  - apply Sorted_StronglySorted; [exact cell_lt_trans |].
    apply sort_uniq_sorted. apply cell_compare_antisym.
Qed.

End MetricsFacts.

Section ReportClaim.
Context `{F : Float64} `{G : BitGenerator} `{L : Allocator} `{P : CsvParser} `{E : Estimator}.

Lemma test_partition_not_empty (X Xtr Xte : DataFrame) (y ytr yte : Series) (rs : Z) :
  train_test_split X y float_0_2 rs = inr (Xtr, Xte, ytr, yte) ->
  (1 <= length (cells (s_values yte)))%nat.
Proof.
  intros Hsplit.
  destruct (train_test_split_inv _ _ _ _ _ _ _ Hsplit)
    as (train & test & _ & Hlen & _ & _ & _ & H4).
  destruct (series_iloc_spec _ _ _ H4) as (_ & ->).
  rewrite length_map. exact Hlen.
Qed.

(** C6 (as amended): in every run of the trainer that ends normally the
    accuracy it prints is a number of [0,1], and the classification
    report it prints has exactly one line per distinct label present in
    the test partition or in the predictions: every line is a label of
    [y_test] or of [y_pred], every label of [y_test] and of [y_pred] has
    a line, and the lines are strictly increasing, so no label has two. *)
Theorem accuracy_and_report (w w' : world) (g : trainer_globals) :
  Trainer.script w = (inr g, w') ->
  exists (a : Q) (report : list class_row),
    accuracy g = Float a
    /\ (0 <= a <= 1)%Q
    /\ stdout w' = (stdout w
                    ++ [ [VStr "Accuracy:"; VCell (Float a)];
                         [VStr (newline ++ "Classification Report:")];
                         [VReport report] ])%list
    /\ (forall l, In l (map cr_label report) ->
                  In l (cells (s_values (y_test g))) \/ In l (y_pred g))
    /\ (forall c, In c (cells (s_values (y_test g))) \/ In c (y_pred g) ->
                  exists l, In l (map cr_label report) /\ cell_compare c l = Eq)
    /\ StronglySorted cell_lt (map cr_label report).
Proof.
  intros Hrun.
  destruct (trainer_script_inv _ _ _ Hrun) as (text & table & X & y & report & R).
  destruct R as [_ _ _ _ _ Hsplit _ _ Hacc Hrep _ _ Hworld].
  destruct (accuracy_score_range _ _ _ (test_partition_not_empty _ _ _ _ _ _ _ Hsplit) Hacc)
    as (a & Ha & Hrange).
  destruct (classification_report_labels _ _ _ Hrep) as (_ & Hsub & Hall & Hsorted).
  exists a, report. split; [exact Ha |]. split; [exact Hrange |].
  split; [rewrite Hworld, Ha; reflexivity |].
  split; [| split; [| exact Hsorted]].
  - intros l Hl. apply in_app_or. apply Hsub, Hl.
  - intros c Hc. apply Hall. apply in_or_app. exact Hc.
Qed.

(** When no label of the train partition is a label of the test
    partition, a report that was printed has a line for a label that is
    absent from the test partition: the prediction for a test row is a
    class of the train partition, and it has its line. *)
Lemma report_line_outside_test (w w' : world) (g : trainer_globals) :
  Trainer.script w = (inr g, w') ->
  (forall c d, In c (cells (s_values (y_train g))) ->
               In d (cells (s_values (y_test g))) -> cell_compare c d <> Eq) ->
  exists report l,
    List.last (stdout w') [] = [VReport report]
    /\ In l (map cr_label report)
    /\ ~ In l (cells (s_values (y_test g))).
Proof.
  intros Hrun Hdisjoint.
  destruct (trainer_script_inv _ _ _ Hrun) as (text & table & X & y & report & R).
  destruct R as [_ _ _ _ _ Hsplit Hfit Hpred _ Hrep _ _ Hworld].
  destruct (rf_predict_spec _ _ _ _ _ _ _ Hfit Hpred) as [Hlen Hclasses].
  pose proof (test_partition_not_empty _ _ _ _ _ _ _ Hsplit) as Hne.
  destruct (train_test_split_inv _ _ _ _ _ _ _ Hsplit)
    as (train & test & _ & _ & _ & H2 & _ & H4).
  destruct (iloc_spec _ _ _ H2) as (Hn & _).
  destruct (series_iloc_spec _ _ _ H4) as (_ & Hcells).
  assert (Hnp : (1 <= length (y_pred g))%nat).
  { rewrite Hlen, Hn. rewrite Hcells, length_map in Hne. exact Hne. }
  destruct (y_pred g) as [| p ps] eqn:Hyp; [simpl in Hnp; lia |].
  apply Forall_inv in Hclasses.
  destruct (classification_report_labels _ _ _ Hrep) as (_ & _ & Hall & _).
  destruct (Hall p) as (l & Hl & Heq).
  { apply in_or_app. right. left. reflexivity. }
  exists report, l. split; [| split; [exact Hl |]].
  - rewrite Hworld. simpl.
    change (stdout w ++ ?a :: ?b :: [?c])%list with (stdout w ++ [a; b] ++ [c])%list.
    rewrite app_assoc. apply last_last.
  - intros Hin. exact (Hdisjoint p l Hclasses Hin Heq).
Qed.

End ReportClaim.

(** ** 10.15 Failing runs *)

Section FailureFacts.
Context `{F : Float64} `{G : BitGenerator} `{L : Allocator} `{P : CsvParser} `{E : Estimator}.

(** [classification_report] raises where [accuracy_score] raises. *)
Lemma classification_report_after_accuracy (y_true y_pred : list cell) (acc : cell) :
  accuracy_score y_true y_pred = inr acc ->
  exists report, classification_report y_true y_pred = inr report.
Proof.
  unfold accuracy_score, classification_report.
  destruct (negb (Nat.eqb (length y_true) (length y_pred))); [discriminate |].
  destruct (check_targets y_true y_pred); simpl; [discriminate |].
  intros _. eexists. reflexivity.
Qed.

(** The trainer, statement by statement: the first exception is the
    result of the run. *)
Lemma trainer_script_cases (w : world) :
  Trainer.script w
  = match files w !! data_file with
    | None => (inl (FileNotFoundError data_file), w)
    | Some text =>
    match parse_csv text with
    | inl e => (inl e, w)
    | inr table =>
    match get_dummies table ["Climate Zone"] with
    | inl e => (inl e, w)
    | inr dd =>
    match getitem_list dd trainer_features with
    | inl e => (inl e, w)
    | inr X =>
    match getitem dd trainer_target with
    | inl e => (inl e, w)
    | inr y =>
    match train_test_split X y float_0_2 42 with
    | inl e => (inl e, w)
    | inr (Xtr, Xte, ytr, yte) =>
    match rf_fit 100 42 Xtr ytr with
    | inl e => (inl e, w)
    | inr c =>
    match rf_predict c Xte with
    | inl e => (inl e, w)
    | inr yp =>
    match accuracy_score (cells (s_values yte)) yp with
    | inl e => (inl e, w)
    | inr acc =>
    match classification_report (cells (s_values yte)) yp with
    | inl e =>
        (inl e,
         {| np_random := np_random w; files := files w;
            write_faults := write_faults w;
            stdout := (stdout w ++ [[VStr "Accuracy:"; VCell acc]])
                      ++ [[VStr (newline ++ "Classification Report:")]] |})
    | inr report =>
    match write_faults w !! model_file with
    | Some (msg, kept) =>
        (inl (OSError msg),
         with_files (files_left model_file (joblib_bytes c) kept (files w))
                    (trainer_printed w acc report))
    | None =>
        (inr {| dummy_data := dd; features := trainer_features;
                target := trainer_target;
                X_train := Xtr; X_test := Xte; y_train := ytr; y_test := yte;
                clf := c; y_pred := yp; accuracy := acc |},
         with_files (<[model_file := joblib_bytes c]> (files w))
                    (trainer_printed w acc report))
    end end end end end end end end end end end.
Proof.
  unfold Trainer.script, bind, read_csv. fold data_file.
  destruct (files w !! data_file) as [text |]; [| reflexivity].
  destruct (parse_csv text) as [e | table]; [reflexivity |].
  unfold lift_result. fold trainer_features. fold trainer_target.
  destruct (get_dummies table ["Climate Zone"]) as [e | dd]; [reflexivity |].
  destruct (getitem_list dd trainer_features) as [e | X]; [reflexivity |].
  destruct (getitem dd trainer_target) as [e | y]; [reflexivity |].
  destruct (train_test_split X y float_0_2 42) as [e | [[[Xtr Xte] ytr] yte]];
    [reflexivity |].
  destruct (rf_fit 100 42 Xtr ytr) as [e | c]; [reflexivity |].
  destruct (rf_predict c Xte) as [e | yp]; [reflexivity |].
  destruct (accuracy_score (cells (s_values yte)) yp) as [e | acc]; [reflexivity |].
  unfold print. cbn [stdout files write_faults np_random].
  destruct (classification_report (cells (s_values yte)) yp) as [e | report];
    [reflexivity |].
  unfold joblib_dump, bind, write_file. cbn [stdout files write_faults np_random].
  fold model_file.
  destruct (write_faults w !! model_file) as [[msg kept] |].
  - unfold with_files, trainer_printed. cbn [stdout files write_faults np_random].
    rewrite <- !app_assoc. reflexivity.
  - unfold with_files, trainer_printed, ret. cbn [stdout files write_faults np_random].
    rewrite <- !app_assoc. reflexivity.
Qed.

(** A run of the trainer raises [e] and leaves [w'] exactly when one of
    its statements raises [e] with the world at [w']. *)
Lemma trainer_failure_raised (w w' : world) (e : exn) :
  trainer_failure w e w' -> Trainer.script w = (inl e, w').
Proof.
  intros H. rewrite trainer_script_cases.
  destruct H;
    repeat match goal with
           | H : _ = _ |- _ => rewrite H; cbv beta iota
           end;
    reflexivity.
Qed.

Lemma trainer_raises_failure (w w' : world) (e : exn) :
  Trainer.script w = (inl e, w') -> trainer_failure w e w'.
Proof.
  rewrite trainer_script_cases.
  destruct (files w !! data_file) as [text |] eqn:Hfile;
    [| intros [= <- <-]; apply read_csv_no_file; exact Hfile].
  destruct (parse_csv text) as [e0 | table] eqn:Hparse;
    [intros [= <- <-]; eapply read_csv_raises; eassumption |].
  destruct (get_dummies table ["Climate Zone"]) as [e0 | dd] eqn:Hd;
    [intros [= <- <-]; eapply get_dummies_raises; eassumption |].
  destruct (getitem_list dd trainer_features) as [e0 | X] eqn:HX;
    [intros [= <- <-]; eapply features_raise; eassumption |].
  destruct (getitem dd trainer_target) as [e0 | y] eqn:Hy;
    [intros [= <- <-]; eapply target_raises; eassumption |].
  destruct (train_test_split X y float_0_2 42) as [e0 | [[[Xtr Xte] ytr] yte]] eqn:Hs;
    [intros [= <- <-]; eapply train_test_split_raises; eassumption |].
  destruct (rf_fit 100 42 Xtr ytr) as [e0 | c] eqn:Hfit;
    [intros [= <- <-]; eapply fit_raises; eassumption |].
  destruct (rf_predict c Xte) as [e0 | yp] eqn:Hpred;
    [intros [= <- <-]; eapply predict_raises; eassumption |].
  destruct (accuracy_score (cells (s_values yte)) yp) as [e0 | acc] eqn:Hacc;
    [intros [= <- <-]; eapply accuracy_score_raises; eassumption |].
  destruct (classification_report_after_accuracy _ _ _ Hacc) as (report & Hrep).
  rewrite Hrep.
  destruct (write_faults w !! model_file) as [[msg kept] |] eqn:Hfault;
    [| discriminate].
  intros [= <- <-]. eapply joblib_dump_raises; eassumption.
Qed.

(** Unless it is the write of the model file that raises, a statement
    of the trainer that raises leaves the world as it was. *)
Lemma trainer_failure_world (w w' : world) (e : exn) :
  trainer_failure w e w' ->
  w' = w
  \/ exists c acc report msg kept,
       write_faults w !! model_file = Some (msg, kept)
       /\ e = OSError msg
       /\ w' = with_files (files_left model_file (joblib_bytes c) kept (files w))
                          (trainer_printed w acc report).
Proof.
  intros H. destruct H; try (left; reflexivity).
  right. eexists _, _, _, _, _. split; [eassumption |]. split; reflexivity.
Qed.

(** The generator script, statement by statement. *)
Lemma generator_script_cases (w : world) :
  Generator.script w
  = match Generator.generate_dummy_data None (np_random w) with
    | (inl e, s') =>
        (inl e,
         {| np_random := s'; files := files w; write_faults := write_faults w;
            stdout := stdout w |})
    | (inr df, s') =>
        match write_faults w !! data_file with
        | None =>
            (inr df,
             {| np_random := s';
                files := <[data_file := csv_text df]> (files w);
                write_faults := write_faults w;
                stdout := stdout w ++ [[VFrame (df_head df)]] |})
        | Some (msg, kept) =>
            (inl (OSError msg),
             {| np_random := s';
                files := files_left data_file (csv_text df) kept (files w);
                write_faults := write_faults w;
                stdout := stdout w ++ [[VFrame (df_head df)]] |})
        end
    end.
Proof.
  unfold Generator.script, with_np_random, bind.
  destruct (Generator.generate_dummy_data None (np_random w)) as [[e | df] s'];
    [reflexivity |].
  unfold print, to_csv, write_file. cbn [write_faults]. fold data_file.
  destruct (write_faults w !! data_file) as [[msg kept] |]; reflexivity.
Qed.

Lemma generator_failure_iff (w w' : world) (e : exn) :
  Generator.script w = (inl e, w') <-> generator_failure w e w'.
Proof.
  rewrite generator_script_cases. split.
  - destruct (Generator.generate_dummy_data None (np_random w)) as [[e0 | df] s']
      eqn:Hgen.
    + intros [= <- <-]. apply generate_dummy_data_raises. exact Hgen.
    + destruct (write_faults w !! data_file) as [[msg kept] |] eqn:Hfault;
        [| discriminate].
      intros [= <- <-]. apply to_csv_raises; assumption.
  - intros H. destruct H as [e s' Hgen | df s' msg kept Hgen Hfault].
    + rewrite Hgen. reflexivity.
    + rewrite Hgen, Hfault. reflexivity.
Qed.

(** An exception of the reader, of the encoding, of a selection or of
    the split ends the run: it is the run's result, and the world is as
    it was. *)
Lemma trainer_missing_file (w : world) :
  files w !! data_file = None ->
  Trainer.script w = (inl (FileNotFoundError data_file), w).
Proof.
  intros Hfile. unfold Trainer.script, bind, read_csv. fold data_file.
  rewrite Hfile. reflexivity.
Qed.

Lemma trainer_parse_error (w : world) (text : string) (e : exn) :
  files w !! data_file = Some text ->
  parse_csv text = inl e ->
  Trainer.script w = (inl e, w).
Proof.
  intros Hfile Hparse. unfold Trainer.script, bind, read_csv. fold data_file.
  rewrite Hfile, Hparse. reflexivity.
Qed.

Lemma trainer_inputs_error (w : world) (text : string) (table : DataFrame) (e : exn) :
  files w !! data_file = Some text ->
  parse_csv text = inr table ->
  trainer_inputs table = inl e ->
  Trainer.script w = (inl e, w).
Proof.
  intros Hfile Hparse. unfold trainer_inputs, Trainer.script, bind, read_csv.
  fold data_file. rewrite Hfile, Hparse. unfold lift_result.
  fold trainer_features. fold trainer_target.
  destruct (get_dummies table ["Climate Zone"]) as [e1 | dd]; simpl;
    [intros [= ->]; reflexivity |].
  destruct (getitem_list dd trainer_features) as [e1 | X]; simpl;
    [intros [= ->]; reflexivity |].
  destruct (getitem dd trainer_target) as [e1 | y]; simpl;
    [intros [= ->]; reflexivity |].
  destruct (train_test_split X y float_0_2 42) as [e1 | parts]; simpl;
    [intros [= ->]; reflexivity | discriminate].
Qed.

(** A table without rows never gets past the split. *)
Lemma trainer_inputs_empty (table : DataFrame) :
  nrows table = 0%nat -> exists e, trainer_inputs table = inl e.
Proof.
  intros Hempty. unfold trainer_inputs.
  destruct (get_dummies table ["Climate Zone"]) as [e1 | dd] eqn:Hd; simpl;
    [eexists; reflexivity |].
  destruct (getitem_list dd trainer_features) as [e1 | X] eqn:HX; simpl;
    [eexists; reflexivity |].
  destruct (getitem dd trainer_target) as [e1 | y] eqn:Hy; simpl;
    [eexists; reflexivity |].
  assert (Hn : nrows X = 0%nat).
  { unfold nrows. rewrite (getitem_list_index _ _ _ HX), (get_dummies_index _ _ _ Hd).
    exact Hempty. }
  unfold train_test_split. rewrite Hn.
  destruct (Nat.eqb 0 (length (s_index y))); simpl; [| eexists; reflexivity].
  rewrite validate_shuffle_split_small by lia. simpl. eexists; reflexivity.
Qed.

End FailureFacts.

Section FailureClaims.
Context `{F : Float64} `{G : BitGenerator} `{L : Allocator} `{P : CsvParser} `{E : Estimator}.

(** C7: neither script catches an exception or tries again.  A run of
    the trainer raises [e] exactly when one of its statements raises [e]
    after the statements before it have returned ([trainer_failure]: the
    reader, the encoding, the two selections, the split, the fit, the
    prediction, the accuracy, the write of the model file), and the run
    ends there.  So a missing input file ends the trainer with the
    [FileNotFoundError], an input the reader refuses with the reader's
    exception, and an empty dataset with an exception too, the world
    left as it was each time: nothing printed, no model file written.
    Whatever raised, if the model file can be written the failed run
    leaves the world as it was; the write of the model file is the only
    statement that raises after something was done.  The generator
    script raises exactly when [generate_dummy_data] raises or the write
    of the data file does ([generator_failure]); and
    [generate_dummy_data] passes on what numpy raises for a negative
    count and for a count it cannot allocate. *)
Theorem errors_propagate :
  (forall (w w' : world) (e : exn),
      Trainer.script w = (inl e, w') <-> trainer_failure w e w')
  /\ (forall w : world,
         files w !! data_file = None ->
         Trainer.script w = (inl (FileNotFoundError data_file), w))
  /\ (forall (w : world) (text : string) (e : exn),
         files w !! data_file = Some text ->
         parse_csv text = inl e ->
         Trainer.script w = (inl e, w))
  /\ (forall (w : world) (text : string) (table : DataFrame),
         files w !! data_file = Some text ->
         parse_csv text = inr table ->
         nrows table = 0%nat ->
         exists e, Trainer.script w = (inl e, w))
  /\ (forall (w w' : world) (e : exn),
         Trainer.script w = (inl e, w') ->
         write_faults w !! model_file = None ->
         w' = w)
  /\ (forall (w w' : world) (e : exn),
         Generator.script w = (inl e, w') <-> generator_failure w e w')
  /\ (forall (num_samples : Z) (s : rng_state),
         num_samples < 0 ->
         Generator.generate_dummy_data (Some num_samples) s
         = (inl (ValueError "negative dimensions are not allowed"), seed 42))
  /\ (forall (num_samples : Z) (s : rng_state),
         max_size < num_samples ->
         Generator.generate_dummy_data (Some num_samples) s
         = (inl (refusal num_samples), seed 42)).
Proof.
  split.
  { intros w w' e. split;
      [apply trainer_raises_failure | apply trainer_failure_raised]. }
  split; [exact trainer_missing_file |].
  split; [exact trainer_parse_error |].
  split.
  { intros w text table Hfile Hparse Hempty.
    destruct (trainer_inputs_empty table Hempty) as (e & He).
    exists e. apply (trainer_inputs_error w text table e Hfile Hparse He). }
  split.
  { intros w w' e Hrun Hfault.
    destruct (trainer_failure_world w w' e (trainer_raises_failure w w' e Hrun))
      as [Hw | (c & acc & report & msg & kept & Hsome & _)]; [exact Hw |].
    rewrite Hfault in Hsome. discriminate. }
  split; [exact generator_failure_iff |].
  split.
  { intros num_samples s Hneg. apply generate_dummy_data_negative, Hneg. }
  intros num_samples s Hbig. apply generate_dummy_data_too_large, Hbig.
Qed.

(** C9 (as amended): the trainer names the three indicator columns
    itself.  For every input file whose table has a 'Climate Zone'
    column in which one of Tropical, Temperate, Arctic does not occur,
    and which has no column already named after the indicator of that
    value, the selection of the feature columns raises a [KeyError]
    that lists the missing indicator column, and the trainer ends with
    it: nothing is fitted, printed or written. *)
Theorem missing_climate_value_key_error
        (w : world) (text : string) (table : DataFrame) (c : column) (v : string) :
  files w !! data_file = Some text ->
  parse_csv text = inr table ->
  lookup_column "Climate Zone" (df_columns table) = Some c ->
  In v climate_values ->
  ~ In (Text v) (cells c) ->
  ~ In ("Climate Zone_" ++ v) (column_names table) ->
  exists dd missing,
    get_dummies table ["Climate Zone"] = inr dd
    /\ getitem_list dd trainer_features = inl (KeyError missing)
    /\ In ("Climate Zone_" ++ v) missing
    /\ Trainer.script w = (inl (KeyError missing), w).
Proof.
  intros Hfile Hparse Hcol Hv Hmissing Hfresh.
  destruct (features_key_error table c v (parse_csv_well_formed _ _ Hparse)
                               Hcol Hv Hmissing Hfresh)
    as (dd & missing & Hd & Hsel & Hin).
  exists dd, missing. split; [exact Hd |]. split; [exact Hsel |]. split; [exact Hin |].
  apply (trainer_inputs_error w text table _ Hfile Hparse).
  unfold trainer_inputs. rewrite Hd. simpl. rewrite Hsel. reflexivity.
Qed.

(** On the table that already has columns named after two indicators,
    the selection of the features succeeds although Arctic and
    Temperate do not occur in the climate column. *)
Lemma table_with_indicator_names_selected :
  exists dd X,
    get_dummies table_with_indicator_names ["Climate Zone"] = inr dd
    /\ getitem_list dd trainer_features = inr X
    /\ column_names X = trainer_features.
Proof. eexists _, _. split; [reflexivity |]. split; reflexivity. Qed.

(** C10: the two trainer files are the same program: from every world,
    the script of [ml-predict/models/model_training.py] and the script
    of [src/ml-predict/models/model_training.py] end with the same
    result (the same exception, or the same module names bound to the
    same values) and leave the same world (the same files, the same
    console). *)
Theorem trainers_equivalent (w : world) :
  Trainer.script w = TrainerCopy.script w
  /\ fst (Trainer.script w) = fst (TrainerCopy.script w)
  /\ files (snd (Trainer.script w)) = files (snd (TrainerCopy.script w))
  /\ stdout (snd (Trainer.script w)) = stdout (snd (TrainerCopy.script w)).
Proof.
  assert (Hsame : Trainer.script w = TrainerCopy.script w).
  { unfold Trainer.script, TrainerCopy.script. reflexivity. }
  rewrite Hsame. repeat split.
Qed.

End FailureClaims.

(** C9, counterexample to the claim as stated: in this table the climate
    column misses Arctic and Temperate, yet the selection of the feature
    columns raises nothing; it returns the eight feature columns, two of
    them the columns the file brought along. *)
Lemma preexisting_indicator_columns_selected :
  well_formed table_with_indicator_names
  /\ lookup_column "Climate Zone" (df_columns table_with_indicator_names)
     = Some (ObjCol [Some "Tropical"; Some "Tropical"])
  /\ ~ In (Text "Arctic") (cells (ObjCol [Some "Tropical"; Some "Tropical"]))
  /\ ~ In (Text "Temperate") (cells (ObjCol [Some "Tropical"; Some "Tropical"]))
  /\ forall F : Float64,
      exists dd X,
        get_dummies table_with_indicator_names ["Climate Zone"] = inr dd
        /\ getitem_list dd trainer_features = inr X
        /\ column_names X = trainer_features.
Proof.
  split.
  { split.
    - repeat constructor.
    - unfold column_names. simpl.
      repeat (constructor; [simpl; intuition discriminate |]). constructor. }
  split; [reflexivity |].
  split; [simpl; intuition discriminate |].
  split; [simpl; intuition discriminate |].
  intros F. apply table_with_indicator_names_selected.
Qed.

(** ** 10.16 What the scripts leave behind *)

Section ScriptEffects.
Context `{F : Float64} `{G : BitGenerator} `{L : Allocator} `{P : CsvParser} `{E : Estimator}.

(** X2: the generator script, where numpy can allocate 1000 values.  It
    generates a table of 1000 rows and prints the first five of them,
    then writes the text of the table to [dummy_agricultural_data.csv].
    When the write goes through the script ends normally: the file holds
    the text and every other file is as it was.  When the write raises,
    the script ends with that [OSError], after the print: the data file
    is as it was or holds the part of the text that was written, and
    every other file is as it was. *)
Theorem generator_script_effects (w : world) :
  1000 <= max_size ->
  exists df s',
    Generator.generate_dummy_data None (np_random w) = (inr df, s')
    /\ nrows df = 1000%nat
    /\ nrows (df_head df) = 5%nat
    /\ match write_faults w !! data_file with
       | None =>
           exists w',
             Generator.script w = (inr df, w')
             /\ stdout w' = (stdout w ++ [[VFrame (df_head df)]])%list
             /\ files w' !! data_file = Some (csv_text df)
             /\ forall path, path <> data_file -> files w' !! path = files w !! path
       | Some (msg, kept) =>
           exists w',
             Generator.script w = (inl (OSError msg), w')
             /\ stdout w' = (stdout w ++ [[VFrame (df_head df)]])%list
             /\ files w' !! data_file
                = match kept with
                  | None => files w !! data_file
                  | Some k => Some (String.substring 0 k (csv_text df))
                  end
             /\ forall path, path <> data_file -> files w' !! path = files w !! path
       end.
Proof.
  intros Hmax.
  destruct (generator_script_run w Hmax) as (df & s' & Hgen & Hrows & Hrun).
  apply generated_rows in Hrows. destruct Hrows as (Hn & _).
  exists df, s'. split; [exact Hgen |]. split; [exact Hn |].
  split.
  { unfold nrows in *. simpl. rewrite length_firstn, Hn. reflexivity. }
  destruct (write_faults w !! data_file) as [[msg kept] |].
  - eexists. split; [exact Hrun |]. simpl. split; [reflexivity |].
    destruct kept as [k |]; simpl.
    + split; [apply lookup_insert_eq |].
      intros path Hpath. apply lookup_insert_ne. congruence.
    + split; reflexivity.
  - eexists. split; [exact Hrun |]. simpl. split; [reflexivity |].
    split; [apply lookup_insert_eq |].
    intros path Hpath. apply lookup_insert_ne. congruence.
Qed.

(** X3: the trainer ends normally only on a file of two rows or more:
    the split keeps a row for the test partition and refuses an empty
    train partition. *)
Theorem trainer_needs_two_rows (w w' : world) (g : trainer_globals) :
  Trainer.script w = (inr g, w') ->
  exists text table,
    files w !! data_file = Some text
    /\ parse_csv text = inr table
    /\ (2 <= nrows table)%nat
    /\ (1 <= nrows (X_test g))%nat.
Proof.
  intros Hrun.
  destruct (trainer_script_inv _ _ _ Hrun) as (text & table & X & y & report & R).
  destruct R as [Hfile Hparse Hdummies HX Hy Hsplit _ _ _ _ _ _ _].
  exists text, table. split; [exact Hfile |]. split; [exact Hparse |].
  assert (Hrows : nrows X = nrows table).
  { unfold nrows. rewrite (getitem_list_index _ _ _ HX).
    rewrite (get_dummies_index _ _ _ Hdummies). reflexivity. }
  split.
  - rewrite <- Hrows.
    destruct (le_lt_dec (nrows X) 1) as [Hsmall | Hbig]; [| lia].
    unfold train_test_split in Hsplit.
    destruct (negb (Nat.eqb (nrows X) (length (s_index y)))); [discriminate |].
    rewrite (validate_shuffle_split_small _ Hsmall) in Hsplit. discriminate.
  - destruct (train_test_split_inv _ _ _ _ _ _ _ Hsplit)
      as (train & test & _ & Hlen & _ & H2 & _).
    destruct (iloc_spec _ _ _ H2) as (-> & _). exact Hlen.
Qed.



(** X6: what a run of the trainer that raises leaves.  Either nothing:
    nothing was printed or written, the world is as it was.  Or it is
    the write of the model file that raised: then the exception is the
    [OSError] of that write, the accuracy and the report are on the
    console, the model file is as it was or holds the part of the model
    that was written, and every other file is as it was.  Every other
    statement that can raise comes before the first [print]; the report
    is computed between two prints, but it refuses only what
    [accuracy_score] has refused before. *)
Theorem trainer_failure_leaves_world (w w' : world) (e : exn) :
  Trainer.script w = (inl e, w') ->
  w' = w
  \/ exists msg kept c acc report,
       write_faults w !! model_file = Some (msg, kept)
       /\ e = OSError msg
       /\ np_random w' = np_random w
       /\ stdout w'
          = (stdout w ++ [ [VStr "Accuracy:"; VCell acc];
                           [VStr (newline ++ "Classification Report:")];
                           [VReport report] ])%list
       /\ files w' !! model_file
          = match kept with
            | None => files w !! model_file
            | Some k => Some (String.substring 0 k (joblib_bytes c))
            end
       /\ forall path, path <> model_file -> files w' !! path = files w !! path.
Proof.
  intros Hrun. apply trainer_raises_failure in Hrun.
  destruct (trainer_failure_world _ _ _ Hrun)
    as [Hw | (c & acc & report & msg & kept & Hfault & He & ->)];
    [left; exact Hw | right].
  exists msg, kept, c, acc, report.
  split; [exact Hfault |]. split; [exact He |].
  split; [reflexivity |]. split; [reflexivity |].
  destruct kept as [k |]; simpl.
  - split; [apply lookup_insert_eq |].
    intros path Hpath. apply lookup_insert_ne. congruence.
  - split; reflexivity.
Qed.

End ScriptEffects.

(** ** 10.17 The columns the classifier sees *)

(** A selection that succeeded holds the columns of the labels asked
    for, and no other. *)
Lemma getitem_list_names (df X : DataFrame) (names : list string) (name : string) :
  getitem_list df names = inr X ->
  In name (column_names X) <-> In name names.
Proof.
  unfold getitem_list.
  destruct (List.filter _ names) as [| m ms] eqn:Hmissing; [| discriminate].
  intros [= <-]. unfold column_names. simpl.
  rewrite in_map_iff. split.
  - intros ([n0 c0] & <- & Hin). apply in_flat_map in Hin.
    destruct Hin as (name' & Hname' & Hin). apply filter_In in Hin.
    destruct Hin as [_ Heq]. simpl in *.
    apply String.eqb_eq in Heq. subst. exact Hname'.
  - intros Hin.
    assert (Hhas : has_column (df_columns df) name = true).
    { destruct (has_column (df_columns df) name) eqn:Hhas; [reflexivity |].
      assert (Hm : In name (List.filter
                              (fun name => negb (has_column (df_columns df) name)) names)).
      { apply filter_In. rewrite Hhas. auto. }
      rewrite Hmissing in Hm. destruct Hm. }
    unfold has_column in Hhas. apply existsb_exists in Hhas.
    destruct Hhas as ([n0 c0] & Hcol & Heq). simpl in Heq.
    exists (n0, c0). split; [apply String.eqb_eq, Heq |].
    apply in_flat_map. exists name. split; [exact Hin |].
    apply filter_In. auto.
Qed.

Lemma has_column_found (cols : list (string * column)) (name : string) :
  has_column cols name = true -> exists c, lookup_column name cols = Some c.
Proof.
  unfold has_column, lookup_column.
  induction cols as [| [n0 c0] cols IH]; simpl; [discriminate |].
  destruct (String.eqb n0 name); simpl; [eexists; reflexivity | exact IH].
Qed.

(** In a table with distinct labels the selection is the list of labels
    asked for, in the order asked. *)
Lemma getitem_list_names_eq (df X : DataFrame) (names : list string) :
  List.NoDup (column_names df) ->
  getitem_list df names = inr X ->
  column_names X = names.
Proof.
  intros Hnd. unfold getitem_list.
  destruct (List.filter _ names) as [| m ms] eqn:Hmissing; [| discriminate].
  intros [= <-]. unfold column_names. simpl.
  assert (Hall : forall name, In name names -> has_column (df_columns df) name = true).
  { intros name Hin.
    destruct (has_column (df_columns df) name) eqn:Hhas; [reflexivity |].
    assert (Hm : In name (List.filter
                            (fun name => negb (has_column (df_columns df) name)) names)).
    { apply filter_In. rewrite Hhas. auto. }
    rewrite Hmissing in Hm. destruct Hm. }
  clear Hmissing. induction names as [| name names IH]; [reflexivity |].
  simpl. rewrite map_app. rewrite IH by (intros n Hn; apply Hall; right; exact Hn).
  assert (Hhas : has_column (df_columns df) name = true) by (apply Hall; left; reflexivity).
  destruct (has_column_found _ _ Hhas) as (c & Hlook).
  rewrite (filter_label_unique _ _ _ Hnd Hlook). reflexivity.
Qed.

Section FeatureColumns.
Context `{F : Float64} `{G : BitGenerator} `{L : Allocator} `{P : CsvParser} `{E : Estimator}.

(** X8: in every run of the trainer that ends normally, the tables the
    classifier is fitted on and predicts from hold the eight feature
    columns and nothing else: every label of [X_train] is a feature
    label, every feature label is a label of [X_train], [X_test] has the
    labels of [X_train], and neither the target nor the climate column
    is among them.  When the encoded table has distinct labels, the
    labels are the list [features] itself, in its order. *)
Theorem classifier_sees_features_only (w w' : world) (g : trainer_globals) :
  Trainer.script w = (inr g, w') ->
  (forall name, In name (column_names (X_train g)) <-> In name trainer_features)
  /\ column_names (X_test g) = column_names (X_train g)
  /\ ~ In trainer_target (column_names (X_train g))
  /\ ~ In "Climate Zone" (column_names (X_train g))
  /\ (List.NoDup (column_names (dummy_data g)) ->
      column_names (X_train g) = trainer_features).
Proof.
  intros Hrun.
  destruct (trainer_script_inv _ _ _ Hrun) as (text & table & X & y & report & R).
  destruct R as [_ _ _ HX _ Hsplit _ _ _ _ _ _ _].
  destruct (train_test_split_inv _ _ _ _ _ _ _ Hsplit)
    as (train & test & _ & _ & H1 & H2 & _).
  destruct (iloc_spec _ _ _ H1) as (_ & _ & Htr & _).
  destruct (iloc_spec _ _ _ H2) as (_ & _ & Hte & _).
  rewrite Htr, Hte.
  assert (Hnames : forall name, In name (column_names X) <-> In name trainer_features).
  { intros name. apply (getitem_list_names _ _ _ _ HX). }
  split; [exact Hnames |]. split; [reflexivity |].
  split; [| split].
  - rewrite Hnames. unfold trainer_target, trainer_features. simpl.
    intuition discriminate.
  - rewrite Hnames. unfold trainer_features. simpl. intuition discriminate.
  - intros Hnd. apply (getitem_list_names_eq _ _ _ Hnd HX).
Qed.

End FeatureColumns.

(** ** 10.18 Labels, counts and shares of the metrics *)

Lemma series_iloc_cells_in (y y' : Series) (idx : list nat) :
  series_iloc y idx = inr y' ->
  Forall (fun c => In c (cells (s_values y))) (cells (s_values y')).
Proof.
  unfold series_iloc.
  destruct (getitems (s_index y) idx) as [e | index]; simpl; [discriminate |].
  destruct (column_take (s_values y) idx) as [e | vals] eqn:Hvals; simpl;
    [discriminate |].
  intros [= <-]. simpl.
  destruct (column_take_spec _ _ _ Hvals) as (Hrange & ->).
  apply List.Forall_forall. intros c Hc. apply in_map_iff in Hc.
  destruct Hc as (i & <- & Hi).
  rewrite List.Forall_forall in Hrange. specialize (Hrange i Hi).
  apply nth_In. rewrite cells_length. exact Hrange.
Qed.

Lemma count_where_cons {A B : Type} (p : A -> B -> bool) x xs y ys :
  count_where p (x :: xs) (y :: ys)
  = ((if p x y then 1 else 0) + count_where p xs ys)%nat.
Proof. unfold count_where. simpl. destruct (p x y); reflexivity. Qed.

Lemma count_where_all {A B : Type} (p : A -> B -> bool) (xs : list A) (ys : list B) :
  length xs = length ys ->
  count_where p xs ys = length xs <-> Forall2 (fun x y => p x y = true) xs ys.
Proof.
  revert ys. induction xs as [| x xs IH]; intros [| y ys] Hlen; simpl in Hlen;
    try discriminate.
  - split; [constructor | reflexivity].
  - injection Hlen as Hlen. rewrite count_where_cons. simpl length.
    pose proof (count_where_le p xs ys) as Hle. split.
    + intros Hcount. destruct (p x y) eqn:Hp; [| lia].
      constructor; [exact Hp |]. apply IH; [exact Hlen | lia].
    + intros Hall. inversion Hall as [| ? ? ? ? Hp Hrest]; subst.
      rewrite Hp. apply (IH ys Hlen) in Hrest. lia.
Qed.

Lemma count_where_none {A B : Type} (p : A -> B -> bool) (xs : list A) (ys : list B) :
  length xs = length ys ->
  count_where p xs ys = 0%nat <-> Forall2 (fun x y => p x y = false) xs ys.
Proof.
  revert ys. induction xs as [| x xs IH]; intros [| y ys] Hlen; simpl in Hlen;
    try discriminate.
  - split; [constructor | reflexivity].
  - injection Hlen as Hlen. rewrite count_where_cons. split.
    + intros Hcount. destruct (p x y) eqn:Hp; [simpl in Hcount; lia |].
      constructor; [exact Hp |]. apply IH; [exact Hlen | simpl in Hcount; exact Hcount].
    + intros Hall. inversion Hall as [| ? ? ? ? Hp Hrest]; subst.
      rewrite Hp. apply (IH ys Hlen) in Hrest. simpl. exact Hrest.
Qed.

Lemma count_where_le_left {A B : Type} (p : A -> B -> bool) (q : A -> bool)
      (xs : list A) (ys : list B) :
  (forall x y, p x y = true -> q x = true) ->
  (count_where p xs ys <= length (List.filter q xs))%nat.
Proof.
  intros Hpq. revert ys. induction xs as [| x xs IH]; intros [| y ys].
  - reflexivity.
  - reflexivity.
  - unfold count_where. simpl. lia.
  - rewrite count_where_cons. simpl. specialize (IH ys).
    destruct (p x y) eqn:Hp.
    + rewrite (Hpq _ _ Hp). simpl. lia.
    + destruct (q x); simpl; lia.
Qed.

Lemma count_where_le_right {A B : Type} (p : A -> B -> bool) (q : B -> bool)
      (xs : list A) (ys : list B) :
  (forall x y, p x y = true -> q y = true) ->
  (count_where p xs ys <= length (List.filter q ys))%nat.
Proof.
  intros Hpq. revert ys. induction xs as [| x xs IH]; intros [| y ys].
  - reflexivity.
  - unfold count_where. simpl. lia.
  - reflexivity.
  - rewrite count_where_cons. simpl. specialize (IH ys).
    destruct (p x y) eqn:Hp.
    + rewrite (Hpq _ _ Hp). simpl. lia.
    + destruct (q y); simpl; lia.
Qed.

Lemma list_sum_map_add {A : Type} (f g : A -> nat) (l : list A) :
  list_sum (map (fun x => (f x + g x)%nat) l)
  = (list_sum (map f l) + list_sum (map g l))%nat.
Proof. induction l as [| x l IH]; simpl; [reflexivity | rewrite IH; lia]. Qed.

Lemma list_sum_map_zero {A : Type} (f : A -> nat) (l : list A) :
  (forall x, In x l -> f x = 0%nat) -> list_sum (map f l) = 0%nat.
Proof.
  induction l as [| x l IH]; simpl; [reflexivity |].
  intros H. rewrite (H x) by auto. rewrite IH by auto. reflexivity.
Qed.

(** Two labels that equal a third are equal in the order of the labels. *)
Lemma cell_eqb_compare (t a b : cell) :
  cell_eqb t a = true -> cell_eqb t b = true -> cell_compare a b = Eq.
Proof.
  destruct t as [x | s | [|] |], a as [y | u | [|] |], b as [z | v | [|] |];
    simpl; try discriminate; try reflexivity.
  - intros H1 H2. apply Qeq_bool_iff in H1, H2. apply Qeq_alt.
    rewrite <- H1, <- H2. reflexivity.
  - intros H1 H2. apply String.eqb_eq in H1, H2. subst. apply string_compare_refl.
Qed.

(** In a strictly increasing list of labels, a label that is equal to
    one of them is equal to exactly one. *)
Lemma one_label_matches (t : cell) (labels : list cell) :
  StronglySorted cell_lt labels ->
  (exists l, In l labels /\ cell_eqb t l = true) ->
  list_sum (map (fun l => if cell_eqb t l then 1 else 0)%nat labels) = 1%nat.
Proof.
  induction 1 as [| a labels Hsorted IH Hlt]; intros (l & Hin & Hl); [destruct Hin |].
  simpl. destruct (cell_eqb t a) eqn:Ha.
  - rewrite list_sum_map_zero; [reflexivity |].
    intros b Hb. destruct (cell_eqb t b) eqn:Hb'; [| reflexivity].
    rewrite List.Forall_forall in Hlt. specialize (Hlt b Hb).
    unfold cell_lt in Hlt. rewrite (cell_eqb_compare t a b Ha Hb') in Hlt.
    discriminate.
  - destruct Hin as [-> | Hin]; [congruence |].
    rewrite IH; [reflexivity |]. exists l. auto.
Qed.

Lemma filter_counts (ys labels : list cell) :
  (forall t, In t ys ->
             list_sum (map (fun l => if cell_eqb t l then 1 else 0)%nat labels) = 1%nat) ->
  list_sum (map (fun l => length (List.filter (fun t => cell_eqb t l) ys)) labels)
  = length ys.
Proof.
  induction ys as [| t ys IH]; intros Hone.
  - simpl. apply list_sum_map_zero. reflexivity.
  - change (length (t :: ys)) with (1 + length ys)%nat.
    rewrite <- (IH (fun t' Ht' => Hone t' (or_intror Ht'))).
    rewrite <- (Hone t (or_introl eq_refl)).
    rewrite <- list_sum_map_add. f_equal. apply map_ext. intros l. simpl.
    destruct (cell_eqb t l); reflexivity.
Qed.

Section MetricsCounts.
Context `{F : Float64} `{E : Estimator}.

Lemma safe_ratio_range (num den : nat) :
  (num <= den)%nat -> (0 <= safe_ratio num den <= 1)%Q.
Proof.
  intros Hle. unfold safe_ratio. destruct den as [| den].
  - split; [apply Qle_refl | discriminate].
  - apply ratio_range; lia.
Qed.

(** X10: every line of a classification report has a precision, a
    recall and an F1 score between 0 and 1 and a support that counts the
    entries of [y_true] with the line's label; when no entry of [y_true]
    is missing, the supports add up to the length of [y_true]: every
    test row is counted in exactly one line. *)
Theorem classification_report_counts
        (y_true y_pred : list cell) (report : list class_row) :
  classification_report y_true y_pred = inr report ->
  Forall (fun r =>
            (0 <= cr_precision r <= 1)%Q
            /\ (0 <= cr_recall r <= 1)%Q
            /\ (0 <= cr_f1 r <= 1)%Q
            /\ cr_support r
               = length (List.filter (fun t => cell_eqb t (cr_label r)) y_true))
         report
  /\ (~ In NaN y_true -> list_sum (map cr_support report) = length y_true).
Proof.
  intros Hreport.
  destruct (classification_report_labels _ _ _ Hreport) as (Hlabels & _ & Hrep & Hsorted).
  unfold classification_report in Hreport.
  destruct (negb (Nat.eqb (length y_true) (length y_pred))); [discriminate |].
  destruct (check_targets y_true y_pred); simpl in Hreport; [discriminate |].
  injection Hreport as <-. split.
  - apply List.Forall_forall. intros r Hr. apply in_map_iff in Hr.
    destruct Hr as (l & <- & _). unfold report_row. simpl.
    set (tp := count_where _ y_true y_pred).
    set (true_sum := length (List.filter (fun t => cell_eqb t l) y_true)).
    set (pred_sum := length (List.filter (fun p => cell_eqb p l) y_pred)).
    assert (H1 : (tp <= true_sum)%nat).
    { apply count_where_le_left. intros x y Hxy.
      apply andb_true_iff in Hxy. tauto. }
    assert (H2 : (tp <= pred_sum)%nat).
    { apply count_where_le_right. intros x y Hxy.
      apply andb_true_iff in Hxy. tauto. }
    split; [apply safe_ratio_range, H2 |].
    split; [apply safe_ratio_range, H1 |].
    split; [apply safe_ratio_range; lia | reflexivity].
  - intros Hnan. rewrite map_map. simpl.
    apply filter_counts. intros t Ht.
    rewrite map_map in Hlabels, Hsorted, Hrep. simpl in Hlabels, Hsorted, Hrep.
    rewrite map_id in Hsorted, Hrep.
    apply one_label_matches; [exact Hsorted |].
    destruct (Hrep t) as (l & Hl & Hcmp); [apply in_or_app; left; exact Ht |].
    exists l. split; [exact Hl |].
    destruct (cell_compare_eq _ _ Hcmp) as [Heq | [-> _]]; [exact Heq | contradiction].
Qed.

(** The shares 1 and 0 are not reached by rounding: a share of an array
    of at most [2^53] entries is 1 only for the whole array and 0 only
    for no entry. *)
Lemma ratio_one_iff (k n : nat) :
  (k <= n)%nat -> (1 <= n)%nat -> Z.of_nat n <= 2 ^ 53 ->
  (ratio k n == 1)%Q <-> k = n.
Proof.
  intros Hk Hn Hbig.
  assert (Hd : (0 < inject_Z (Z.of_nat n))%Q).
  { apply (Qlt_le_trans _ (inject_Z 1)); [reflexivity | apply inject_Z_le; lia]. }
  split.
  - intros Hone. destruct (Nat.eq_dec k n) as [Heq | Hne]; [exact Heq | exfalso].
    set (b := binary64 (2 ^ 53 - 1) (-53)).
    assert (Hb : (fl b == b)%Q) by (apply fl_exact; split; [reflexivity | lia]).
    assert (Hbq : (b == 9007199254740991 # 9007199254740992)%Q) by reflexivity.
    assert (Hle : (ratio k n <= b)%Q).
    { unfold ratio. rewrite <- Hb. apply fl_mono.
      apply Qle_shift_div_r; [exact Hd |]. rewrite Hbq.
      assert (H1 : (inject_Z (Z.of_nat k) + 1 <= inject_Z (Z.of_nat n))%Q).
      { change 1%Q with (inject_Z 1). rewrite <- inject_Z_plus.
        apply inject_Z_le. lia. }
      assert (H2 : (inject_Z (Z.of_nat n) <= 9007199254740992)%Q).
      { change 9007199254740992%Q with (inject_Z (2 ^ 53)). apply inject_Z_le, Hbig. }
      lra. }
    rewrite Hone, Hbq in Hle. revert Hle. apply Qlt_not_le. reflexivity.
  - intros ->. unfold ratio.
    assert (H1 : (inject_Z (Z.of_nat n) / inject_Z (Z.of_nat n) == 1)%Q).
    { field. intros H0. rewrite H0 in Hd. revert Hd. apply Qlt_irrefl. }
    rewrite H1. apply (fl_int 1). reflexivity.
Qed.

Lemma ratio_zero_iff (k n : nat) :
  (1 <= n)%nat -> Z.of_nat n <= 2 ^ 53 ->
  (ratio k n == 0)%Q <-> k = 0%nat.
Proof.
  intros Hn Hbig.
  assert (Hd : (0 < inject_Z (Z.of_nat n))%Q).
  { apply (Qlt_le_trans _ (inject_Z 1)); [reflexivity | apply inject_Z_le; lia]. }
  split.
  - intros Hzero. destruct (Nat.eq_dec k 0%nat) as [Heq | Hne]; [exact Heq | exfalso].
    set (b := binary64 1 (-53)).
    assert (Hb : (fl b == b)%Q) by (apply fl_exact; split; [reflexivity | lia]).
    assert (Hbq : (b == 1 # 9007199254740992)%Q) by reflexivity.
    assert (Hle : (b <= ratio k n)%Q).
    { unfold ratio. rewrite <- Hb. apply fl_mono.
      apply Qle_shift_div_l; [exact Hd |]. rewrite Hbq.
      assert (H1 : (1 <= inject_Z (Z.of_nat k))%Q).
      { apply (inject_Z_le 1). lia. }
      assert (H2 : (inject_Z (Z.of_nat n) <= 9007199254740992)%Q).
      { change 9007199254740992%Q with (inject_Z (2 ^ 53)). apply inject_Z_le, Hbig. }
      lra. }
    rewrite Hzero, Hbq in Hle. revert Hle. apply Qlt_not_le. reflexivity.
  - intros ->. unfold ratio.
    assert (H1 : (inject_Z (Z.of_nat 0) / inject_Z (Z.of_nat n) == 0)%Q).
    { simpl. unfold Qdiv. apply Qmult_0_l. }
    rewrite H1. apply (fl_int 0). reflexivity.
Qed.

(** X11: the accuracy is 1 exactly when every prediction equals its
    target, and 0 exactly when none does (for arrays of at most [2^53]
    entries, whose shares rounding cannot carry to 0 or 1). *)
Theorem accuracy_score_extremes (y_true y_pred : list cell) (a : Q) :
  Z.of_nat (length y_true) <= 2 ^ 53 ->
  accuracy_score y_true y_pred = inr (Float a) ->
  ((a == 1)%Q <-> Forall2 (fun t p => cell_eqb t p = true) y_true y_pred)
  /\ ((a == 0)%Q <-> Forall2 (fun t p => cell_eqb t p = false) y_true y_pred).
Proof.
  intros Hbig. unfold accuracy_score.
  destruct (Nat.eqb (length y_true) (length y_pred)) eqn:Hlen; simpl; [| discriminate].
  apply Nat.eqb_eq in Hlen.
  destruct (check_targets y_true y_pred); simpl; [discriminate |].
  destruct (length y_true) as [| n] eqn:Hn; [discriminate |].
  intros [= <-].
  pose proof (count_where_le cell_eqb y_true y_pred) as Hle.
  rewrite <- Hn in *.
  split.
  - rewrite ratio_one_iff by lia. apply count_where_all, Hlen.
  - rewrite ratio_zero_iff by lia. apply count_where_none, Hlen.
Qed.

End MetricsCounts.

Section ReportLabels.
Context `{F : Float64} `{G : BitGenerator} `{L : Allocator} `{P : CsvParser} `{E : Estimator}.

(** X12: in every run of the trainer that ends normally there is one
    prediction per test row, and every predicted label and every label
    of a line of the printed report is a value of the 'Recommended
    Product' column of the data: the classifier and the report name no
    product the file does not hold. *)
Theorem report_labels_from_target_column (w w' : world) (g : trainer_globals) :
  Trainer.script w = (inr g, w') ->
  exists y report,
    getitem (dummy_data g) trainer_target = inr y
    /\ classification_report (cells (s_values (y_test g))) (y_pred g) = inr report
    /\ length (y_pred g) = nrows (X_test g)
    /\ Forall (fun c => In c (cells (s_values y))) (y_pred g)
    /\ Forall (fun r => In (cr_label r) (cells (s_values y))) report.
Proof.
  intros Hrun.
  destruct (trainer_script_inv _ _ _ Hrun) as (text & table & X & y & report & R).
  destruct R as [_ _ _ _ Hy Hsplit Hfit Hpred _ Hreport _ _ _].
  exists y, report. split; [exact Hy |]. split; [exact Hreport |].
  destruct (rf_predict_spec _ _ _ _ _ _ _ Hfit Hpred) as [Hlen Hclasses].
  split; [exact Hlen |].
  destruct (train_test_split_inv _ _ _ _ _ _ _ Hsplit)
    as (train & test & _ & _ & _ & _ & H3 & H4).
  pose proof (series_iloc_cells_in _ _ _ H3) as Htrain.
  pose proof (series_iloc_cells_in _ _ _ H4) as Htest.
  rewrite List.Forall_forall in Htrain, Htest, Hclasses.
  assert (Hpreds : forall c, In c (y_pred g) -> In c (cells (s_values y))).
  { intros c Hc. apply Htrain, Hclasses, Hc. }
  split; [apply List.Forall_forall; exact Hpreds |].
  destruct (classification_report_labels _ _ _ Hreport) as (_ & Hsub & _).
  apply List.Forall_forall. intros r Hr.
  assert (Hl : In (cr_label r) (map cr_label report)) by (apply in_map, Hr).
  apply Hsub, in_app_or in Hl. destruct Hl as [Hl | Hl]; auto.
Qed.

End ReportLabels.

(** ** 10.19 One-hot encoding of any column of strings *)

Lemma append_inj_l (p a b : string) : (p ++ a = p ++ b)%string -> a = b.
Proof.
  induction p as [| x p IH]; intros H; [exact H |].
  apply IH. change (String x (p ++ a) = String x (p ++ b))%string in H.
  injection H as H. exact H.
Qed.

Lemma string_lt_irrefl (s : string) : ~ string_lt s s.
Proof. unfold string_lt. rewrite string_compare_refl. discriminate. Qed.

Lemma filter_none {A : Type} (p : A -> bool) (l : list A) :
  (forall x, In x l -> p x = false) -> List.filter p l = [].
Proof.
  induction l as [| x l IH]; simpl; [reflexivity |].
  intros H. rewrite (H x) by auto. apply IH. auto.
Qed.

(** In a strictly increasing list a member is met once. *)
Lemma one_category_matches (v : string) (cats : list string) :
  StronglySorted string_lt cats ->
  In v cats ->
  length (List.filter (String.eqb v) cats) = 1%nat.
Proof.
  induction 1 as [| a cats Hsorted IH Hlt]; intros Hin; [destruct Hin |].
  simpl. rewrite List.Forall_forall in Hlt.
  destruct (String.eqb_spec v a) as [-> | Hne].
  - simpl. f_equal. rewrite filter_none; [reflexivity |].
    intros b Hb. apply String.eqb_neq. intros <-.
    apply (string_lt_irrefl a), Hlt, Hb.
  - destruct Hin as [-> | Hin]; [congruence |]. apply IH, Hin.
Qed.

Lemma flags_set {A : Type} (p : A -> bool) (l : list A) :
  length (List.filter (cell_eqb (Flag true)) (map (fun x => Flag (p x)) l))
  = length (List.filter p l).
Proof.
  induction l as [| x l IH]; simpl; [reflexivity |].
  destruct (p x); simpl; rewrite IH; reflexivity.
Qed.

Lemma flags_sum {A : Type} (p : A -> bool) (l : list A) :
  (Qsum (map cell_value (map (fun x => Flag (p x)) l))
   == inject_Z (Z.of_nat (length (List.filter p l))))%Q.
Proof.
  induction l as [| x l IH]; simpl; [reflexivity |].
  rewrite IH. destruct (p x).
  - simpl length. rewrite Nat2Z.inj_succ, <- Z.add_1_l, inject_Z_plus. reflexivity.
  - apply Qplus_0_l.
Qed.

Section OneHot.
Context `{F : Float64}.

(** X13: one-hot encoding of a column of strings, whatever values it
    holds.  The column is dropped and one indicator column is appended
    for each distinct value that occurs, in sorted order: the column
    named [name_v] is there if and only if [v] occurs.  In a row where
    the column holds a value, exactly one indicator is set and the
    indicators sum to 1; in a row where the value is missing, no
    indicator is set. *)
Theorem get_dummies_one_hot (df : DataFrame) (name : string) (xs : list (option string)) :
  well_formed df ->
  lookup_column name (df_columns df) = Some (ObjCol xs) ->
  exists df' inds,
    get_dummies df [name] = inr df'
    /\ df_index df' = df_index df
    /\ df_columns df'
       = (List.filter (fun nc => negb (String.eqb (fst nc) name)) (df_columns df)
          ++ inds)%list
    /\ map fst inds
       = map (fun v => name ++ "_" ++ v) (sort_uniq String.compare (present xs))
    /\ (forall v, In (name ++ "_" ++ v) (map fst inds) <-> In (Some v) xs)
    /\ forall i, (i < length xs)%nat ->
         match nth i xs None with
         | Some v => exactly_one_set (indicator_row inds i)
         | None => Forall (fun c => c = Flag false) (indicator_row inds i)
         end.
Proof.
  intros (_ & Hnd) Hcol.
  eexists _, _. split; [apply (get_dummies_one df _ _ Hnd Hcol) |].
  split; [reflexivity |]. split; [reflexivity |].
  set (cats := sort_uniq String.compare (present xs)).
  assert (Hsorted : StronglySorted string_lt cats).
  { apply Sorted_StronglySorted;
      [apply (@StrictOrder_Transitive _ _ string_lt_strorder) |].
    apply sort_uniq_sorted. intros x y. apply String.compare_antisym. }
  assert (Hcats : forall v, In v cats <-> In (Some v) xs).
  { intros v. unfold cats. rewrite sort_uniq_strings_in. apply present_in. }
  assert (Hnames : map fst (get_dummies_1d name (ObjCol xs))
                   = map (fun v => name ++ "_" ++ v) cats).
  { simpl. rewrite map_map. reflexivity. }
  split; [exact Hnames |]. split.
  - intros v. rewrite Hnames, <- Hcats, in_map_iff. split.
    + intros (v' & Heq & Hin). apply append_inj_l, append_inj_l in Heq.
      subst. exact Hin.
    + intros Hin. exists v. auto.
  - intros i Hi.
    assert (Hrow : indicator_row (get_dummies_1d name (ObjCol xs)) i
                   = map (fun lv => Flag (is_text lv (nth i xs None))) cats).
    { unfold indicator_row. simpl get_dummies_1d. fold cats. rewrite map_map.
      apply map_ext. intros lv. cbn [snd]. apply nth_indicator, Hi. }
    rewrite Hrow. destruct (nth i xs None) as [v |] eqn:Hv.
    + assert (Hin : In v cats).
      { apply Hcats. rewrite <- Hv. apply nth_In, Hi. }
      change (fun lv => Flag (is_text lv (Some v)))
        with (fun lv => Flag (String.eqb v lv)).
      pose proof (one_category_matches v cats Hsorted Hin) as Hone.
      split; [| split].
      * apply List.Forall_forall. intros c Hc. apply in_map_iff in Hc.
        destruct Hc as (lv & <- & _). eexists. reflexivity.
      * rewrite flags_sum, Hone. reflexivity.
      * rewrite flags_set. exact Hone.
    + apply List.Forall_forall. intros c Hc. apply in_map_iff in Hc.
      destruct Hc as (lv & <- & _). reflexivity.
Qed.

End OneHot.

(** ** 10.20 The order of the draws *)

Section DrawOrder.
Context `{F : Float64} `{G : BitGenerator} `{L : Allocator}.

(** An array of draws starts with the shorter array drawn from the same
    state. *)
Lemma fill_prefix {A : Type} (draw : M rng_state A) (k m : nat)
      (s s1 s2 : rng_state) (xs l : list A) :
  fill k draw s = (inr xs, s1) ->
  fill (k + m) draw s = (inr l, s2) ->
  xs = firstn k l.
Proof.
  revert s s1 s2 xs l. induction k as [| k IH]; intros s s1 s2 xs l Hk Hkm.
  - simpl in Hk. unfold ret in Hk. injection Hk as <- _. reflexivity.
  - change (returns (fill (S k) draw) s xs s1) in Hk.
    change (returns (fill (S (k + m)) draw) s l s2) in Hkm.
    cbn [fill] in Hk, Hkm.
    apply returns_bind in Hk. destruct Hk as (x & sa & Hx & Hk).
    apply returns_bind in Hk. destruct Hk as (xs' & sb & Hxs & Hk).
    apply returns_bind in Hkm. destruct Hkm as (x' & sa' & Hx' & Hkm).
    apply returns_bind in Hkm. destruct Hkm as (l' & sb' & Hl & Hkm).
    unfold returns, ret in Hk, Hkm. injection Hk as <- _. injection Hkm as <- _.
    unfold returns in Hx, Hx'. rewrite Hx in Hx'. injection Hx' as <- <-.
    simpl. f_equal. apply (IH sa sb sb' xs' l' Hxs Hl).
Qed.

Lemma uniform_prefix (low high : Q) (k n : Z) (s s1 s2 : rng_state) (tk tn : list Q) :
  0 <= k <= n ->
  uniform low high k s = (inr tk, s1) ->
  uniform low high n s = (inr tn, s2) ->
  tk = firstn (Z.to_nat k) tn.
Proof.
  intros Hkn. unfold uniform.
  destruct (Z.ltb_spec k 0) as [Hneg | _]; [lia |].
  destruct (Z.ltb_spec n 0) as [Hneg | _]; [lia |].
  destruct (max_size <? k); [discriminate |].
  destruct (max_size <? n); [discriminate |].
  replace (Z.to_nat n) with (Z.to_nat k + (Z.to_nat n - Z.to_nat k))%nat by lia.
  apply fill_prefix.
Qed.

(** The temperatures of a generated table are the first array drawn
    after seeding. *)
Lemma generated_temperature (num_samples : Z) (s s' : rng_state) (df : DataFrame) :
  Generator.generate_dummy_data (Some num_samples) s = (inr df, s') ->
  exists t s1,
    uniform 15 35 num_samples (seed 42) = (inr t, s1)
    /\ lookup_column "Temperature (Celsius)" (df_columns df) = Some (FloatCol (map Some t)).
Proof.
  intros H. change (returns (Generator.generate_dummy_data (Some num_samples)) s df s') in H.
  unfold Generator.generate_dummy_data in H. simpl default in H.
  apply returns_bind in H. destruct H as ([] & s0 & Hseed & H).
  unfold returns, np_random_seed, put in Hseed. injection Hseed as <-.
  apply returns_bind in H. destruct H as (t & s1 & Ht & H).
  apply returns_bind in H. destruct H as (p & s2 & _ & H).
  apply returns_bind in H. destruct H as (ph & s3 & _ & H).
  apply returns_bind in H. destruct H as (z & s4 & _ & H).
  apply returns_bind in H. destruct H as (ie & s5 & _ & H).
  apply returns_bind in H. destruct H as (op & s6 & _ & H).
  apply returns_bind in H. destruct H as (rp & s7 & _ & H).
  cbv zeta in H. apply returns_lift_result in H. destruct H as [Hdf _].
  exists t, s1. split; [exact Ht |].
  unfold DataFrame_of_dict in Hdf.
  destruct (forallb _ _); [| discriminate].
  injection Hdf as <-. reflexivity.
Qed.

(** X14: the columns are drawn one after the other from one stream that
    starts at seed 42, the temperatures first.  So the temperature
    column of a table of [k] samples is the start of the temperature
    column of every table of [n >= k] samples. *)
Theorem temperature_prefix (k n : Z) (s1 s1' s2 s2' : rng_state) (df_k df_n : DataFrame) :
  0 <= k <= n ->
  Generator.generate_dummy_data (Some k) s1 = (inr df_k, s1') ->
  Generator.generate_dummy_data (Some n) s2 = (inr df_n, s2') ->
  exists tk tn,
    lookup_column "Temperature (Celsius)" (df_columns df_k) = Some (FloatCol tk)
    /\ lookup_column "Temperature (Celsius)" (df_columns df_n) = Some (FloatCol tn)
    /\ length tk = Z.to_nat k
    /\ tk = firstn (Z.to_nat k) tn.
Proof.
  intros Hkn Hk Hn.
  destruct (generated_temperature _ _ _ _ Hk) as (tk & sk & Huk & Hck).
  destruct (generated_temperature _ _ _ _ Hn) as (tn & sn & Hun & Hcn).
  exists (map Some tk), (map Some tn).
  split; [exact Hck |]. split; [exact Hcn |].
  pose proof (uniform_prefix _ _ _ _ _ _ _ _ _ Hkn Huk Hun) as Hpre.
  split.
  - rewrite length_map, Hpre, length_firstn.
    pose proof (uniform_length _ _ _ _ _ _ Hun) as Hlen.
    lia.
  - rewrite Hpre. symmetry. apply List.firstn_map.
Qed.

End DrawOrder.

(** ** 10.21 The positions of the split *)

Section SplitPositions.
Context `{F : Float64} `{G : BitGenerator} `{L : Allocator}.

(** X15: which rows go to the test partition depends on the number of
    rows only, not on what the rows hold: the splits of two tables of
    the same length and the same index take the same index labels into
    train and into test, in the same order. *)
Theorem split_positions_depend_on_row_count
        (X X' Xtr Xte Xtr' Xte' : DataFrame) (y y' ytr yte ytr' yte' : Series) (rs : Z) :
  df_index X = df_index X' ->
  train_test_split X y float_0_2 rs = inr (Xtr, Xte, ytr, yte) ->
  train_test_split X' y' float_0_2 rs = inr (Xtr', Xte', ytr', yte') ->
  df_index Xtr = df_index Xtr' /\ df_index Xte = df_index Xte'.
Proof.
  intros Hindex. unfold train_test_split.
  assert (Hn : nrows X = nrows X') by (unfold nrows; rewrite Hindex; reflexivity).
  rewrite <- Hn.
  destruct (negb (Nat.eqb (nrows X) (length (s_index y)))); [discriminate |].
  destruct (negb (Nat.eqb (nrows X) (length (s_index y')))); [discriminate |].
  destruct (validate_shuffle_split (nrows X) float_0_2) as [e | [n_train n_test]];
    simpl; [discriminate |].
  destruct (shuffle_split_indices (nrows X) n_train n_test rs) as [e | [train test]];
    simpl; [discriminate |].
  destruct (iloc X train) as [e | A1] eqn:H1; simpl; [discriminate |].
  destruct (iloc X test) as [e | A2] eqn:H2; simpl; [discriminate |].
  destruct (series_iloc y train) as [e | A3]; simpl; [discriminate |].
  destruct (series_iloc y test) as [e | A4]; simpl; [discriminate |].
  intros [= <- <- <- <-].
  destruct (iloc X' train) as [e | B1] eqn:H1'; simpl; [discriminate |].
  destruct (iloc X' test) as [e | B2] eqn:H2'; simpl; [discriminate |].
  destruct (series_iloc y' train) as [e | B3]; simpl; [discriminate |].
  destruct (series_iloc y' test) as [e | B4]; simpl; [discriminate |].
  intros [= <- <- <- <-].
  destruct (iloc_spec _ _ _ H1) as (_ & -> & _).
  destruct (iloc_spec _ _ _ H2) as (_ & -> & _).
  destruct (iloc_spec _ _ _ H1') as (_ & -> & _).
  destruct (iloc_spec _ _ _ H2') as (_ & -> & _).
  rewrite Hindex. split; reflexivity.
Qed.

End SplitPositions.

(** ** 10.22 The trainer on a file of the generator's schema *)

Lemma filter_names (p : string -> bool) (cols : list (string * column)) :
  map fst (List.filter (fun nc => p (fst nc)) cols) = List.filter p (map fst cols).
Proof.
  induction cols as [| [n0 c0] cols IH]; simpl; [reflexivity |].
  destruct (p n0); simpl; rewrite IH; reflexivity.
Qed.

Lemma has_column_names (cols : list (string * column)) (name : string) :
  has_column cols name = existsb (fun n => String.eqb n name) (map fst cols).
Proof.
  unfold has_column. induction cols as [| [n0 c0] cols IH]; simpl; [reflexivity |].
  rewrite IH. reflexivity.
Qed.

Lemma lookup_column_in (name : string) (c : column) (cols : list (string * column)) :
  lookup_column name cols = Some c -> In (name, c) cols.
Proof.
  unfold lookup_column. induction cols as [| [n0 c0] cols IH]; simpl; [discriminate |].
  destruct (String.eqb_spec n0 name) as [-> | _]; simpl.
  - intros [= ->]. left. reflexivity.
  - intros H. right. apply IH, H.
Qed.

Lemma getitem_list_columns (df X : DataFrame) (names : list string) :
  getitem_list df names = inr X ->
  forall nc, In nc (df_columns X) -> In nc (df_columns df).
Proof.
  unfold getitem_list. destruct (List.filter _ names); [| discriminate].
  intros [= <-] nc Hin. simpl in Hin. apply in_flat_map in Hin.
  destruct Hin as (name & _ & Hin). apply filter_In in Hin. tauto.
Qed.

Section SchemaRuns.
Context `{F : Float64} `{G : BitGenerator} `{L : Allocator} `{P : CsvParser} `{E : Estimator}.

Lemma accuracy_score_ok (y_true y_pred : list cell) :
  length y_true = length y_pred ->
  check_targets y_true y_pred = inr tt ->
  exists acc, accuracy_score y_true y_pred = inr acc.
Proof.
  intros Hlen Hcheck. unfold accuracy_score.
  rewrite Hlen, Nat.eqb_refl, Hcheck. simpl. eexists. reflexivity.
Qed.

(** The statements of the trainer up to the split go through on every
    table of the generator's schema that has two rows or more and holds
    each climate zone. *)
Lemma trainer_inputs_ok (table : DataFrame) (zones : list (option string)) :
  well_formed table ->
  column_names table = generator_schema ->
  lookup_column "Climate Zone" (df_columns table) = Some (ObjCol zones) ->
  (forall z, In z zones -> exists s, z = Some s /\ In s climate_values) ->
  (forall s, In s climate_values -> In (Some s) zones) ->
  (2 <= nrows table)%nat -> Z.of_nat (nrows table) < 2 ^ 50 ->
  exists dd X y Xtr Xte ytr yte,
    get_dummies table ["Climate Zone"] = inr dd
    /\ getitem_list dd trainer_features = inr X
    /\ getitem dd trainer_target = inr y
    /\ train_test_split X y float_0_2 42 = inr (Xtr, Xte, ytr, yte)
    /\ column_names X = trainer_features
    /\ (nrows Xtr + nrows Xte = nrows table)%nat
    /\ Z.of_nat (nrows Xte) = test_count (nrows table)
    /\ length (cells (s_values yte)) = nrows Xte.
Proof.
  intros Hwf Hschema Hcol Honly Hall Hn Hbig.
  destruct Hwf as (Hlens & Hnd).
  pose proof (get_dummies_one table _ _ Hnd Hcol) as Hd.
  simpl get_dummies_1d in Hd. rewrite (climate_categories zones Honly Hall) in Hd.
  cbn [map] in Hd.
  set (dd := {| df_index := df_index table; df_columns := _ |}) in Hd.
  assert (Hddnames : column_names dd
                     = [ "Temperature (Celsius)"; "Precipitation (mm)"; "Soil pH";
                         "Input Expenses (Currency)"; "Output Prices (Currency)";
                         "Recommended Product"; "Climate Zone_Arctic";
                         "Climate Zone_Temperate"; "Climate Zone_Tropical" ]).
  { unfold column_names, dd. cbn [df_columns]. rewrite map_app.
    rewrite (filter_names (fun n => negb (String.eqb n "Climate Zone"))).
    unfold column_names in Hschema. rewrite Hschema. reflexivity. }
  assert (Hddnd : List.NoDup (column_names dd)).
  { rewrite Hddnames.
    repeat (constructor; [simpl; intuition discriminate |]). constructor. }
  assert (Hzones : length zones = nrows table).
  { apply lookup_column_in in Hcol. rewrite List.Forall_forall in Hlens.
    apply (Hlens _ Hcol). }
  assert (Hddlens : Forall (fun nc => col_length (snd nc) = nrows table) (df_columns dd)).
  { unfold dd. cbn [df_columns]. apply Forall_app. split.
    - apply List.Forall_forall. intros nc Hin. apply filter_In in Hin.
      rewrite List.Forall_forall in Hlens. apply Hlens. tauto.
    - repeat constructor; simpl; rewrite length_map; exact Hzones. }
  assert (HX : exists X, getitem_list dd trainer_features = inr X).
  { unfold getitem_list.
    rewrite (filter_ext _ (fun name => negb (existsb (fun n => String.eqb n name)
                                                     (column_names dd))))
      by (intros name; rewrite has_column_names; reflexivity).
    rewrite Hddnames. simpl. eexists. reflexivity. }
  destruct HX as (X & HX).
  assert (Hy : exists y, getitem dd trainer_target = inr y).
  { unfold getitem.
    destruct (has_column_found (df_columns dd) trainer_target) as (c & ->).
    - rewrite has_column_names. fold (column_names dd). rewrite Hddnames. reflexivity.
    - eexists. reflexivity. }
  destruct Hy as (y & Hy).
  assert (HnX : nrows X = nrows table).
  { unfold nrows. rewrite (getitem_list_index _ _ _ HX). reflexivity. }
  assert (Hal : aligned X y).
  { split; [| split].
    - apply List.Forall_forall. intros nc Hin. rewrite HnX.
      rewrite List.Forall_forall in Hddlens.
      apply Hddlens, (getitem_list_columns _ _ _ HX), Hin.
    - rewrite (getitem_index _ _ _ Hy), (getitem_list_index _ _ _ HX). reflexivity.
    - rewrite HnX. unfold getitem in Hy.
      destruct (lookup_column trainer_target (df_columns dd)) as [c |] eqn:Hc;
        [| discriminate].
      injection Hy as <-. simpl. apply lookup_column_in in Hc.
      rewrite List.Forall_forall in Hddlens. apply (Hddlens _ Hc). }
  rewrite <- HnX in Hn, Hbig.
  destruct (train_test_split_ok X y 42 Hal Hn Hbig)
    as (Xtr & Xte & ytr & yte & Hsplit & Htest & Hsum).
  exists dd, X, y, Xtr, Xte, ytr, yte.
  split; [exact Hd |]. split; [exact HX |]. split; [exact Hy |].
  split; [exact Hsplit |].
  split; [apply (getitem_list_names_eq _ _ _ Hddnd HX) |].
  rewrite <- HnX. split; [exact Hsum |]. split; [exact Htest |].
  destruct (train_test_split_inv _ _ _ _ _ _ _ Hsplit)
    as (train & test & _ & _ & _ & H2 & _ & H4).
  destruct (iloc_spec _ _ _ H2) as (-> & _).
  destruct (series_iloc_spec _ _ _ H4) as (_ & ->).
  apply length_map.
Qed.

(** X17: the trainer gets through its own statements on every file of
    the generator's schema.  When the data file parses to a table with
    the seven columns of the schema, two rows or more (fewer than
    [2^50]), and a climate column that holds each of Tropical,
    Temperate, Arctic and nothing else, the encoding, both selections
    and the split succeed; and whenever the classifier fits and predicts
    and the metrics accept the labels, the run gets to the write of the
    model file: it ends normally with that classifier and those
    predictions when the file can be written, and with the [OSError] of
    the write when it cannot.  A failure on such a file can only come
    from scikit-learn's classifier or label check, or from the write of
    the model file. *)
Theorem trainer_succeeds_on_schema
        (w : world) (text : string) (table : DataFrame) (zones : list (option string)) :
  files w !! data_file = Some text ->
  parse_csv text = inr table ->
  column_names table = generator_schema ->
  lookup_column "Climate Zone" (df_columns table) = Some (ObjCol zones) ->
  (forall z, In z zones -> exists s, z = Some s /\ In s climate_values) ->
  (forall s, In s climate_values -> In (Some s) zones) ->
  (2 <= nrows table)%nat -> Z.of_nat (nrows table) < 2 ^ 50 ->
  exists dd Xtr Xte ytr yte,
    trainer_inputs table = inr (dd, (Xtr, Xte, ytr, yte))
    /\ column_names Xtr = trainer_features
    /\ (nrows Xtr + nrows Xte = nrows table)%nat
    /\ forall c yp,
        rf_fit 100 42 Xtr ytr = inr c ->
        rf_predict c Xte = inr yp ->
        check_targets (cells (s_values yte)) yp = inr tt ->
        match write_faults w !! model_file with
        | None =>
            exists g w',
              Trainer.script w = (inr g, w')
              /\ clf g = c /\ y_pred g = yp
              /\ X_train g = Xtr /\ X_test g = Xte
              /\ y_train g = ytr /\ y_test g = yte
        | Some (msg, kept) =>
            exists w', Trainer.script w = (inl (OSError msg), w')
        end.
Proof.
  intros Hfile Hparse Hschema Hcol Honly Hall Hn Hbig.
  pose proof (parse_csv_well_formed _ _ Hparse) as Hwf.
  destruct (trainer_inputs_ok table zones Hwf Hschema Hcol Honly Hall Hn Hbig)
    as (dd & X & y & Xtr & Xte & ytr & yte
        & Hd & HX & Hy & Hsplit & Hnames & Hsum & _ & Hlen).
  exists dd, Xtr, Xte, ytr, yte.
  split; [unfold trainer_inputs; rewrite Hd; simpl; rewrite HX; simpl;
          rewrite Hy; simpl; rewrite Hsplit; reflexivity |].
  split.
  { destruct (train_test_split_inv _ _ _ _ _ _ _ Hsplit)
      as (train & test & _ & _ & H1 & _).
    destruct (iloc_spec _ _ _ H1) as (_ & _ & -> & _). exact Hnames. }
  split; [exact Hsum |].
  intros c yp Hfit Hpred Hcheck.
  destruct (rf_predict_spec _ _ _ _ _ _ _ Hfit Hpred) as [Hyp _].
  assert (Hsame : length (cells (s_values yte)) = length yp) by congruence.
  destruct (accuracy_score_ok _ _ Hsame Hcheck) as (acc & Hacc).
  destruct (classification_report_after_accuracy _ _ _ Hacc) as (rep & Hrep).
  rewrite trainer_script_cases, Hfile, Hparse, Hd, HX, Hy, Hsplit. cbv beta iota.
  rewrite Hfit, Hpred, Hacc, Hrep.
  destruct (write_faults w !! model_file) as [[msg kept] |].
  - eexists. reflexivity.
  - eexists _, _. split; [reflexivity |]. simpl. repeat split; reflexivity.
Qed.

(** The labels of an encoded table are labels of the table or start
    with the label of the encoded column and an underscore. *)
Lemma get_dummies_names (df dd : DataFrame) (name n : string) :
  get_dummies df [name] = inr dd ->
  In n (column_names dd) ->
  In n (column_names df) \/ exists rest, n = (name ++ "_" ++ rest)%string.
Proof.
  unfold get_dummies.
  destruct (getitem_list df [name]) as [e | enc] eqn:Henc; simpl; [discriminate |].
  intros [= <-]. unfold column_names. simpl. rewrite map_app, in_app_iff.
  intros [Hin | Hin].
  - left. apply in_map_iff in Hin. destruct Hin as (nc & <- & Hin).
    apply filter_In in Hin. apply in_map. tauto.
  - right. apply in_map_iff in Hin. destruct Hin as (nc & <- & Hin).
    apply in_flat_map in Hin. destruct Hin as ([n0 c0] & Hcol & Hin).
    assert (Hn0 : n0 = name).
    { unfold getitem_list in Henc. destruct (List.filter _ [name]); [| discriminate].
      injection Henc as <-. simpl in Hcol. rewrite app_nil_r in Hcol.
      apply filter_In in Hcol. destruct Hcol as [_ Heq]. apply String.eqb_eq, Heq. }
    subst n0. simpl in Hin.
    destruct c0 as [xs | xs | xs]; simpl in Hin; apply in_map_iff in Hin;
      destruct Hin as (lv & <- & _); eexists; reflexivity.
Qed.

(** X18: a file without one of the columns the trainer names.  Without
    a 'Climate Zone' column the encoding raises [KeyError] for that
    label; with the eight feature columns there after the encoding but
    no 'Recommended Product' column in the file, the selection of the
    target raises [KeyError] for it.  In both cases the trainer ends
    with that exception and the world is as it was. *)
Theorem missing_column_key_error (w : world) (text : string) (table : DataFrame) :
  files w !! data_file = Some text ->
  parse_csv text = inr table ->
  (~ In "Climate Zone" (column_names table) ->
   Trainer.script w = (inl (KeyError ["Climate Zone"]), w))
  /\ (forall dd X,
         get_dummies table ["Climate Zone"] = inr dd ->
         getitem_list dd trainer_features = inr X ->
         ~ In trainer_target (column_names table) ->
         Trainer.script w = (inl (KeyError [trainer_target]), w)).
Proof.
  intros Hfile Hparse. split.
  - intros Hmissing. apply (trainer_inputs_error w text table _ Hfile Hparse).
    unfold trainer_inputs. rewrite get_dummies_missing_column; [reflexivity |].
    destruct (lookup_column "Climate Zone" (df_columns table)) as [c |] eqn:Hc;
      [| reflexivity].
    exfalso. apply Hmissing. apply lookup_column_in in Hc.
    apply (in_map fst) in Hc. exact Hc.
  - intros dd X Hd HX Hmissing.
    apply (trainer_inputs_error w text table _ Hfile Hparse).
    unfold trainer_inputs. rewrite Hd. simpl. rewrite HX. simpl.
    unfold getitem.
    destruct (lookup_column trainer_target (df_columns dd)) as [c |] eqn:Hc;
      [| reflexivity].
    exfalso. apply lookup_column_in in Hc. apply (in_map fst) in Hc.
    destruct (get_dummies_names _ _ _ _ Hd Hc) as [Hin | (rest & Hrest)];
      [exact (Hmissing Hin) |].
    unfold trainer_target in Hrest. cbv [String.append fst] in Hrest. discriminate.
Qed.

End SchemaRuns.

(* ===================================================================== *)
(** * 11. The implementation meets the contracts *)
(* ===================================================================== *)

(** ** 11.1 Rounding is monotone, and exact on the floats *)

Lemma pow2_pos (e : Z) : (0 < pow2 e)%Q.
Proof. apply Qpower_0_lt. reflexivity. Qed.

Lemma pow2_add (a b : Z) : (pow2 (a + b) == pow2 a * pow2 b)%Q.
Proof. apply Qpower_plus. discriminate. Qed.

Lemma pow2_le (a b : Z) : a <= b -> (pow2 a <= pow2 b)%Q.
Proof. intros H. apply Qpower_le_compat_l; [exact H | discriminate]. Qed.

Lemma pow2_lt_inv (a b : Z) : (pow2 a < pow2 b)%Q -> a < b.
Proof. intros H. apply (Qpower_lt_compat_l_inv 2); [exact H | reflexivity]. Qed.

Lemma pow2_inject (k : Z) : 0 <= k -> (inject_Z (2 ^ k) == pow2 k)%Q.
Proof. intros H. apply (Zpower_Qpower 2 k H). Qed.

Lemma inject_Z_lt (a b : Z) : a < b -> (inject_Z a < inject_Z b)%Q.
Proof. intros H. rewrite <- Zlt_Qlt. exact H. Qed.

Ltac qcompare_facts :=
  repeat match goal with
         | H : Qcompare _ _ = Eq |- _ => apply Qeq_alt in H
         | H : Qcompare _ _ = Lt |- _ => apply Qlt_alt in H
         | H : Qcompare _ _ = Gt |- _ => apply Qgt_alt in H
         end.

(** ** nearest integer *)
Lemma round_half_even_bounds (x : Q) :
  Qfloor x <= round_half_even x <= Qfloor x + 1.
Proof.
  unfold round_half_even.
  destruct (Qcompare _ _); [destruct (Z.even _) | |]; lia.
Qed.

Lemma round_half_even_mono (x y : Q) :
  (x <= y)%Q -> round_half_even x <= round_half_even y.
Proof.
  intros Hxy. pose proof (Qfloor_resp_le x y Hxy) as Hf.
  destruct (Z.eq_dec (Qfloor x) (Qfloor y)) as [Heq | Hne].
  - unfold round_half_even. rewrite <- Heq.
    destruct (Qcompare (x - inject_Z (Qfloor x)) (1 # 2)) eqn:Hx;
      destruct (Qcompare (y - inject_Z (Qfloor x)) (1 # 2)) eqn:Hy;
      try (destruct (Z.even (Qfloor x))); try lia;
      exfalso; qcompare_facts; lra.
  - pose proof (round_half_even_bounds x). pose proof (round_half_even_bounds y). lia.
Qed.

Lemma round_half_even_Z (x : Q) (z : Z) :
  (x == inject_Z z)%Q -> round_half_even x = z.
Proof.
  intros Hx. unfold round_half_even.
  rewrite (Qfloor_comp _ _ Hx), Qfloor_Z.
  destruct (Qcompare (x - inject_Z z) (1 # 2)) eqn:Hc;
    [exfalso | reflexivity | exfalso]; qcompare_facts; lra.
Qed.

(** ** rounding to the multiples of [2^e] *)
Lemma round_to_grid_mono (e : Z) (x y : Q) :
  (x <= y)%Q -> (round_to_grid e x <= round_to_grid e y)%Q.
Proof.
  intros Hxy. unfold round_to_grid.
  apply Qmult_le_compat_r; [| apply Qlt_le_weak, pow2_pos].
  apply inject_Z_le, round_half_even_mono.
  apply Qmult_le_compat_r; [exact Hxy |].
  apply Qinv_le_0_compat, Qlt_le_weak, pow2_pos.
Qed.

Lemma round_to_grid_exact (e m : Z) (x : Q) :
  (x == inject_Z m * pow2 e)%Q -> (round_to_grid e x == x)%Q.
Proof.
  intros Hx. unfold round_to_grid.
  rewrite (round_half_even_Z (x / pow2 e) m).
  - symmetry. exact Hx.
  - rewrite Hx. field. apply Qnot_eq_sym, Qlt_not_eq, pow2_pos.
Qed.

Lemma coarser_grid (m e0 e : Z) :
  e <= e0 -> (inject_Z m * pow2 e0 == inject_Z (m * 2 ^ (e0 - e)) * pow2 e)%Q.
Proof.
  intros He. rewrite inject_Z_mult, pow2_inject by lia.
  rewrite <- Qmult_assoc, <- pow2_add.
  replace (e0 - e + e) with e0 by lia. reflexivity.
Qed.

Lemma pow2_on_grid (L e : Z) :
  e <= L -> (pow2 L == inject_Z (2 ^ (L - e)) * pow2 e)%Q.
Proof.
  intros He. rewrite pow2_inject by lia. rewrite <- pow2_add.
  replace (L - e + e) with L by lia. reflexivity.
Qed.

Lemma round_to_grid_nonneg (e : Z) (x : Q) : (0 <= x)%Q -> (0 <= round_to_grid e x)%Q.
Proof.
  intros Hx.
  assert (H0 : (round_to_grid e 0 == 0)%Q).
  { apply (round_to_grid_exact e 0). ring. }
  rewrite <- H0. apply round_to_grid_mono, Hx.
Qed.

(** ** the binary exponent *)
Lemma Q_as_fraction (x : Q) :
  (x == inject_Z (Qnum x) / inject_Z (Zpos (Qden x)))%Q.
Proof. destruct x as [n d]. apply Qmake_Qdiv. Qed.

Lemma ilog2_spec (x : Q) :
  (0 < x)%Q -> (pow2 (ilog2 x) <= x < pow2 (ilog2 x + 1))%Q.
Proof.
  intros Hx.
  assert (Hn : 0 < Qnum x) by (unfold Qlt in Hx; simpl in Hx; lia).
  pose proof (Z.log2_spec (Qnum x) Hn) as [Hn1 Hn2].
  pose proof (Z.log2_spec (Zpos (Qden x)) ltac:(lia)) as [Hd1 Hd2].
  pose proof (Z.log2_nonneg (Qnum x)) as Ln.
  pose proof (Z.log2_nonneg (Zpos (Qden x))) as Ld.
  apply inject_Z_le in Hn1, Hd1. apply inject_Z_lt in Hn2, Hd2.
  rewrite !pow2_inject in * by lia.
  replace (Z.succ (Z.log2 (Qnum x))) with (Z.log2 (Qnum x) + 1) in * by lia.
  replace (Z.succ (Z.log2 (Z.pos (Qden x)))) with (Z.log2 (Z.pos (Qden x)) + 1) in * by lia.
  unfold ilog2.
  set (ln := Z.log2 (Qnum x)) in *. set (ld := Z.log2 (Zpos (Qden x))) in *.
  assert (Hd0 : (0 < inject_Z (Zpos (Qden x)))%Q) by reflexivity.
  pose proof (Q_as_fraction x) as Hfrac.
  set (n := inject_Z (Qnum x)) in *. set (d := inject_Z (Zpos (Qden x))) in *.
  assert (Hxd : (x * d == n)%Q).
  { rewrite Hfrac. field. apply Qnot_eq_sym, Qlt_not_eq, Hd0. }
  (* [2^(ln - ld - 1) < x < 2^(ln - ld + 1)] *)
  assert (Hup : (x < pow2 (ln - ld + 1))%Q).
  { apply (Qmult_lt_r _ _ (pow2 ld)); [apply pow2_pos |].
    rewrite <- pow2_add. replace (ln - ld + 1 + ld) with (ln + 1) by lia.
    apply Qle_lt_trans with (y := n); [| exact Hn2].
    rewrite <- Hxd. apply Qmult_le_l; [| exact Hd1].
    exact Hx. }
  assert (Hlow : (pow2 (ln - ld - 1) <= x)%Q).
  { apply (Qmult_le_r _ _ (pow2 (ld + 1))); [apply pow2_pos |].
    rewrite <- pow2_add. replace (ln - ld - 1 + (ld + 1)) with ln by lia.
    apply Qle_trans with (y := n); [exact Hn1 |].
    rewrite <- Hxd. apply Qmult_le_l; [exact Hx | apply Qlt_le_weak, Hd2]. }
  destruct (Qle_bool (pow2 (ln - ld)) x) eqn:Hb.
  - apply Qle_bool_iff in Hb. split; assumption.
  - replace (ln - ld - 1 + 1) with (ln - ld) by lia. split; [exact Hlow |].
    apply Qnot_le_lt. intros Hle. apply Qle_bool_iff in Hle. congruence.
Qed.

Lemma ilog2_mono (x y : Q) : (0 < x)%Q -> (x <= y)%Q -> ilog2 x <= ilog2 y.
Proof.
  intros Hx Hxy.
  destruct (ilog2_spec x Hx) as [Hx1 _].
  destruct (ilog2_spec y (Qlt_le_trans _ _ _ Hx Hxy)) as [_ Hy2].
  assert (H : (pow2 (ilog2 x) < pow2 (ilog2 y + 1))%Q).
  { eapply Qle_lt_trans; [exact Hx1 |]. eapply Qle_lt_trans; [exact Hxy | exact Hy2]. }
  apply pow2_lt_inv in H. lia.
Qed.

Lemma round_pos_mono (x y : Q) :
  (0 < x)%Q -> (x <= y)%Q -> (round_pos x <= round_pos y)%Q.
Proof.
  intros Hx Hxy. unfold round_pos.
  pose proof (ilog2_mono x y Hx Hxy) as Hl.
  assert (Hy : (0 < y)%Q) by (eapply Qlt_le_trans; eassumption).
  destruct (Z.eq_dec (ulp_exponent x) (ulp_exponent y)) as [-> | Hne].
  - apply round_to_grid_mono, Hxy.
  - unfold ulp_exponent in *.
    assert (He : ilog2 x < ilog2 y /\ Z.max (ilog2 y - 52) (-1074) = ilog2 y - 52
                 /\ Z.max (ilog2 x - 52) (-1074) <= ilog2 y - 52) by lia.
    destruct He as (Hlt & -> & Hex).
    set (ex := Z.max (ilog2 x - 52) (-1074)) in *. set (L := ilog2 y) in *.
    destruct (ilog2_spec x Hx) as [_ Hx2]. destruct (ilog2_spec y Hy) as [Hy1 _].
    fold L in Hy1.
    assert (HxL : (x <= pow2 L)%Q).
    { apply Qlt_le_weak. eapply Qlt_le_trans; [exact Hx2 | apply pow2_le; lia]. }
    assert (Hgx : (round_to_grid ex (pow2 L) == pow2 L)%Q).
    { apply (round_to_grid_exact ex (2 ^ (L - ex))). apply pow2_on_grid. lia. }
    assert (Hgy : (round_to_grid (L - 52) (pow2 L) == pow2 L)%Q).
    { apply (round_to_grid_exact (L - 52) (2 ^ (L - (L - 52)))). apply pow2_on_grid. lia. }
    apply Qle_trans with (y := pow2 L).
    + rewrite <- Hgx. apply round_to_grid_mono, HxL.
    + rewrite <- Hgy. apply round_to_grid_mono, Hy1.
Qed.

Lemma round_pos_nonneg (x : Q) : (0 <= x)%Q -> (0 <= round_pos x)%Q.
Proof. apply round_to_grid_nonneg. Qed.

Lemma round_binary64_mono (x y : Q) :
  (x <= y)%Q -> (round_binary64 x <= round_binary64 y)%Q.
Proof.
  intros Hxy. unfold round_binary64.
  destruct (Qcompare x 0) eqn:Hx; destruct (Qcompare y 0) eqn:Hy; qcompare_facts.
  - apply Qle_refl.
  - exfalso. lra.
  - apply round_pos_nonneg. lra.
  - assert (H := round_pos_nonneg (- x) ltac:(lra)). lra.
  - assert (H := round_pos_mono (- y) (- x) ltac:(lra) ltac:(lra)). lra.
  - assert (H1 := round_pos_nonneg (- x) ltac:(lra)).
    assert (H2 := round_pos_nonneg y ltac:(lra)). lra.
  - exfalso. lra.
  - exfalso. lra.
  - apply round_pos_mono; lra.
Qed.

Lemma round_pos_exact (m e : Z) :
  0 < m < 2 ^ 53 -> -1074 <= e ->
  (round_pos (binary64 m e) == binary64 m e)%Q.
Proof.
  intros Hm He. unfold round_pos. set (x := binary64 m e).
  assert (Hx : (0 < x)%Q).
  { unfold x, binary64. apply Qmult_lt_0_compat; [| apply pow2_pos].
    apply (inject_Z_lt 0). lia. }
  assert (Hlog : ilog2 x < 53 + e).
  { destruct (ilog2_spec x Hx) as [H1 _].
    apply pow2_lt_inv. eapply Qle_lt_trans; [exact H1 |].
    unfold x, binary64. rewrite pow2_add, <- (pow2_inject 53) by lia.
    apply Qmult_lt_compat_r; [apply pow2_pos | apply inject_Z_lt; lia]. }
  apply (round_to_grid_exact _ (m * 2 ^ (e - ulp_exponent x))).
  apply coarser_grid. unfold ulp_exponent. lia.
Qed.

Lemma binary64_sign (m e : Z) :
  (m < 0 /\ (binary64 m e < 0)%Q) \/ (m = 0 /\ (binary64 m e == 0)%Q)
  \/ (0 < m /\ (0 < binary64 m e)%Q).
Proof.
  unfold binary64. pose proof (pow2_pos e) as Hp.
  destruct (Z.lt_trichotomy m 0) as [Hneg | [-> | Hpos]].
  - left. split; [exact Hneg |].
    apply (inject_Z_lt m 0) in Hneg. change (inject_Z 0) with 0%Q in Hneg. nra.
  - right. left. split; [reflexivity | ring].
  - right. right. split; [exact Hpos |].
    apply (inject_Z_lt 0 m) in Hpos. change (inject_Z 0) with 0%Q in Hpos. nra.
Qed.

Lemma round_pos_proper (x y : Q) :
  (0 < x)%Q -> (x == y)%Q -> (round_pos x == round_pos y)%Q.
Proof.
  intros Hx Hxy. apply Qle_antisym; apply round_pos_mono; lra.
Qed.

Lemma round_binary64_exact (m e : Z) :
  Z.abs m < 2 ^ 53 -> -1074 <= e ->
  (round_binary64 (binary64 m e) == binary64 m e)%Q.
Proof.
  intros Hm He. unfold round_binary64.
  destruct (binary64_sign m e) as [[Hs Hb] | [[Hs Hb] | [Hs Hb]]];
    destruct (Qcompare (binary64 m e) 0) eqn:Hc; qcompare_facts;
    try (exfalso; lra).
  - assert (Hopp : (- binary64 m e == binary64 (- m) e)%Q).
    { unfold binary64. rewrite inject_Z_opp. ring. }
    assert (Hpos : (0 < - binary64 m e)%Q) by lra.
    rewrite (round_pos_proper _ _ Hpos Hopp), round_pos_exact by lia.
    rewrite <- Hopp. ring.
  - symmetry. exact Hb.
  - apply round_pos_exact; lia.
Qed.

Lemma digit_char_numeric (d : Z) (s : string) :
  numeric_start (String (digit_char d) s) = true.
Proof.
  unfold numeric_start, digit_char.
  pose proof (Z.mod_pos_bound d 10 ltac:(lia)) as Hd.
  rewrite nat_ascii_embedding by lia.
  apply orb_true_iff. right. apply andb_true_iff. split; apply Nat.leb_le; lia.
Qed.

Lemma show_digits_numeric (fuel : nat) (n : Z) (acc : string) :
  numeric_start acc = true -> numeric_start (show_digits fuel n acc) = true.
Proof.
  revert n acc. induction fuel as [| fuel IH]; intros n acc Hacc; simpl; [exact Hacc |].
  destruct (n / 10 =? 0); [apply digit_char_numeric |].
  apply IH, digit_char_numeric.
Qed.

Lemma show_Z_numeric (n : Z) : numeric_start (show_Z n) = true.
Proof.
  unfold show_Z. cbn [show_digits].
  destruct (n / 10 =? 0); [apply digit_char_numeric |].
  apply show_digits_numeric, digit_char_numeric.
Qed.

Lemma numeric_start_append (s t : string) :
  numeric_start s = true -> numeric_start (s ++ t) = true.
Proof. destruct s as [| c s]; [discriminate | intros H; exact H]. Qed.

Lemma show_float_numeric (x : Q) : numeric_start (show_float x) = true.
Proof.
  unfold show_float. destruct (Qle_bool 0 x); [| reflexivity].
  apply numeric_start_append, show_Z_numeric.
Qed.

#[export] Instance binary64_float : Float64 := {|
  fl := round_binary64;
  repr := show_float;
  fl_mono := round_binary64_mono;
  fl_exact := fun m e H => round_binary64_exact m e (proj1 H) (proj1 (proj2 H));
  repr_numeric := show_float_numeric
|}.

(** ** 11.2 The draws of the Mersenne Twister are in range *)

Lemma u32_range (x : Z) : 0 <= u32 x < 2 ^ 32.
Proof.
  unfold u32. rewrite Z.land_ones by lia. apply Z.mod_pos_bound. lia.
Qed.

Lemma mt_next_range (s : mt_state) : 0 <= fst (mt_next s) < 2 ^ 32.
Proof. unfold mt_next. simpl. apply u32_range. Qed.

Lemma mt_double53_range (s : mt_state) : 0 <= fst (mt_double53 s) < 2 ^ 53.
Proof.
  unfold mt_double53.
  pose proof (mt_next_range s) as H1. destruct (mt_next s) as [r1 s1].
  pose proof (mt_next_range s1) as H2. destruct (mt_next s1) as [r2 s2].
  simpl in *. rewrite !Z.shiftr_div_pow2 by lia.
  assert (0 <= r1 / 2 ^ 5 < 2 ^ 27).
  { split; [apply Z.div_pos; lia | apply Z.div_lt_upper_bound; lia]. }
  assert (0 <= r2 / 2 ^ 6 < 2 ^ 26).
  { split; [apply Z.div_pos; lia | apply Z.div_lt_upper_bound; lia]. }
  lia.
Qed.

Lemma mt_reject_range (fuel : nat) (draw : mt_state -> Z * mt_state) (mask max : Z)
      (s : mt_state) :
  0 <= mask -> 0 <= max -> 0 <= fst (mt_reject fuel draw mask max s) <= max.
Proof.
  intros Hmask Hmax. revert s. induction fuel as [| fuel IH]; intros s; simpl; [lia |].
  destruct (draw s) as [r s'].
  destruct (Z.leb_spec (Z.land r mask) max) as [Hle | Hgt]; [| apply IH].
  simpl. split; [| exact Hle]. apply Z.land_nonneg. right. exact Hmask.
Qed.

Lemma mt_interval_range (max : Z) (s : mt_state) :
  0 <= max -> 0 <= fst (mt_interval max s) <= max.
Proof.
  intros Hmax. unfold mt_interval.
  destruct (Z.leb_spec max 0); [simpl; lia |].
  assert (Hmask : 0 <= Z.ones (Z.log2 max + 1)).
  { rewrite Z.ones_equiv. pose proof (Z.log2_nonneg max).
    assert (0 < 2 ^ (Z.log2 max + 1)) by (apply Z.pow_pos_nonneg; lia). lia. }
  destruct (max <=? 4294967295); apply mt_reject_range; assumption.
Qed.

#[export] Instance mt19937 : BitGenerator := {|
  rng_state := mt_state;
  seed := mt_seed;
  next_double53 := mt_double53;
  random_interval := mt_interval;
  next_double53_range := mt_double53_range;
  random_interval_range := mt_interval_range
|}.

(** ** 11.3 The reader returns well-formed tables *)

Lemma distinct_NoDup (l : list string) : distinct l = true -> List.NoDup l.
Proof.
  induction l as [| x l IH]; simpl; [constructor |].
  intros H. apply andb_true_iff in H. destruct H as [Hx Hl].
  constructor; [| apply IH, Hl].
  intros Hin. apply negb_true_iff in Hx.
  assert (Hex : existsb (String.eqb x) l = true).
  { apply existsb_exists. exists x. split; [exact Hin | apply String.eqb_refl]. }
  congruence.
Qed.

Lemma all_some_length {A : Type} (xs : list (option A)) (ys : list A) :
  all_some xs = Some ys -> length ys = length xs.
Proof.
  revert ys. induction xs as [| [x |] xs IH]; simpl; intros ys H.
  - injection H as <-. reflexivity.
  - destruct (all_some xs) as [zs |]; simpl in H; [| discriminate].
    injection H as <-. simpl. f_equal. apply IH. reflexivity.
  - discriminate.
Qed.

Lemma read_column_length (fields : list string) :
  col_length (read_column fields) = length fields.
Proof.
  unfold read_column.
  destruct (all_some (map _ fields)) as [xs |] eqn:Hx.
  - simpl. rewrite (all_some_length _ _ Hx). apply length_map.
  - destruct (all_some (map read_bool fields)) as [bs |] eqn:Hb; simpl.
    + rewrite (all_some_length _ _ Hb). apply length_map.
    + apply length_map.
Qed.

Lemma read_table_well_formed (text : string) (df : DataFrame) :
  read_table text = inr df -> well_formed df.
Proof.
  unfold read_table.
  destruct (List.filter _ (split_on _ text)) as [| header lines]; [discriminate |].
  destruct (distinct (split_on "," header)) eqn:Hd; simpl; [| discriminate].
  destruct (forallb _ (map (split_on ",") lines)); simpl; [| discriminate].
  intros [= <-]. unfold well_formed, nrows, column_names. simpl.
  rewrite length_seq. split.
  - apply Forall_map. apply List.Forall_forall. intros j _. simpl.
    rewrite read_column_length. apply length_map.
  - rewrite map_map. simpl. rewrite map_nth_seq. apply distinct_NoDup, Hd.
Qed.

#[export] Instance generator_file_reader : CsvParser := {|
  parse_csv := read_table;
  parse_csv_well_formed := read_table_well_formed
|}.

(** ** 11.4 The leaf forest predicts one label per row *)

Lemma most_frequent_fold (ys ls : list cell) (best : option cell) (c : cell) :
  fold_left (fun best l =>
               match best with
               | None => Some l
               | Some b => if Nat.ltb (count_label ys b) (count_label ys l)
                           then Some l else Some b
               end) ls best = Some c ->
  best = Some c \/ In c ls.
Proof.
  revert best. induction ls as [| l ls IH]; simpl; intros best H; [auto |].
  apply IH in H. destruct H as [H | H]; [| auto].
  destruct best as [b |].
  - destruct (Nat.ltb _ _); injection H as <-; auto.
  - injection H as <-. auto.
Qed.

Lemma most_frequent_in (ys : list cell) (c : cell) :
  most_frequent ys = Some c -> In c ys.
Proof.
  unfold most_frequent. intros H. apply (sort_uniq_subset cell_compare).
  destruct (most_frequent_fold _ _ _ _ H) as [Hnone | Hin];
    [discriminate | exact Hin].
Qed.

Lemma leaf_predict_spec
      (n_estimators : nat) (random_state : Z) (X : DataFrame) (y : Series)
      (c : cell) (X' : DataFrame) (y_pred : list cell) :
  leaf_fit n_estimators random_state X y = inr c ->
  leaf_predict c X' = inr y_pred ->
  length y_pred = nrows X' /\ Forall (fun p => In p (cells (s_values y))) y_pred.
Proof.
  unfold leaf_fit, leaf_predict.
  destruct (labels_of_one_type _); simpl; [| discriminate].
  destruct (most_frequent _) as [c' |] eqn:Hm; [| discriminate].
  intros [= <-] [= <-]. split; [apply repeat_length |].
  apply List.Forall_forall. intros p Hp. apply repeat_spec in Hp. subst p.
  apply most_frequent_in, Hm.
Qed.

#[export] Instance leaf_forest : Estimator := {|
  forest := cell;
  rf_fit := leaf_fit;
  rf_predict := leaf_predict;
  check_targets := leaf_check_targets;
  joblib_bytes := fun c => "leaf:" ++ show_cell c;
  rf_predict_spec := leaf_predict_spec
|}.

(** ** 11.5 A fifth of a count, in binary64 *)

(** A number less than half a step above an integer rounds to it. *)
Lemma round_half_even_below_half (x : Q) (z : Z) :
  (inject_Z z <= x)%Q -> (x < inject_Z z + (1 # 2))%Q -> round_half_even x = z.
Proof.
  intros H1 H2. unfold round_half_even.
  assert (Hf : Qfloor x = z).
  { pose proof (Qfloor_le x) as Ha. pose proof (Qlt_floor x) as Hb.
    assert (Hc : (inject_Z z < inject_Z (Qfloor x + 1))%Q).
    { eapply Qle_lt_trans; [exact H1 | exact Hb]. }
    assert (Hd : (inject_Z (Qfloor x) < inject_Z (z + 1))%Q).
    { rewrite inject_Z_plus. change (inject_Z 1) with 1%Q. lra. }
    apply inject_Z_lt_inv in Hc, Hd. lia. }
  rewrite Hf.
  destruct (Qcompare (x - inject_Z z) (1 # 2)) eqn:Hc;
    [exfalso | reflexivity | exfalso]; qcompare_facts; lra.
Qed.

(** [0.2 * (5 * q)] is [q] in binary64: the float [0.2] is above a fifth
    by [0.2 * 2^-54], and the product is above [q] by [q * 2^-54], less
    than half the spacing of the floats at [q]. *)
Lemma round_binary64_fifth (q : Z) :
  0 < q < 2 ^ 50 ->
  (round_binary64 (float_0_2 * inject_Z (5 * q)) == inject_Z q)%Q.
Proof.
  intros Hq. set (x := (float_0_2 * inject_Z (5 * q))%Q).
  assert (Hq1 : (1 <= inject_Z q)%Q) by (apply (inject_Z_le 1); lia).
  assert (Hq2 : (inject_Z q <= 1125899906842624)%Q).
  { change 1125899906842624%Q with (inject_Z (2 ^ 50)). apply inject_Z_le. lia. }
  assert (Hx : (x == inject_Z q + inject_Z q * (1 # 18014398509481984))%Q).
  { unfold x, float_0_2. rewrite inject_Z_mult. change (inject_Z 5) with 5%Q. field. }
  assert (Hx0 : (0 < x)%Q) by lra.
  unfold round_binary64.
  destruct (Qcompare x 0) eqn:Hc; qcompare_facts; [lra | lra |]. clear Hc.
  set (e := Z.log2 q).
  assert (He : 2 ^ e <= q < 2 ^ (e + 1)).
  { unfold e. pose proof (Z.log2_spec q ltac:(lia)) as H. 
    replace (Z.log2 q + 1) with (Z.succ (Z.log2 q)) by lia. exact H. }
  assert (He0 : 0 <= e < 50).
  { split; [apply Z.log2_nonneg | apply Z.log2_lt_pow2; lia]. }
  assert (Hlog : ilog2 x = e).
  { destruct (ilog2_spec x Hx0) as [Ha Hb].
    assert (H1 : (pow2 e <= x)%Q).
    { rewrite <- pow2_inject by lia.
      assert (inject_Z (2 ^ e) <= inject_Z q)%Q by (apply inject_Z_le; lia). lra. }
    assert (H2 : (x < pow2 (e + 1))%Q).
    { rewrite <- pow2_inject by lia.
      assert (H : (inject_Z (q + 1) <= inject_Z (2 ^ (e + 1)))%Q) by (apply inject_Z_le; lia).
      rewrite inject_Z_plus in H. change (inject_Z 1) with 1%Q in H. lra. }
    assert (H3 : (pow2 (ilog2 x) < pow2 (e + 1))%Q) by (eapply Qle_lt_trans; eauto).
    assert (H4 : (pow2 e < pow2 (ilog2 x + 1))%Q) by (eapply Qle_lt_trans; eauto).
    apply pow2_lt_inv in H3, H4. lia. }
  unfold round_pos, ulp_exponent. rewrite Hlog, Z.max_l by lia.
  unfold round_to_grid.
  set (M := q * 2 ^ (52 - e)).
  assert (Hinv : (pow2 (e - 52) * inject_Z (2 ^ (52 - e)) == 1)%Q).
  { rewrite pow2_inject by lia. rewrite <- pow2_add.
    replace (e - 52 + (52 - e)) with 0 by lia. reflexivity. }
  assert (Hdiv : (x / pow2 (e - 52) == x * inject_Z (2 ^ (52 - e)))%Q).
  { unfold Qdiv. apply Qmult_comp; [reflexivity |].
    rewrite pow2_inject by lia. unfold pow2. rewrite <- Qpower_opp.
    replace (- (e - 52)) with (52 - e) by lia. reflexivity. }
  assert (Hy : (x / pow2 (e - 52)
                == inject_Z M + inject_Z M * (1 # 18014398509481984))%Q).
  { rewrite Hdiv, Hx. unfold M. rewrite inject_Z_mult. ring. }
  assert (HM : 0 < M < 2 ^ 53).
  { assert (Hp : 0 < 2 ^ (52 - e)) by (apply Z.pow_pos_nonneg; lia).
    assert (Hs : 2 ^ (e + 1) * 2 ^ (52 - e) = 2 ^ 53).
    { rewrite <- Z.pow_add_r by lia. f_equal. lia. }
    unfold M. nia. }
  assert (Hr : round_half_even (x / pow2 (e - 52)) = M).
  { assert (HM1 : (0 <= inject_Z M)%Q) by (apply (inject_Z_le 0); lia).
    assert (HM2 : (inject_Z M <= 9007199254740991)%Q).
    { change 9007199254740991%Q with (inject_Z (2 ^ 53 - 1)). apply inject_Z_le. lia. }
    apply round_half_even_below_half; rewrite Hy; lra. }
  rewrite Hr. unfold M. rewrite inject_Z_mult.
  rewrite <- Qmult_assoc, (Qmult_comm (inject_Z (2 ^ (52 - e)))), Hinv.
  apply Qmult_1_r.
Qed.

(** The number of test rows is the fifth of the rows, rounded up. *)
Lemma test_count_binary64 (n : nat) :
  Z.of_nat n < 2 ^ 50 ->
  test_count (F := binary64_float) n = (Z.of_nat n + 4) / 5.
Proof.
  intros Hn. pose proof (test_count_bounds (F := binary64_float) n Hn) as Hb.
  pose proof (Z.div_mod (Z.of_nat n) 5 ltac:(lia)) as Hdm.
  pose proof (Z.mod_pos_bound (Z.of_nat n) 5 ltac:(lia)) as Hmod.
  pose proof (Z.div_mod (Z.of_nat n + 4) 5 ltac:(lia)) as Hdm'.
  pose proof (Z.mod_pos_bound (Z.of_nat n + 4) 5 ltac:(lia)) as Hmod'.
  destruct (Z.eq_dec (Z.of_nat n mod 5) 0) as [H0 | H0]; [| lia].
  destruct (Z.eq_dec (Z.of_nat n / 5) 0) as [Hq0 | Hq0].
  - assert (n = 0%nat) by lia. subst n. rewrite test_count_0. reflexivity.
  - assert (Hq : 0 < Z.of_nat n / 5 < 2 ^ 50) by lia.
    unfold test_count. change (@fl binary64_float) with round_binary64.
    replace (Z.of_nat n) with (5 * (Z.of_nat n / 5)) at 1 by lia.
    rewrite (Qceiling_comp _ _ (round_binary64_fifth _ Hq)), Qceiling_Z. lia.
Qed.

Section BinarySplit.
Context `{G : BitGenerator} `{L : Allocator}.

(** X16: with binary64 rounding the split is exact.  For every feature
    table and target of [n] aligned rows, [2 <= n < 2^50], the test
    partition has [ceil(n / 5)] rows, the number [(n + 4) / 5] in
    integers, and the train partition the others; the 1000 rows of the
    generator give 200 test rows and 800 train rows. *)
Theorem split_sizes_binary64 (X : DataFrame) (y : Series) (rs : Z) :
  aligned X y ->
  (2 <= nrows X)%nat -> Z.of_nat (nrows X) < 2 ^ 50 ->
  exists Xtr Xte ytr yte,
    train_test_split (F := binary64_float) X y float_0_2 rs = inr (Xtr, Xte, ytr, yte)
    /\ Z.of_nat (nrows Xte) = (Z.of_nat (nrows X) + 4) / 5
    /\ (nrows Xtr + nrows Xte = nrows X)%nat
    /\ (nrows X = 1000%nat -> nrows Xte = 200%nat /\ nrows Xtr = 800%nat).
Proof.
  intros Hal Hn Hbig.
  destruct (train_test_split_ok (F := binary64_float) X y rs Hal Hn Hbig)
    as (Xtr & Xte & ytr & yte & Hsplit & Htest & Hsum).
  exists Xtr, Xte, ytr, yte. split; [exact Hsplit |].
  rewrite (test_count_binary64 _ Hbig) in Htest.
  split; [exact Htest |]. split; [exact Hsum |].
  intros H1000. rewrite H1000 in Htest, Hsum.
  change ((Z.of_nat 1000 + 4) / 5) with 200 in Htest. lia.
Qed.

End BinarySplit.

(** ** 11.6 The machine's largest array fits the index type *)

Lemma machine_size_range : 0 <= 2 ^ 32 < 2 ^ 63.
Proof. lia. Qed.

#[export] Instance machine : Allocator := {|
  max_size := 2 ^ 32;
  refusal := machine_refusal;
  max_size_range := machine_size_range
|}.

(* ===================================================================== *)
(** * 12. Runs of the scripts on the implementation *)
(* ===================================================================== *)

(** The first draws of the generator seeded with 42 are the floats numpy
    prints as 0.3745401188473625, 0.9507143064099162 and
    0.7319939418114051, and [permutation(10)] for the seed 42 is numpy's
    [8 1 5 0 7 2 9 4 3 6]. *)
Example mt19937_first_doubles :
  let (a, s1) := mt_double53 (mt_seed 42) in
  let (b, s2) := mt_double53 s1 in
  let (c, _) := mt_double53 s2 in
  (a, b, c) = (3373557479352566, 8563273192166996, 6593215287158609).
Proof. vm_compute. reflexivity. Qed.

Example permutation_10_seed_42 :
  fst (permutation 10 (seed 42))
  = inr [8; 1; 5; 0; 7; 2; 9; 4; 3; 6]%nat.
Proof. vm_compute. reflexivity. Qed.

(** [0.2] is the float [float_0_2], and [15 + 20 * 0.3745401188473625] is
    the float Python prints as 22.49080237694725. *)
Example round_binary64_examples :
  Qred (round_binary64 (1 # 5)) = float_0_2
  /\ Qred (fl (15 + fl (20 * Qmake 3373557479352566 9007199254740992)))
     = Qmake 3165299037627597 140737488355328.
Proof. split; vm_compute; reflexivity. Qed.

(** *** The generator on three samples *)
Definition three_samples : (exn + DataFrame) * mt_state :=
  Eval vm_compute in Generator.generate_dummy_data (G := mt19937) (Some 3) (mt_seed 0).

Lemma three_samples_run :
  Generator.generate_dummy_data (G := mt19937) (Some 3) (mt_seed 0) = three_samples.
Proof. vm_compute. reflexivity. Qed.

(** C5, witness: three samples are requested, three rows are returned. *)
Lemma generate_dummy_data_row_count_witness :
  0 <= 3 <= max_size
  /\ ((exists df s',
          Generator.generate_dummy_data (G := mt19937) (Some 3) (mt_seed 0) = (inr df, s')
          /\ Z.of_nat (nrows df) = 3
          /\ Z.of_nat (length (rows df)) = 3)
      /\ Generator.generate_dummy_data (G := mt19937) None (mt_seed 0)
         = Generator.generate_dummy_data (G := mt19937) (Some 1000) (mt_seed 0)).
Proof.
  assert (H : 0 <= 3 <= max_size) by (split; vm_compute; discriminate).
  split; [exact H |].
  exact (generate_dummy_data_row_count (G := mt19937) (L := machine) 3 (mt_seed 0) H).
Defined.

(** C5, counterexample to the claim as stated: [2^63] samples are
    requested and no table is returned.  The count does not fit the
    index type of numpy's arrays, so the first [uniform] raises, on this
    machine a [ValueError], and on every machine the exception of its
    allocator. *)
Lemma generate_dummy_data_refuses_large_count :
  Generator.generate_dummy_data (F := binary64_float) (G := mt19937) (L := machine)
                                (Some (2 ^ 63)) (mt_seed 0)
  = (inl (ValueError "Maximum allowed dimension exceeded"), mt_seed 42)
  /\ forall (F : Float64) (G : BitGenerator) (L : Allocator) (s : rng_state),
      Generator.generate_dummy_data (Some (2 ^ 63)) s
      = (inl (refusal (2 ^ 63)), seed 42).
Proof.
  split.
  - apply (generate_dummy_data_too_large (F := binary64_float) (G := mt19937)
             (L := machine) (2 ^ 63) (mt_seed 0)).
    vm_compute. reflexivity.
  - intros F G L s. apply generate_dummy_data_too_large.
    pose proof max_size_range. lia.
Qed.

(** C1, witness: the three rows generated from the seed are within their
    bounds. *)
Lemma generated_rows_within_bounds_witness :
  exists df s',
    Generator.generate_dummy_data (G := mt19937) (Some 3) (mt_seed 0) = (inr df, s')
    /\ Forall row_within_bounds (rows df).
Proof.
  eexists _, _. split; [exact three_samples_run |].
  exact (generated_rows_within_bounds (G := mt19937) _ _ _ _ three_samples_run).
Defined.

(** *** The trainer on a file of five rows *)

Definition five_rows_table : DataFrame :=
  Eval vm_compute in
    match read_table five_rows_text with
    | inr table => table
    | inl _ => empty_table
    end.

Lemma five_rows_parse : read_table five_rows_text = inr five_rows_table.
Proof. vm_cast_no_check (eq_refl (@inr exn DataFrame five_rows_table)). Qed.

Definition five_rows_inputs
  : DataFrame * (DataFrame * DataFrame * Series * Series) :=
  Eval vm_compute in
    match trainer_inputs five_rows_table with
    | inr inputs => inputs
    | inl _ => (empty_table, (empty_table, empty_table, empty_series, empty_series))
    end.

Lemma five_rows_inputs_run : trainer_inputs five_rows_table = inr five_rows_inputs.
Proof.
  vm_cast_no_check
    (eq_refl (@inr exn (DataFrame * (DataFrame * DataFrame * Series * Series))
                   five_rows_inputs)).
Qed.

Definition five_rows_features : DataFrame :=
  Eval vm_compute in
    match getitem_list (fst five_rows_inputs) trainer_features with
    | inr X => X
    | inl _ => empty_table
    end.

Definition five_rows_target : Series :=
  Eval vm_compute in
    match getitem (fst five_rows_inputs) trainer_target with
    | inr y => y
    | inl _ => empty_series
    end.

Definition five_rows_world : world (G := mt19937) :=
  {| np_random := mt_seed 0;
     files := {[ data_file := five_rows_text ]};
     write_faults := ∅;
     stdout := [] |}.

Lemma five_rows_world_file : files five_rows_world !! data_file = Some five_rows_text.
Proof. reflexivity. Qed.

Definition five_rows_outcome
  : (exn + trainer_globals (E := leaf_forest)) * world (G := mt19937) :=
  Eval vm_compute in Trainer.script five_rows_world.

Lemma five_rows_run : Trainer.script five_rows_world = five_rows_outcome.
Proof. vm_cast_no_check (eq_refl five_rows_outcome). Qed.

(** C8, witness: the run on the five rows; rows 4, 2, 0, 3 are the train
    partition and row 1 is the test partition. *)
Lemma split_partitions_rows_witness :
  exists (g : trainer_globals (E := leaf_forest)) (w' : world (G := mt19937))
         (X : DataFrame) (y : Series) (train test : list nat),
    Trainer.script five_rows_world = (inr g, w')
    /\ getitem_list (dummy_data g) trainer_features = inr X
    /\ getitem (dummy_data g) trainer_target = inr y
    /\ train_test_split (F := binary64_float) (G := mt19937) X y float_0_2 42
       = inr (X_train g, X_test g, y_train g, y_test g)
    /\ Permutation (train ++ test) (seq 0 (nrows X))
    /\ List.NoDup (train ++ test)
    /\ (forall i, In i train -> ~ In i test)
    /\ labelled_rows (X_train g) (y_train g) = map (labelled_row X y) train
    /\ labelled_rows (X_test g) (y_test g) = map (labelled_row X y) test
    /\ Permutation (labelled_rows (X_train g) (y_train g)
                    ++ labelled_rows (X_test g) (y_test g))
                   (labelled_rows X y)
    /\ s_index (y_train g) = df_index (X_train g)
    /\ s_index (y_test g) = df_index (X_test g)
    /\ (List.NoDup (df_index X) ->
        forall l, In l (df_index (X_train g)) -> ~ In l (df_index (X_test g))).
Proof.
  destruct (proj2 (split_partitions_rows
                     (F := binary64_float) (G := mt19937)
                     (P := generator_file_reader) (E := leaf_forest))
                  _ _ _ five_rows_run) as (X & y & HX & Hy & Hs).
  destruct (proj1 (split_partitions_rows
                     (F := binary64_float) (G := mt19937)
                     (P := generator_file_reader) (E := leaf_forest))
                  _ _ _ _ _ _ _ HX Hy Hs) as (train & test & H).
  eexists _, _, X, y, train, test.
  split; [exact five_rows_run |]. split; [exact HX |]. split; [exact Hy |].
  split; [exact Hs |]. exact H.
Defined.

(** C6, witness: the same run; it prints the accuracy 0 and a report. *)
Lemma accuracy_and_report_witness :
  exists (g : trainer_globals (E := leaf_forest)) (w' : world (G := mt19937)),
    Trainer.script five_rows_world = (inr g, w')
    /\ exists (a : Q) (report : list class_row),
        accuracy g = Float a
        /\ (0 <= a <= 1)%Q
        /\ stdout w' = (stdout five_rows_world
                        ++ [ [VStr "Accuracy:"; VCell (Float a)];
                             [VStr (newline ++ "Classification Report:")];
                             [VReport report] ])%list
        /\ (forall l, In l (map cr_label report) ->
                      In l (cells (s_values (y_test g))) \/ In l (y_pred g))
        /\ (forall c, In c (cells (s_values (y_test g))) \/ In c (y_pred g) ->
                      exists l, In l (map cr_label report) /\ cell_compare c l = Eq)
        /\ StronglySorted cell_lt (map cr_label report).
Proof.
  eexists _, _. split; [exact five_rows_run |].
  exact (accuracy_and_report _ _ _ five_rows_run).
Defined.

(** C3, witness: the five feature rows are split into four and one. *)
Lemma train_test_split_sizes_witness :
  aligned five_rows_features five_rows_target
  /\ Z.of_nat (nrows five_rows_features) < 2 ^ 50
  /\ ((2 <= nrows five_rows_features)%nat ->
      exists Xtr Xte ytr yte,
        train_test_split (F := binary64_float) (G := mt19937)
                         five_rows_features five_rows_target float_0_2 42
        = inr (Xtr, Xte, ytr, yte)
        /\ Z.of_nat (nrows Xte) = test_count (F := binary64_float) (nrows five_rows_features)
        /\ (nrows five_rows_features <= 5 * nrows Xte <= nrows five_rows_features + 5)%nat
        /\ (nrows Xtr + nrows Xte = nrows five_rows_features)%nat
        /\ (1 <= nrows Xtr)%nat
        /\ length (cells (s_values ytr)) = nrows Xtr
        /\ length (cells (s_values yte)) = nrows Xte)
  /\ ((nrows five_rows_features <= 1)%nat ->
      train_test_split (F := binary64_float) (G := mt19937)
                       five_rows_features five_rows_target float_0_2 42
      = inl (ValueError "the resulting train set will be empty")).
Proof.
  assert (H1 : aligned five_rows_features five_rows_target).
  { split; [repeat constructor |]. split; reflexivity. }
  assert (H2 : Z.of_nat (nrows five_rows_features) < 2 ^ 50) by reflexivity.
  split; [exact H1 |]. split; [exact H2 |].
  exact (train_test_split_sizes (F := binary64_float) (G := mt19937)
           five_rows_features five_rows_target H1 H2).
Defined.

(** C2, witness: the table of the five rows; its climate column holds the
    three values and no other. *)
Lemma get_dummies_climate_zone_witness :
  well_formed five_rows_table
  /\ lookup_column "Climate Zone" (df_columns five_rows_table)
     = Some (ObjCol [Some "Arctic"; Some "Arctic"; Some "Tropical"; Some "Tropical";
                     Some "Temperate"])
  /\ exists df' inds,
      get_dummies (F := binary64_float) five_rows_table ["Climate Zone"] = inr df'
      /\ df_index df' = df_index five_rows_table
      /\ df_columns df'
         = (List.filter (fun nc => negb (String.eqb (fst nc) "Climate Zone"))
                        (df_columns five_rows_table)
            ++ inds)%list
      /\ inds = [ ("Climate Zone_Arctic",
                   BoolCol [true; true; false; false; false]);
                  ("Climate Zone_Temperate",
                   BoolCol [false; false; false; false; true]);
                  ("Climate Zone_Tropical",
                   BoolCol [false; false; true; true; false]) ]
      /\ forall i, (i < 5)%nat -> exactly_one_set (indicator_row inds i).
Proof.
  assert (H1 : well_formed five_rows_table)
    by exact (read_table_well_formed _ _ five_rows_parse).
  assert (H2 : lookup_column "Climate Zone" (df_columns five_rows_table)
               = Some (ObjCol [Some "Arctic"; Some "Arctic"; Some "Tropical";
                               Some "Tropical"; Some "Temperate"])) by reflexivity.
  assert (H3 : forall z, In z [Some "Arctic"; Some "Arctic"; Some "Tropical";
                              Some "Tropical"; Some "Temperate"] ->
                         exists s, z = Some s /\ In s climate_values).
  { unfold climate_values. simpl.
    intros z [<- | [<- | [<- | [<- | [<- | []]]]]]; eexists; (split; [reflexivity |]);
      simpl; auto. }
  assert (H4 : forall s, In s climate_values ->
                         In (Some s) [Some "Arctic"; Some "Arctic"; Some "Tropical";
                                      Some "Tropical"; Some "Temperate"]).
  { unfold climate_values. simpl. intros s [<- | [<- | [<- | []]]]; auto 10. }
  split; [exact H1 |]. split; [exact H2 |].
  exact (get_dummies_climate_zone (F := binary64_float) _ _ H1 H2 H3 H4).
Defined.

(** *** The trainer on a file without a Tropical row *)

Definition two_rows_table : DataFrame :=
  Eval vm_compute in
    match read_table two_rows_text with
    | inr table => table
    | inl _ => empty_table
    end.

Lemma two_rows_parse : read_table two_rows_text = inr two_rows_table.
Proof. vm_cast_no_check (eq_refl (@inr exn DataFrame two_rows_table)). Qed.

Definition two_rows_world : world (G := mt19937) :=
  {| np_random := mt_seed 0;
     files := {[ data_file := two_rows_text ]};
     write_faults := ∅;
     stdout := [] |}.

(** C9, witness: the file has an Arctic and a Temperate row; the selection
    raises a [KeyError] for Climate Zone_Tropical and the trainer ends
    with it. *)
Lemma missing_climate_value_key_error_witness :
  exists dd missing,
    get_dummies (F := binary64_float) two_rows_table ["Climate Zone"] = inr dd
    /\ getitem_list dd trainer_features = inl (KeyError missing)
    /\ In ("Climate Zone_" ++ "Tropical") missing
    /\ Trainer.script (F := binary64_float) (P := generator_file_reader)
                      (E := leaf_forest) two_rows_world
       = (inl (KeyError missing), two_rows_world).
Proof.
  assert (H1 : files two_rows_world !! data_file = Some two_rows_text) by reflexivity.
  assert (H2 : lookup_column "Climate Zone" (df_columns two_rows_table)
               = Some (ObjCol [Some "Arctic"; Some "Temperate"])) by reflexivity.
  assert (H3 : In "Tropical" climate_values) by (unfold climate_values; simpl; auto).
  assert (H4 : ~ In (Text "Tropical") (cells (ObjCol [Some "Arctic"; Some "Temperate"]))).
  { simpl. intuition discriminate. }
  assert (H5 : ~ In ("Climate Zone_" ++ "Tropical") (column_names two_rows_table)).
  { vm_compute. intuition discriminate. }
  exact (missing_climate_value_key_error
           (F := binary64_float) (P := generator_file_reader) (E := leaf_forest)
           two_rows_world two_rows_text two_rows_table _ "Tropical"
           H1 two_rows_parse H2 H3 H4 H5).
Defined.

(** Whatever the classifier, the run on the five rows has the Wheat row
    as its test partition and no Wheat row in its train partition. *)
Lemma five_rows_partitions
      (E : Estimator) (g : trainer_globals) (w' : world (G := mt19937)) :
  Trainer.script (F := binary64_float) (P := generator_file_reader) five_rows_world
  = (inr g, w') ->
  cells (s_values (y_train g)) = [Text "Corn"; Text "Potatoes"; Text "Soybeans"; Text "Potatoes"]
  /\ cells (s_values (y_test g)) = [Text "Wheat"].
Proof.
  intros Hrun.
  destruct (trainer_script_inv _ _ _ Hrun) as (text & table & X & y & report & R).
  destruct R as [Hfile Hparse Hdummies HX Hy Hsplit _ _ _ _ _ _ _].
  rewrite five_rows_world_file in Hfile. injection Hfile as <-.
  change (read_table five_rows_text = inr table) in Hparse.
  rewrite five_rows_parse in Hparse. injection Hparse as <-.
  pose proof five_rows_inputs_run as Hinputs.
  unfold trainer_inputs in Hinputs.
  rewrite Hdummies in Hinputs. simpl rbind in Hinputs.
  rewrite HX in Hinputs. simpl rbind in Hinputs.
  rewrite Hy in Hinputs. simpl rbind in Hinputs.
  rewrite Hsplit in Hinputs. simpl rbind in Hinputs.
  unfold five_rows_inputs in Hinputs.
  injection Hinputs as _ _ _ -> ->. split; reflexivity.
Qed.

(** C6, counterexample to the claim as stated: in the run on the five
    rows the test partition holds the one label Wheat, and the report
    that is printed has two lines, one of them for Potatoes, a label that
    is absent from the test partition.  This is not a matter of the
    classifier: with any classifier that predicts classes it was fitted
    on, a run on this file prints a report with a line for a label that
    the test partition does not hold. *)
Lemma report_lists_label_absent_from_test :
  (exists (g : trainer_globals (E := leaf_forest)) (w' : world (G := mt19937))
          (report : list class_row),
      Trainer.script five_rows_world = (inr g, w')
      /\ cells (s_values (y_test g)) = [Text "Wheat"]
      /\ List.last (stdout w') [] = [VReport report]
      /\ map cr_label report = [Text "Potatoes"; Text "Wheat"]
      /\ ~ In (Text "Potatoes") (cells (s_values (y_test g))))
  /\ (forall (E : Estimator) (g : trainer_globals) (w' : world (G := mt19937)),
         Trainer.script (F := binary64_float) (P := generator_file_reader)
                        five_rows_world = (inr g, w') ->
         exists report l,
           List.last (stdout w') [] = [VReport report]
           /\ In l (map cr_label report)
           /\ ~ In l (cells (s_values (y_test g)))).
Proof.
  split.
  - eexists _, _, _. split; [exact five_rows_run |].
    split; [reflexivity |]. split; [reflexivity |]. split; [reflexivity |].
    simpl. intuition discriminate.
  - intros E g w' Hrun.
    destruct (five_rows_partitions E g w' Hrun) as [Htrain Htest].
    apply (report_line_outside_test _ _ _ Hrun).
    rewrite Htrain, Htest. simpl.
    intros c d [<- | [<- | [<- | [<- | []]]]] [<- | []]; discriminate.
Qed.

(** *** What the scripts leave behind *)

(** X3, witness: the run on the five rows; its file has five rows. *)
Lemma trainer_needs_two_rows_witness :
  exists (g : trainer_globals (E := leaf_forest)) (w' : world (G := mt19937)),
    Trainer.script five_rows_world = (inr g, w')
    /\ exists text table,
        files five_rows_world !! data_file = Some text
        /\ parse_csv text = inr table
        /\ (2 <= nrows table)%nat
        /\ (1 <= nrows (X_test g))%nat.
Proof.
  eexists _, _. split; [exact five_rows_run |].
  exact (trainer_needs_two_rows _ _ _ five_rows_run).
Defined.

(** X2, witness: the generator started in the world of the five rows,
    where the data file can be written. *)
Lemma generator_script_effects_witness :
  1000 <= max_size
  /\ exists df s',
      Generator.generate_dummy_data (F := binary64_float) None (np_random five_rows_world)
      = (inr df, s')
      /\ nrows df = 1000%nat
      /\ nrows (df_head df) = 5%nat
      /\ match write_faults five_rows_world !! data_file with
         | None =>
             exists w',
               Generator.script five_rows_world = (inr df, w')
               /\ stdout w' = (stdout five_rows_world ++ [[VFrame (df_head df)]])%list
               /\ files w' !! data_file = Some (csv_text df)
               /\ forall path, path <> data_file ->
                               files w' !! path = files five_rows_world !! path
         | Some (msg, kept) =>
             exists w',
               Generator.script five_rows_world = (inl (OSError msg), w')
               /\ stdout w' = (stdout five_rows_world ++ [[VFrame (df_head df)]])%list
               /\ files w' !! data_file
                  = match kept with
                    | None => files five_rows_world !! data_file
                    | Some k => Some (String.substring 0 k (csv_text df))
                    end
               /\ forall path, path <> data_file ->
                               files w' !! path = files five_rows_world !! path
         end.
Proof.
  assert (H : 1000 <= max_size) by (vm_compute; discriminate).
  split; [exact H |].
  exact (generator_script_effects (F := binary64_float) (G := mt19937) (L := machine)
           five_rows_world H).
Defined.


(** *** What the trainer leaves when it fails *)

Definition two_rows_outcome
  : (exn + trainer_globals (E := leaf_forest)) * world (G := mt19937) :=
  Eval vm_compute in Trainer.script two_rows_world.

Lemma two_rows_run : Trainer.script two_rows_world = two_rows_outcome.
Proof. vm_cast_no_check (eq_refl two_rows_outcome). Qed.

(** The world of the five rows with a model file that is there and
    cannot be opened for writing. *)
Definition five_rows_locked : world (G := mt19937) :=
  {| np_random := mt_seed 0;
     files := {[ data_file := five_rows_text; model_file := "an earlier model" ]};
     write_faults := {[ model_file := ("Permission denied", None) ]};
     stdout := [] |}.

Definition five_rows_locked_outcome
  : (exn + trainer_globals (E := leaf_forest)) * world (G := mt19937) :=
  Eval vm_compute in Trainer.script five_rows_locked.

Lemma five_rows_locked_run :
  Trainer.script five_rows_locked = five_rows_locked_outcome.
Proof. vm_cast_no_check (eq_refl five_rows_locked_outcome). Qed.

(** The run on the file without a Tropical row raises and leaves its
    world; the run with the locked model file raises the [OSError] of
    the write after its three prints, and the earlier model is still
    there. *)
Example trainer_failures :
  (exists missing,
      Trainer.script (E := leaf_forest) two_rows_world
      = (inl (KeyError missing), two_rows_world))
  /\ exists w',
      Trainer.script (E := leaf_forest) five_rows_locked
      = (inl (OSError "Permission denied"), w')
      /\ length (stdout w') = 3%nat
      /\ files w' !! model_file = Some "an earlier model".
Proof.
  split.
  - eexists. exact two_rows_run.
  - eexists. split; [exact five_rows_locked_run |]. split; reflexivity.
Qed.

(** X6, witness: the run with the locked model file. *)
Lemma trainer_failure_leaves_world_witness :
  exists e w',
    Trainer.script five_rows_locked = (inl e, w')
    /\ (w' = five_rows_locked
        \/ exists msg kept (c : @forest leaf_forest) acc report,
             write_faults five_rows_locked !! model_file = Some (msg, kept)
             /\ e = OSError msg
             /\ np_random w' = np_random five_rows_locked
             /\ stdout w'
                = (stdout five_rows_locked
                   ++ [ [VStr "Accuracy:"; VCell acc];
                        [VStr (newline ++ "Classification Report:")];
                        [VReport report] ])%list
             /\ files w' !! model_file
                = match kept with
                  | None => files five_rows_locked !! model_file
                  | Some k => Some (String.substring 0 k (joblib_bytes c))
                  end
             /\ forall path, path <> model_file ->
                             files w' !! path = files five_rows_locked !! path).
Proof.
  eexists _, _. split; [exact five_rows_locked_run |].
  exact (trainer_failure_leaves_world _ _ _ five_rows_locked_run).
Defined.

(** X8, witness: the run on the five rows. *)
Lemma classifier_sees_features_only_witness :
  exists (g : trainer_globals (E := leaf_forest)) (w' : world (G := mt19937)),
    Trainer.script five_rows_world = (inr g, w')
    /\ (forall name, In name (column_names (X_train g)) <-> In name trainer_features)
    /\ column_names (X_test g) = column_names (X_train g)
    /\ ~ In trainer_target (column_names (X_train g))
    /\ ~ In "Climate Zone" (column_names (X_train g))
    /\ (List.NoDup (column_names (dummy_data g)) ->
        column_names (X_train g) = trainer_features).
Proof.
  eexists _, _. split; [exact five_rows_run |].
  exact (classifier_sees_features_only _ _ _ five_rows_run).
Defined.

(** X12, witness: the same run. *)
Lemma report_labels_from_target_column_witness :
  exists (g : trainer_globals (E := leaf_forest)) (w' : world (G := mt19937)),
    Trainer.script five_rows_world = (inr g, w')
    /\ exists y report,
        getitem (dummy_data g) trainer_target = inr y
        /\ classification_report (cells (s_values (y_test g))) (y_pred g) = inr report
        /\ length (y_pred g) = nrows (X_test g)
        /\ Forall (fun c => In c (cells (s_values y))) (y_pred g)
        /\ Forall (fun r => In (cr_label r) (cells (s_values y))) report.
Proof.
  eexists _, _. split; [exact five_rows_run |].
  exact (report_labels_from_target_column _ _ _ five_rows_run).
Defined.

(** X17, witness: the file of the five rows has the generator's schema
    and holds the three zones. *)
Lemma trainer_succeeds_on_schema_witness :
  files five_rows_world !! data_file = Some five_rows_text
  /\ column_names five_rows_table = generator_schema
  /\ (2 <= nrows five_rows_table)%nat
  /\ exists dd Xtr Xte ytr yte,
      trainer_inputs (F := binary64_float) (G := mt19937) five_rows_table
      = inr (dd, (Xtr, Xte, ytr, yte))
      /\ column_names Xtr = trainer_features
      /\ (nrows Xtr + nrows Xte = nrows five_rows_table)%nat
      /\ forall c yp,
          rf_fit (Estimator := leaf_forest) 100 42 Xtr ytr = inr c ->
          rf_predict c Xte = inr yp ->
          check_targets (cells (s_values yte)) yp = inr tt ->
          match write_faults five_rows_world !! model_file with
          | None =>
              exists g w',
                Trainer.script five_rows_world = (inr g, w')
                /\ clf g = c /\ y_pred g = yp
                /\ X_train g = Xtr /\ X_test g = Xte
                /\ y_train g = ytr /\ y_test g = yte
          | Some (msg, kept) =>
              exists w', Trainer.script five_rows_world = (inl (OSError msg), w')
          end.
Proof.
  assert (H1 : column_names five_rows_table = generator_schema) by reflexivity.
  assert (H2 : lookup_column "Climate Zone" (df_columns five_rows_table)
               = Some (ObjCol [Some "Arctic"; Some "Arctic"; Some "Tropical";
                               Some "Tropical"; Some "Temperate"])) by reflexivity.
  assert (H3 : forall z, In z [Some "Arctic"; Some "Arctic"; Some "Tropical";
                              Some "Tropical"; Some "Temperate"] ->
                         exists s, z = Some s /\ In s climate_values).
  { unfold climate_values. simpl.
    intros z [<- | [<- | [<- | [<- | [<- | []]]]]]; eexists; (split; [reflexivity |]);
      simpl; auto. }
  assert (H4 : forall s, In s climate_values ->
                         In (Some s) [Some "Arctic"; Some "Arctic"; Some "Tropical";
                                      Some "Tropical"; Some "Temperate"]).
  { unfold climate_values. simpl. intros s [<- | [<- | [<- | []]]]; auto 10. }
  assert (H5 : (2 <= nrows five_rows_table)%nat) by (unfold nrows; simpl; lia).
  assert (H6 : Z.of_nat (nrows five_rows_table) < 2 ^ 50) by reflexivity.
  split; [exact five_rows_world_file |]. split; [exact H1 |]. split; [exact H5 |].
  exact (trainer_succeeds_on_schema
           (F := binary64_float) (P := generator_file_reader) (E := leaf_forest)
           five_rows_world five_rows_text five_rows_table _
           five_rows_world_file five_rows_parse H1 H2 H3 H4 H5 H6).
Defined.

(** *** One-hot encoding and split of the five rows *)

(** X13, witness: the climate column of the five rows. *)
Lemma get_dummies_one_hot_witness :
  well_formed five_rows_table
  /\ exists df' inds,
      get_dummies (F := binary64_float) five_rows_table ["Climate Zone"] = inr df'
      /\ df_index df' = df_index five_rows_table
      /\ df_columns df'
         = (List.filter (fun nc => negb (String.eqb (fst nc) "Climate Zone"))
                        (df_columns five_rows_table)
            ++ inds)%list
      /\ map fst inds
         = map (fun v => "Climate Zone" ++ "_" ++ v)
               (sort_uniq String.compare
                          (present [Some "Arctic"; Some "Arctic"; Some "Tropical";
                                    Some "Tropical"; Some "Temperate"]))
      /\ (forall v, In ("Climate Zone" ++ "_" ++ v) (map fst inds)
                    <-> In (Some v) [Some "Arctic"; Some "Arctic"; Some "Tropical";
                                     Some "Tropical"; Some "Temperate"])
      /\ forall i, (i < 5)%nat ->
           match nth i [Some "Arctic"; Some "Arctic"; Some "Tropical";
                        Some "Tropical"; Some "Temperate"] None with
           | Some v => exactly_one_set (indicator_row inds i)
           | None => Forall (fun c => c = Flag false) (indicator_row inds i)
           end.
Proof.
  assert (H1 : well_formed five_rows_table)
    by exact (read_table_well_formed _ _ five_rows_parse).
  assert (H2 : lookup_column "Climate Zone" (df_columns five_rows_table)
               = Some (ObjCol [Some "Arctic"; Some "Arctic"; Some "Tropical";
                               Some "Tropical"; Some "Temperate"])) by reflexivity.
  split; [exact H1 |].
  exact (get_dummies_one_hot (F := binary64_float) _ _ _ H1 H2).
Defined.

(** The five rows without their columns: the same index, nothing else. *)
Definition five_rows_index_only : DataFrame :=
  {| df_index := df_index five_rows_features; df_columns := [] |}.

Definition five_rows_split : exn + (DataFrame * DataFrame * Series * Series) :=
  Eval vm_compute in
    train_test_split (F := binary64_float) (G := mt19937)
                     five_rows_features five_rows_target float_0_2 42.

Lemma five_rows_split_run :
  train_test_split (F := binary64_float) (G := mt19937)
                   five_rows_features five_rows_target float_0_2 42
  = five_rows_split.
Proof. vm_compute. reflexivity. Qed.

Definition five_rows_index_split : exn + (DataFrame * DataFrame * Series * Series) :=
  Eval vm_compute in
    train_test_split (F := binary64_float) (G := mt19937)
                     five_rows_index_only five_rows_target float_0_2 42.

Lemma five_rows_index_split_run :
  train_test_split (F := binary64_float) (G := mt19937)
                   five_rows_index_only five_rows_target float_0_2 42
  = five_rows_index_split.
Proof. vm_compute. reflexivity. Qed.

(** X15, witness: the five rows and their bare index are split at the
    same positions. *)
Lemma split_positions_depend_on_row_count_witness :
  df_index five_rows_features = df_index five_rows_index_only
  /\ exists Xtr Xte ytr yte Xtr' Xte' ytr' yte',
      train_test_split (F := binary64_float) (G := mt19937)
                       five_rows_features five_rows_target float_0_2 42
      = inr (Xtr, Xte, ytr, yte)
      /\ train_test_split (F := binary64_float) (G := mt19937)
                          five_rows_index_only five_rows_target float_0_2 42
         = inr (Xtr', Xte', ytr', yte')
      /\ df_index Xtr = df_index Xtr' /\ df_index Xte = df_index Xte'.
Proof.
  assert (H : df_index five_rows_features = df_index five_rows_index_only)
    by reflexivity.
  split; [exact H |].
  eexists _, _, _, _, _, _, _, _.
  split; [exact five_rows_split_run |]. split; [exact five_rows_index_split_run |].
  exact (split_positions_depend_on_row_count
           (F := binary64_float) (G := mt19937)
           five_rows_features five_rows_index_only _ _ _ _
           five_rows_target five_rows_target _ _ _ _ 42
           H five_rows_split_run five_rows_index_split_run).
Defined.

(** The five rows under one index label, as a file gives them whose
    lines start with the same extra field. *)
Definition five_rows_one_label : DataFrame :=
  {| df_index := [7; 7; 7; 7; 7]%nat; df_columns := df_columns five_rows_features |}.

Definition five_targets_one_label : Series :=
  {| s_index := [7; 7; 7; 7; 7]%nat; s_values := s_values five_rows_target |}.

(** The split is by position: with a repeated index label the partitions
    share the label, though they share no row. *)
Example repeated_label_in_both_partitions :
  match train_test_split (F := binary64_float) (G := mt19937)
                         five_rows_one_label five_targets_one_label float_0_2 42 with
  | inr (Xtr, Xte, _, _) =>
      In 7%nat (df_index Xtr) /\ In 7%nat (df_index Xte)
      /\ length (df_index Xtr) = 4%nat /\ length (df_index Xte) = 1%nat
  | inl _ => False
  end.
Proof. vm_compute. auto 10. Qed.

(** X16, witness: five rows give one test row and four train rows. *)
Lemma split_sizes_binary64_witness :
  aligned five_rows_features five_rows_target
  /\ exists Xtr Xte ytr yte,
      train_test_split (F := binary64_float) (G := mt19937)
                       five_rows_features five_rows_target float_0_2 42
      = inr (Xtr, Xte, ytr, yte)
      /\ Z.of_nat (nrows Xte) = (Z.of_nat (nrows five_rows_features) + 4) / 5
      /\ (nrows Xtr + nrows Xte = nrows five_rows_features)%nat
      /\ (nrows five_rows_features = 1000%nat ->
          nrows Xte = 200%nat /\ nrows Xtr = 800%nat).
Proof.
  assert (H1 : aligned five_rows_features five_rows_target).
  { split; [repeat constructor |]. split; reflexivity. }
  assert (H2 : (2 <= nrows five_rows_features)%nat) by (unfold nrows; simpl; lia).
  assert (H3 : Z.of_nat (nrows five_rows_features) < 2 ^ 50) by reflexivity.
  split; [exact H1 |].
  exact (split_sizes_binary64 (G := mt19937) _ _ 42 H1 H2 H3).
Defined.

(** *** Metrics of three test rows *)

Definition three_rows_report : list class_row :=
  Eval vm_compute in
    match classification_report (F := binary64_float) (E := leaf_forest)
                                three_targets three_predictions with
    | inr report => report
    | inl _ => []
    end.

Lemma three_rows_report_run :
  classification_report (F := binary64_float) (E := leaf_forest)
                        three_targets three_predictions
  = inr three_rows_report.
Proof. vm_compute. reflexivity. Qed.

(** X10, witness: two lines, Corn with support 2 and Rice with
    support 1. *)
Lemma classification_report_counts_witness :
  classification_report (F := binary64_float) (E := leaf_forest)
                        three_targets three_predictions
  = inr three_rows_report
  /\ Forall (fun r =>
               (0 <= cr_precision r <= 1)%Q
               /\ (0 <= cr_recall r <= 1)%Q
               /\ (0 <= cr_f1 r <= 1)%Q
               /\ cr_support r
                  = length (List.filter (fun t => cell_eqb t (cr_label r)) three_targets))
            three_rows_report
  /\ (~ In NaN three_targets ->
      list_sum (map cr_support three_rows_report) = length three_targets).
Proof.
  split; [exact three_rows_report_run |].
  exact (classification_report_counts (F := binary64_float) (E := leaf_forest)
           _ _ _ three_rows_report_run).
Defined.

Definition three_rows_accuracy : Q :=
  Eval vm_compute in
    match accuracy_score (F := binary64_float) (E := leaf_forest)
                         three_targets three_predictions with
    | inr (Float a) => a
    | _ => 0%Q
    end.

Lemma three_rows_accuracy_run :
  accuracy_score (F := binary64_float) (E := leaf_forest)
                 three_targets three_predictions
  = inr (Float three_rows_accuracy).
Proof. vm_compute. reflexivity. Qed.

(** X11, witness: two of three predictions are right; the accuracy is
    neither 0 nor 1. *)
Lemma accuracy_score_extremes_witness :
  Z.of_nat (length three_targets) <= 2 ^ 53
  /\ accuracy_score (F := binary64_float) (E := leaf_forest)
                    three_targets three_predictions
     = inr (Float three_rows_accuracy)
  /\ ((three_rows_accuracy == 1)%Q
      <-> Forall2 (fun t p => cell_eqb t p = true) three_targets three_predictions)
  /\ ((three_rows_accuracy == 0)%Q
      <-> Forall2 (fun t p => cell_eqb t p = false) three_targets three_predictions).
Proof.
  assert (H1 : Z.of_nat (length three_targets) <= 2 ^ 53) by (simpl; lia).
  split; [exact H1 |]. split; [exact three_rows_accuracy_run |].
  exact (accuracy_score_extremes (F := binary64_float) (E := leaf_forest)
           _ _ _ H1 three_rows_accuracy_run).
Defined.

(** *** The generator on two and on three samples *)

Definition two_samples : (exn + DataFrame) * mt_state :=
  Eval vm_compute in Generator.generate_dummy_data (G := mt19937) (Some 2) (mt_seed 0).

Lemma two_samples_run :
  Generator.generate_dummy_data (G := mt19937) (Some 2) (mt_seed 0) = two_samples.
Proof. vm_compute. reflexivity. Qed.

(** X14, witness: the two temperatures of the smaller table are the
    first two of the larger. *)
Lemma temperature_prefix_witness :
  0 <= 2 <= 3
  /\ exists df_k s1' df_n s2',
      Generator.generate_dummy_data (G := mt19937) (Some 2) (mt_seed 0) = (inr df_k, s1')
      /\ Generator.generate_dummy_data (G := mt19937) (Some 3) (mt_seed 0) = (inr df_n, s2')
      /\ exists tk tn,
          lookup_column "Temperature (Celsius)" (df_columns df_k) = Some (FloatCol tk)
          /\ lookup_column "Temperature (Celsius)" (df_columns df_n) = Some (FloatCol tn)
          /\ length tk = Z.to_nat 2
          /\ tk = firstn (Z.to_nat 2) tn.
Proof.
  assert (H : 0 <= 2 <= 3) by lia.
  split; [exact H |].
  eexists _, _, _, _. split; [exact two_samples_run |]. split; [exact three_samples_run |].
  exact (temperature_prefix (G := mt19937) 2 3 _ _ _ _ _ _ H
           two_samples_run three_samples_run).
Defined.

(** *** The trainer on a file without a climate column *)

Definition no_zone_table : DataFrame :=
  Eval vm_compute in
    match read_table no_zone_text with
    | inr table => table
    | inl _ => empty_table
    end.

Lemma no_zone_parse : read_table no_zone_text = inr no_zone_table.
Proof. vm_cast_no_check (eq_refl (@inr exn DataFrame no_zone_table)). Qed.

Definition no_zone_world : world (G := mt19937) :=
  {| np_random := mt_seed 0;
     files := {[ data_file := no_zone_text ]};
     write_faults := ∅;
     stdout := [] |}.

(** X18, witness: the file has no 'Climate Zone' column; the trainer ends
    with the [KeyError] of the encoding. *)
Lemma missing_column_key_error_witness :
  files no_zone_world !! data_file = Some no_zone_text
  /\ ~ In "Climate Zone" (column_names no_zone_table)
  /\ Trainer.script (F := binary64_float) (P := generator_file_reader)
                    (E := leaf_forest) no_zone_world
     = (inl (KeyError ["Climate Zone"]), no_zone_world).
Proof.
  assert (H1 : files no_zone_world !! data_file = Some no_zone_text) by reflexivity.
  assert (H2 : ~ In "Climate Zone" (column_names no_zone_table)).
  { vm_compute. intuition discriminate. }
  split; [exact H1 |]. split; [exact H2 |].
  exact (proj1 (missing_column_key_error
                  (F := binary64_float) (P := generator_file_reader) (E := leaf_forest)
                  no_zone_world no_zone_text no_zone_table H1 no_zone_parse) H2).
Defined.
